(** * Fantasy Football MCP server: the resilient data-access layer

    A shallow embedding of [fantasy_football_multi_league.py]: the access
    gateway [yahoo_api_call], the credential refresher [refresh_yahoo_token],
    the league discovery memo [discover_leagues] and the retrieval helpers and
    tools built on them.

    Python values are an inductive type, Python exceptions a result type, and
    the [async] functions are state transformers over the process state
    (globals, [os.environ], the response cache) that also log every external
    effect (cache lookups and stores, rate-limiter permits, HTTP requests) in
    a trace, so that ordering and counting properties can be stated. *)

From Stdlib Require Import ZArith PrimFloat SpecFloat FloatOps Sorted.
From stdpp Require Import base gmap strings list pretty.

Open Scope string_scope.
Open Scope Z_scope.

(** ** Python values *)

(** JSON payloads and the dictionaries the code builds.  A [dict] keeps its
    insertion order, which the [for key in ...] loops of the source observe;
    all keys are strings (JSON objects, and string literals in the code).
    [PyObject name] is the object a module-level or builtin name is bound to
    when it is not data (a module, a class, a function). *)
#[warnings="-register-all"]
Inductive PyVal : Type :=
| PyNone
| PyBool (b : bool)
| PyInt (n : Z)
| PyFloat (f : float)
| PyStr (s : string)
| PyList (l : list PyVal)
| PyDict (d : list (string * PyVal))
| PyObject (name : string).

Definition type_name (v : PyVal) : string :=
  match v with
  | PyNone => "NoneType"
  | PyBool _ => "bool"
  | PyInt _ => "int"
  | PyFloat _ => "float"
  | PyStr _ => "str"
  | PyList _ => "list"
  | PyDict _ => "dict"
  | PyObject _ => "object"
  end.

(** ** Exceptions *)

(** The exception classes the code can meet.  Every one of them derives from
    [Exception], so an [except Exception] clause catches them all. *)
Inductive ExcClass : Type :=
| Exception
| NameError
| TypeError
| KeyError
| IndexError
| AttributeError
| ValueError
| OverflowError
| ClientError
| ToolError.

Record PyExc : Type := mkExc { exc_class : ExcClass; exc_msg : string }.

(** [str(e)] *)
Definition exc_str (e : PyExc) : string := exc_msg e.

(** The result of evaluating an expression: a value or a raised exception. *)
Inductive Res (A : Type) : Type :=
| Ok (a : A)
| Raise (e : PyExc).
Arguments Ok {A} a.
Arguments Raise {A} e.

Definition res_bind {A B : Type} (r : Res A) (k : A -> Res B) : Res B :=
  match r with
  | Ok a => k a
  | Raise e => Raise e
  end.

Declare Scope res_scope.
Delimit Scope res_scope with res.
Notation "x <- r ;; k" := (res_bind r (fun x => k))
  (at level 100, r at next level, right associativity) : res_scope.

Definition raise_type_error {A : Type} (msg : string) : Res A :=
  Raise (mkExc TypeError msg).

(** ** Strings *)

(** A Python string is a sequence of characters (code points); a [string] of
    Rocq is a sequence of bytes.  It holds the UTF-8 encoding of the Python
    string, in which a character is one byte below 128, or a lead byte
    followed by continuation bytes (codes 128 to 191).  Equality, order and
    substring search on the encodings are those on the characters. *)
Definition is_continuation (c : Ascii.ascii) : bool :=
  let n := Ascii.nat_of_ascii c in
  Nat.leb 128 n && Nat.ltb n 192.

(** [len(s)]: the number of characters *)
Fixpoint str_length (s : string) : nat :=
  match s with
  | EmptyString => O
  | String c s' =>
      if is_continuation c then str_length s' else S (str_length s')
  end.

(** [s[:n]]: the first [n] characters, each with its continuation bytes *)
Fixpoint str_take (n : nat) (s : string) {struct s} : string :=
  match s with
  | EmptyString => EmptyString
  | String c s' =>
      if is_continuation c then String c (str_take n s')
      else
        match n with
        | O => EmptyString
        | S n' => String c (str_take n' s')
        end
  end.

Fixpoint str_prefix (p s : string) : bool :=
  match p, s with
  | EmptyString, _ => true
  | String a p', String b s' => if Ascii.eqb a b then str_prefix p' s' else false
  | String _ _, EmptyString => false
  end.

(** [p in s] on two strings *)
Fixpoint str_contains (p s : string) : bool :=
  str_prefix p s ||
  match s with
  | EmptyString => false
  | String _ s' => str_contains p s'
  end.

(** The characters of a string, in order: a byte joins the character that
    follows it when that one starts with a continuation byte. *)
Fixpoint str_chars (s : string) : list string :=
  match s with
  | EmptyString => []
  | String c s' =>
      let chars := str_chars s' in
      match s', chars with
      | String c' _, ch :: rest =>
          if is_continuation c' then String c ch :: rest
          else String c EmptyString :: chars
      | _, _ => String c EmptyString :: chars
      end
  end.

(** [a < b] on strings: lexicographic on the characters. *)
Fixpoint str_ltb (a b : string) : bool :=
  match a, b with
  | _, EmptyString => false
  | EmptyString, String _ _ => true
  | String x a', String y b' =>
      let nx := Ascii.nat_of_ascii x in
      let ny := Ascii.nat_of_ascii y in
      if Nat.ltb nx ny then true
      else if Nat.ltb ny nx then false
      else str_ltb a' b'
  end.

(** ** Numbers *)

(** The exact value of a finite float is [(-1)^s * m * 2^e]; [n ? f] compares
    an integer with it, as Python does, without rounding the integer. *)
Definition Z_float_compare (n : Z) (f : float) : option comparison :=
  match Prim2SF f with
  | S754_zero _ => Some (n ?= 0)
  | S754_infinity false => Some Lt
  | S754_infinity true => Some Gt
  | S754_nan => None
  | S754_finite s m e =>
      let v := if s then Z.neg m else Z.pos m in
      if 0 <=? e then Some (n ?= v * 2 ^ e)
      else Some (n * 2 ^ (- e) ?= v)
  end.

Inductive PyNum : Type :=
| NumInt (n : Z)
| NumFloat (f : float).

(** [bool] is a subclass of [int]. *)
Definition as_num (v : PyVal) : option PyNum :=
  match v with
  | PyBool b => Some (NumInt (if b then 1 else 0))
  | PyInt n => Some (NumInt n)
  | PyFloat f => Some (NumFloat f)
  | _ => None
  end.

Definition num_eqb (a b : PyNum) : bool :=
  match a, b with
  | NumInt x, NumInt y => x =? y
  | NumInt x, NumFloat g =>
      match Z_float_compare x g with Some Eq => true | _ => false end
  | NumFloat f, NumInt y =>
      match Z_float_compare y f with Some Eq => true | _ => false end
  | NumFloat f, NumFloat g => PrimFloat.eqb f g
  end.

Definition num_ltb (a b : PyNum) : bool :=
  match a, b with
  | NumInt x, NumInt y => x <? y
  | NumInt x, NumFloat g =>
      match Z_float_compare x g with Some Lt => true | _ => false end
  | NumFloat f, NumInt y =>
      match Z_float_compare y f with Some Gt => true | _ => false end
  | NumFloat f, NumFloat g => PrimFloat.ltb f g
  end.

(** ** Operations on values *)

(** Truth value, as tested by [if v:], [not v], [v or w], [all(...)]. *)
Definition truthy (v : PyVal) : bool :=
  match v with
  | PyNone => false
  | PyBool b => b
  | PyInt n => negb (n =? 0)
  | PyFloat f => negb (PrimFloat.eqb f 0)
  | PyStr s => negb (String.eqb s "")
  | PyList l => match l with [] => false | _ => true end
  | PyDict d => match d with [] => false | _ => true end
  | PyObject _ => true
  end.

Definition is_dict (v : PyVal) : bool :=
  match v with PyDict _ => true | _ => false end.
Definition is_list (v : PyVal) : bool :=
  match v with PyList _ => true | _ => false end.
Definition is_str (v : PyVal) : bool :=
  match v with PyStr _ => true | _ => false end.

(** [v is None] *)
Definition is_none (v : PyVal) : bool :=
  match v with PyNone => true | _ => false end.

(** [v == "literal"] *)
Definition eq_str (v : PyVal) (s : string) : bool :=
  match v with PyStr t => String.eqb t s | _ => false end.

(** [v == n] for an integer literal [n]; [True == 1] and [1.0 == 1] hold. *)
Definition eq_int (v : PyVal) (n : Z) : bool :=
  match as_num v with
  | Some x => num_eqb x (NumInt n)
  | None => false
  end.

Section Dict.
Context {V : Type}.

Fixpoint dict_lookup (k : string) (d : list (string * V)) : option V :=
  match d with
  | [] => None
  | (k', v) :: d' => if String.eqb k k' then Some v else dict_lookup k d'
  end.

(** [d[k] = v]: an existing key keeps its position, a new one goes last. *)
Fixpoint dict_set (k : string) (v : V) (d : list (string * V))
  : list (string * V) :=
  match d with
  | [] => [(k, v)]
  | (k', v') :: d' =>
      if String.eqb k k' then (k, v) :: d' else (k', v') :: dict_set k v d'
  end.

Definition dict_has (k : string) (d : list (string * V)) : bool :=
  match dict_lookup k d with Some _ => true | None => false end.

Definition dict_keys (d : list (string * V)) : list string := map fst d.
Definition dict_values (d : list (string * V)) : list V := map snd d.
End Dict.

Definition no_attribute {A : Type} (v : PyVal) (attr : string) : Res A :=
  Raise (mkExc AttributeError
           ("'" +:+ type_name v +:+ "' object has no attribute '" +:+ attr +:+ "'")).

(** [v.get(k, default)] *)
Definition py_get (v : PyVal) (k : string) (default : PyVal) : Res PyVal :=
  match v with
  | PyDict d => Ok (match dict_lookup k d with Some x => x | None => default end)
  | _ => no_attribute v "get"
  end.

(** [v.get(k)] *)
Definition py_get1 (v : PyVal) (k : string) : Res PyVal := py_get v k PyNone.

(** [k in v] for a string [k] *)
Definition py_contains (k : string) (v : PyVal) : Res bool :=
  match v with
  | PyDict d => Ok (dict_has k d)
  | PyList l => Ok (existsb (fun x => eq_str x k) l)
  | PyStr s => Ok (str_contains k s)
  | _ => raise_type_error
           ("argument of type '" +:+ type_name v +:+ "' is not iterable")
  end.

(** [len(v)] *)
Definition py_len (v : PyVal) : Res Z :=
  match v with
  | PyDict d => Ok (Z.of_nat (length d))
  | PyList l => Ok (Z.of_nat (length l))
  | PyStr s => Ok (Z.of_nat (str_length s))
  | _ => raise_type_error
           ("object of type '" +:+ type_name v +:+ "' has no len()")
  end.

(** Indexing a sequence of length [length l] at [i], negative indices counting
    from the end. *)
Definition seq_index {A : Type} (what : string) (l : list A) (i : Z) : Res A :=
  let j := if i <? 0 then i + Z.of_nat (length l) else i in
  if j <? 0 then Raise (mkExc IndexError (what +:+ " index out of range"))
  else match nth_error l (Z.to_nat j) with
       | Some x => Ok x
       | None => Raise (mkExc IndexError (what +:+ " index out of range"))
       end.

(** [v[k]] for a string [k] *)
Definition py_item (v : PyVal) (k : string) : Res PyVal :=
  match v with
  | PyDict d =>
      match dict_lookup k d with
      | Some x => Ok x
      | None => Raise (mkExc KeyError ("'" +:+ k +:+ "'"))
      end
  | PyList _ => raise_type_error "list indices must be integers or slices, not str"
  | PyStr _ => raise_type_error "string indices must be integers, not 'str'"
  | _ => raise_type_error ("'" +:+ type_name v +:+ "' object is not subscriptable")
  end.

(** [v[i]] for an integer [i]; the keys of a dict are strings, so an integer
    is never one of them. *)
Definition py_index (v : PyVal) (i : Z) : Res PyVal :=
  match v with
  | PyDict _ => Raise (mkExc KeyError (pretty i))
  | PyList l => seq_index "list" l i
  | PyStr s => s' <- seq_index "string" (str_chars s) i ;; Ok (PyStr s')
  | _ => raise_type_error ("'" +:+ type_name v +:+ "' object is not subscriptable")
  end%res.

(** [v[k]] where [k] is itself a value, as in [teams[key]] inside
    [for key in teams]. *)
Definition py_subscript (v k : PyVal) : Res PyVal :=
  match k with
  | PyStr s => py_item v s
  | PyInt i => py_index v i
  | PyBool b => py_index v (if b then 1 else 0)
  | _ =>
      match v with
      | PyDict _ =>
          match k with
          | PyList _ | PyDict _ =>
              raise_type_error ("unhashable type: '" +:+ type_name k +:+ "'")
          | _ => Raise (mkExc KeyError (type_name k))
          end
      | PyList _ =>
          raise_type_error
            ("list indices must be integers or slices, not " +:+ type_name k)
      | PyStr _ =>
          raise_type_error
            ("string indices must be integers, not '" +:+ type_name k +:+ "'")
      | _ => raise_type_error
               ("'" +:+ type_name v +:+ "' object is not subscriptable")
      end
  end.

(** The items a [for x in v] loop visits. *)
Definition py_iter (v : PyVal) : Res (list PyVal) :=
  match v with
  | PyDict d => Ok (map PyStr (dict_keys d))
  | PyList l => Ok l
  | PyStr s => Ok (map PyStr (str_chars s))
  | _ => raise_type_error ("'" +:+ type_name v +:+ "' object is not iterable")
  end.

(** ** Dictionaries keyed by payload values *)

(** [k1 == k2] on hashable values, the test a dictionary applies to keys. *)
Definition key_eqb (k1 k2 : PyVal) : bool :=
  match k1, k2 with
  | PyNone, PyNone => true
  | PyStr a, PyStr b => String.eqb a b
  | _, _ =>
      match as_num k1, as_num k2 with
      | Some x, Some y => num_eqb x y
      | _, _ => false
      end
  end.

Definition Leagues : Type := list (PyVal * PyVal).

Fixpoint leagues_lookup (k : PyVal) (d : Leagues) : option PyVal :=
  match d with
  | [] => None
  | (k', v) :: d' => if key_eqb k k' then Some v else leagues_lookup k d'
  end.

Fixpoint leagues_insert (k v : PyVal) (d : Leagues) : Leagues :=
  match d with
  | [] => [(k, v)]
  | (k', v') :: d' =>
      if key_eqb k k' then (k', v) :: d' else (k', v') :: leagues_insert k v d'
  end.

(** [d[k] = v]; lists and dicts are unhashable. *)
Definition leagues_set (k v : PyVal) (d : Leagues) : Res Leagues :=
  match k with
  | PyList _ | PyDict _ =>
      raise_type_error ("unhashable type: '" +:+ type_name k +:+ "'")
  | _ => Ok (leagues_insert k v d)
  end.

(** ** Float arithmetic used by the code *)

(** The binary64 nearest to [n / d] (ties to even), as Python's true division
    of two integers computes it; beyond the largest float the division
    overflows to [infinity], which the caller turns into [OverflowError]. *)
Definition ratio_to_float (n : Z) (d : positive) : float :=
  match n with
  | Z0 => 0%float
  | Zpos p =>
      SF2Prim (SFdiv 53 1024 (S754_finite false p 0) (S754_finite false d 0))
  | Zneg p =>
      SF2Prim (SFdiv 53 1024 (S754_finite true p 0) (S754_finite false d 0))
  end.

Definition float_is_inf (f : float) : bool :=
  match Prim2SF f with S754_infinity _ => true | _ => false end.

(** [v / d] for a positive integer literal [d] *)
Definition py_truediv (v : PyVal) (d : positive) : Res PyVal :=
  match as_num v with
  | Some (NumInt n) =>
      let q := ratio_to_float n d in
      if float_is_inf q
      then Raise (mkExc OverflowError "integer division result too large for a float")
      else Ok (PyFloat q)
  | Some (NumFloat f) => Ok (PyFloat (f / ratio_to_float (Z.pos d) 1)%float)
  | None =>
      raise_type_error
        ("unsupported operand type(s) for /: '" +:+ type_name v +:+ "' and 'int'")
  end.

(** [n / d] rounded to the nearest integer, ties to even. *)
Definition round_half_even (n d : Z) : Z :=
  let q := n / d in
  let r := n mod d in
  if (d <? 2 * r) || ((d =? 2 * r) && Z.odd q) then q + 1 else q.

(** [round(f, 1)]: the exact value of [f] is rounded to one decimal (ties to
    even) and the float nearest to that decimal is returned. *)
Definition float_round1 (f : float) : float :=
  match Prim2SF f with
  | S754_finite s m e =>
      if 0 <=? e then f
      else
        match round_half_even (10 * Z.pos m) (2 ^ (- e)) with
        | Zpos p =>
            SF2Prim (SFdiv 53 1024 (S754_finite s p 0) (S754_finite false 10 0))
        | _ => if s then (-0)%float else 0%float
        end
  | _ => f
  end.

(** [round(v, 1)] for a float [v], the only case in the code *)
Definition py_round1 (v : PyVal) : Res PyVal :=
  match v with
  | PyFloat f => Ok (PyFloat (float_round1 f))
  | _ => raise_type_error
           ("type " +:+ type_name v +:+ " doesn't define __round__ method")
  end.

(** ** Computations with state and exceptions *)

(** A computation over a mutable state [S]: from a state to a result and a
    state.  A raised exception keeps the effects that preceded it, as an
    exception in Python leaves the objects mutated so far as they are. *)
Definition ST (S A : Type) : Type := S -> Res A * S.

Section ST.
Context {S : Type}.

Definition ret {A : Type} (a : A) : ST S A := fun s => (Ok a, s).

Definition bind {A B : Type} (m : ST S A) (k : A -> ST S B) : ST S B :=
  fun s =>
    match m s with
    | (Ok a, s') => k a s'
    | (Raise e, s') => (Raise e, s')
    end.

Definition raise {A : Type} (cls : ExcClass) (msg : string) : ST S A :=
  fun s => (Raise (mkExc cls msg), s).

Definition lift {A : Type} (r : Res A) : ST S A := fun s => (r, s).

(** [try: body  except Exception as e: handler(e)] *)
Definition try_except {A : Type} (body : ST S A) (handler : PyExc -> ST S A)
  : ST S A :=
  fun s =>
    match body s with
    | (Ok a, s') => (Ok a, s')
    | (Raise e, s') => handler e s'
    end.

Definition get_state : ST S S := fun s => (Ok s, s).
Definition put_state (s : S) : ST S unit := fun _ => (Ok tt, s).

(** [for x in xs: body(x)] *)
Fixpoint for_in {A : Type} (xs : list A) (body : A -> ST S unit) : ST S unit :=
  match xs with
  | [] => ret tt
  | x :: xs' => bind (body x) (fun _ => for_in xs' body)
  end.

(** [if c: body] *)
Definition when (c : bool) (body : ST S unit) : ST S unit :=
  if c then body else ret tt.

(** [isinstance(v, dict) and k in v] and the like: the test [k in v] is
    evaluated only when the first conjunct holds. *)
Definition and_then (c : bool) (r : Res bool) : ST S bool :=
  if c then lift r else ret false.

(** A block with local variables of its own, of type [T], inside a
    computation over [S]: the block runs from [init] and hands back its
    final locals. *)
Definition with_locals {T : Type} (init : T) (block : ST T unit) : ST S T :=
  fun s =>
    match block init with
    | (Ok _, t) => (Ok t, s)
    | (Raise e, _) => (Raise e, s)
    end.
End ST.

(** [for x in xs: ...] with a [return] inside the loop: the first iteration
    that returns ends the loop. *)
Fixpoint first_return {A R : Type} (xs : list A) (body : A -> Res (option R))
  : Res (option R) :=
  match xs with
  | [] => Ok None
  | x :: xs' =>
      match body x with
      | Ok None => first_return xs' body
      | r => r
      end
  end.

Declare Scope proc_scope.
Delimit Scope proc_scope with proc.
Notation "x <- m ;; k" := (bind m (fun x => k))
  (at level 100, m at next level, right associativity) : proc_scope.
Notation "m ;;; k" := (bind m (fun _ => k))
  (at level 100, right associativity) : proc_scope.

(** ** Names *)

(** The names bound at module level: the imports, the configuration
    constants, [app], [LEAGUES_CACHE], and every function the module
    defines. *)
Definition module_names : list string :=
  ["__name__"; "__doc__"; "__package__"; "__loader__"; "__spec__"; "__file__";
   "__cached__"; "__builtins__";
   "argparse"; "asyncio"; "json"; "os";
   "Any"; "Dict"; "List"; "Optional"; "Annotated"; "Literal";
   "Field"; "datetime"; "aiohttp"; "load_dotenv"; "FastMCP"; "ToolError";
   "praw"; "TextBlob"; "REDDIT_AVAILABLE";
   "rate_limiter"; "response_cache";
   "DRAFT_AVAILABLE"; "YAHOO_ACCESS_TOKEN"; "YAHOO_API_BASE";
   "REDDIT_CLIENT_ID"; "REDDIT_CLIENT_SECRET"; "REDDIT_USERNAME";
   "app"; "LEAGUES_CACHE";
   "yahoo_api_call"; "refresh_yahoo_token"; "discover_leagues";
   "get_user_team_info"; "get_user_team_key"; "get_waiver_wire_players";
   "get_draft_rankings"; "get_all_teams_info"; "analyze_reddit_sentiment";
   "ff_get_leagues"; "ff_get_league_info"; "ff_get_standings";
   "ff_get_roster"; "ff_get_matchup"; "ff_get_players";
   "ff_get_optimal_lineup"; "ff_refresh_token"; "ff_get_draft_results";
   "ff_get_waiver_wire"; "ff_get_api_status"; "ff_clear_cache";
   "ff_get_draft_rankings"; "ff_get_opponent_roster_comparison";
   "ff_get_all_teams"; "ff_get_draft_recommendation";
   "ff_analyze_draft_state"; "ff_analyze_reddit_sentiment";
   "ff_get_opponent_roster"; "main"].

(** The names of the [builtins] module. *)
Definition builtin_names : list string :=
  ["abs"; "aiter"; "all"; "anext"; "any"; "ascii"; "bin"; "bool";
   "breakpoint"; "bytearray"; "bytes"; "callable"; "chr"; "classmethod";
   "compile"; "complex"; "copyright"; "credits"; "delattr"; "dict"; "dir";
   "divmod"; "enumerate"; "eval"; "exec"; "exit"; "filter"; "float";
   "format"; "frozenset"; "getattr"; "globals"; "hasattr"; "hash"; "help";
   "hex"; "id"; "input"; "int"; "isinstance"; "issubclass"; "iter"; "len";
   "license"; "list"; "locals"; "map"; "max"; "memoryview"; "min"; "next";
   "object"; "oct"; "open"; "ord"; "pow"; "print"; "property"; "quit";
   "range"; "repr"; "reversed"; "round"; "set"; "setattr"; "slice";
   "sorted"; "staticmethod"; "str"; "sum"; "super"; "tuple"; "type"; "vars";
   "zip"; "__import__"; "__build_class__"; "__debug__";
   "None"; "True"; "False"; "Ellipsis"; "NotImplemented";
   "BaseException"; "BaseExceptionGroup"; "Exception"; "ExceptionGroup";
   "GeneratorExit"; "KeyboardInterrupt"; "SystemExit"; "StopIteration";
   "StopAsyncIteration"; "ArithmeticError"; "AssertionError";
   "AttributeError"; "BlockingIOError"; "BrokenPipeError"; "BufferError";
   "BytesWarning"; "ChildProcessError"; "ConnectionAbortedError";
   "ConnectionError"; "ConnectionRefusedError"; "ConnectionResetError";
   "DeprecationWarning"; "EOFError"; "EncodingWarning"; "EnvironmentError";
   "FileExistsError"; "FileNotFoundError"; "FloatingPointError";
   "FutureWarning"; "IOError"; "ImportError"; "ImportWarning";
   "IndentationError"; "IndexError"; "InterruptedError";
   "IsADirectoryError"; "KeyError"; "LookupError"; "MemoryError";
   "ModuleNotFoundError"; "NameError"; "NotADirectoryError";
   "NotImplementedError"; "OSError"; "OverflowError";
   "PendingDeprecationWarning"; "PermissionError"; "ProcessLookupError";
   "RecursionError"; "ReferenceError"; "ResourceWarning"; "RuntimeError";
   "RuntimeWarning"; "SyntaxError"; "SyntaxWarning"; "SystemError";
   "TabError"; "TimeoutError"; "TypeError"; "UnboundLocalError";
   "UnicodeDecodeError"; "UnicodeEncodeError"; "UnicodeError";
   "UnicodeTranslateError"; "UnicodeWarning"; "UserWarning"; "ValueError";
   "Warning"; "ZeroDivisionError"].

Definition name_is_bound (name : string) : bool :=
  existsb (String.eqb name) (module_names ++ builtin_names).

(** The value of a name that the enclosing function does not bind (it is
    neither a parameter nor assigned in the function): the name is looked up
    in the module and then in the builtins, and [NameError] is raised when
    neither binds it. *)
Definition load_name {S : Type} (name : string) : ST S PyVal :=
  if name_is_bound name then ret (PyObject name)
  else raise NameError ("name '" +:+ name +:+ "' is not defined").

(** ** Builtins: [str], [int], [float], sorting *)

(** [a == b] on values; a dict compares as a mapping, whatever the order of
    its keys. *)
Fixpoint py_eqb (a b : PyVal) {struct a} : bool :=
  match a, b with
  | PyNone, PyNone => true
  | PyStr x, PyStr y => String.eqb x y
  | PyList xs, PyList ys =>
      (fix all2 (xs ys : list PyVal) {struct xs} : bool :=
         match xs, ys with
         | [], [] => true
         | x :: xs', y :: ys' => py_eqb x y && all2 xs' ys'
         | _, _ => false
         end) xs ys
  | PyDict d1, PyDict d2 =>
      Nat.eqb (length d1) (length d2)
      && (fix all_in (d : list (string * PyVal)) {struct d} : bool :=
            match d with
            | [] => true
            | (k, v) :: d' =>
                match dict_lookup k d2 with
                | Some v' => py_eqb v v'
                | None => false
                end && all_in d'
            end) d1
  | PyObject x, PyObject y => String.eqb x y
  | _, _ =>
      match as_num a, as_num b with
      | Some x, Some y => num_eqb x y
      | _, _ => false
      end
  end.

Definition not_comparable {A : Type} (a b : PyVal) : Res A :=
  raise_type_error
    ("'<' not supported between instances of '" +:+ type_name a
     +:+ "' and '" +:+ type_name b +:+ "'").

(** [a < b]: numbers by value, strings and lists lexicographically; other
    pairs cannot be ordered. *)
Fixpoint py_ltb (a b : PyVal) {struct a} : Res bool :=
  match a, b with
  | PyStr x, PyStr y => Ok (str_ltb x y)
  | PyList xs, PyList ys =>
      (fix lex (xs ys : list PyVal) {struct xs} : Res bool :=
         match xs, ys with
         | [], [] => Ok false
         | [], _ :: _ => Ok true
         | _ :: _, [] => Ok false
         | x :: xs', y :: ys' =>
             if py_eqb x y then lex xs' ys' else py_ltb x y
         end) xs ys
  | _, _ =>
      match as_num a, as_num b with
      | Some x, Some y => Ok (num_ltb x y)
      | _, _ => not_comparable a b
      end
  end.

(** [list.sort(key=...)] and [sorted(..., key=...)]: the keys are computed
    first, left to right; the sort is stable.  It is written as an insertion
    sort, which yields the result of Python's sort whenever the keys met are
    totally ordered by [<] (so not for NaN keys, nor for keys that can be
    compared with some but not all of the others). *)
Fixpoint insert_sorted {A : Type} (x : PyVal * A) (l : list (PyVal * A))
  : Res (list (PyVal * A)) :=
  match l with
  | [] => Ok [x]
  | y :: l' =>
      (y_first <- py_ltb (fst y) (fst x) ;;
       if y_first then (rest <- insert_sorted x l' ;; Ok (y :: rest))
       else Ok (x :: y :: l'))%res
  end.

Fixpoint sort_keyed {A : Type} (l : list (PyVal * A)) : Res (list (PyVal * A)) :=
  match l with
  | [] => Ok []
  | x :: l' => (sorted <- sort_keyed l' ;; insert_sorted x sorted)%res
  end.

Fixpoint with_keys {A : Type} (key : A -> Res PyVal) (l : list A)
  : Res (list (PyVal * A)) :=
  match l with
  | [] => Ok []
  | x :: l' =>
      (k <- key x ;; rest <- with_keys key l' ;; Ok ((k, x) :: rest))%res
  end.

Definition py_sorted {A : Type} (key : A -> Res PyVal) (l : list A)
  : Res (list A) :=
  (keyed <- with_keys key l ;;
   sorted <- sort_keyed keyed ;;
   Ok (map snd sorted))%res.

(** The binary64 nearest to an integer, ties to even. *)
Definition Z_to_float (n : Z) : float :=
  SF2Prim (binary_normalize 53 1024 n 0 false).

(** The integer part of a finite float, towards zero. *)
Definition float_trunc (f : float) : option Z :=
  match Prim2SF f with
  | S754_zero _ => Some 0
  | S754_finite s m e =>
      let a := if 0 <=? e then Z.pos m * 2 ^ e else Z.pos m / 2 ^ (- e) in
      Some (if s then - a else a)
  | _ => None
  end.

Section Builtins.
(** Three builtins are parameters of the development: [repr], [float] on a
    string ([None] standing for [ValueError]), and [int] on a string, which
    gives the integer or the exception raised.  What they return is text and
    number parsing that nothing below depends on. *)
Variable repr : PyVal -> string.
Variable float_of_str : string -> option float.
Variable int_of_str : string -> Res Z.

(** [str(v)], also the text [v] contributes to an f-string *)
Definition py_str (v : PyVal) : string :=
  match v with
  | PyStr s => s
  | PyNone => "None"
  | PyBool true => "True"
  | PyBool false => "False"
  | PyInt n => pretty n
  | _ => repr v
  end.

(** [int(v)] *)
Definition py_int (v : PyVal) : Res Z :=
  match v with
  | PyInt n => Ok n
  | PyBool b => Ok (if b then 1 else 0)
  | PyFloat f =>
      match float_trunc f with
      | Some n => Ok n
      | None =>
          if float_is_inf f
          then Raise (mkExc OverflowError
                        "cannot convert float infinity to integer")
          else Raise (mkExc ValueError "cannot convert float NaN to integer")
      end
  | PyStr s => int_of_str s
  | _ =>
      raise_type_error
        ("int() argument must be a string, a bytes-like object or a real "
         +:+ "number, not '" +:+ type_name v +:+ "'")
  end.

(** [float(v)] *)
Definition py_float (v : PyVal) : Res float :=
  match v with
  | PyFloat f => Ok f
  | PyInt _ | PyBool _ =>
      let f := Z_to_float (match v with
                           | PyInt n => n
                           | PyBool true => 1
                           | _ => 0
                           end) in
      if float_is_inf f
      then Raise (mkExc OverflowError "int too large to convert to float")
      else Ok f
  | PyStr s =>
      match float_of_str s with
      | Some f => Ok f
      | None =>
          Raise (mkExc ValueError
                   ("could not convert string to float: " +:+ repr v))
      end
  | _ =>
      raise_type_error
        ("float() argument must be a string or a real number, not '"
         +:+ type_name v +:+ "'")
  end.

End Builtins.

(** ** Walking the payloads *)

(** [if key != "count" and isinstance(c[key], dict): if field in c[key]:]
    gives access to [c[key][field]]; this is how the numbered entries of a
    Yahoo collection are visited. *)
Definition numbered_entry (c key : PyVal) (field : string) : Res (option PyVal) :=
  if eq_str key "count" then Ok None
  else
    (entry <- py_subscript c key ;;
     if is_dict entry then
       has_field <- py_contains field entry ;;
       if has_field then (x <- py_item entry field ;; Ok (Some x))
       else Ok None
     else Ok None)%res.

(** [if isinstance(a, list) and len(a) > 0:] gives access to [a[0]]. *)
Definition first_of_list (a : PyVal) : option PyVal :=
  match a with
  | PyList (x :: _) => Some x
  | _ => None
  end.

(** [a or b] *)
Definition py_or (a b : PyVal) : PyVal := if truthy a then a else b.

(** [len(league) > 1 and isinstance(league[1], dict) and field in league[1]]
    gives access to [league[1][field]]. *)
Definition second_element_field (league : PyVal) (field : string)
  : Res (option PyVal) :=
  (n <- py_len league ;;
   if 1 <? n then
     second <- py_index league 1 ;;
     if is_dict second then
       has_field <- py_contains field second ;;
       if has_field then (x <- py_item second field ;; Ok (Some x))
       else Ok None
     else Ok None
   else Ok None)%res.

(** Local dictionaries under construction, as [player_info]. *)
Definition Dict : Type := list (string * PyVal).

(** [d[k] = v] on the local dictionary *)
Definition set_item (k : string) (v : PyVal) : ST Dict unit :=
  fun d => (Ok tt, dict_set k v d).

(** [if k in element: d[k'] = element[k]] for a dict [element] *)
Definition copy_field (element : PyVal) (k k' : string) : ST Dict unit :=
  bind (lift (py_contains k element)) (fun has_field =>
  when has_field
    (bind (lift (py_item element k)) (fun v => set_item k' v))).

(** [l.append(x)] on a local list *)
Definition append {A : Type} (x : A) : ST (list A) unit :=
  fun l => (Ok tt, (l ++ [x])%list).

(** ** The process and its collaborators *)

(** An HTTP response as the code reads it: [response.status],
    [await response.json()], which raises on a body that is not JSON, and
    [await response.text()], which raises when the body cannot be read or
    decoded. *)
Record Response : Type := mkResponse {
  status : Z;
  json : Res PyVal;
  text : Res string
}.

(** Every effect on the world outside the module is logged, oldest first.
    A request is logged with the reply it received; [session.get] and
    [session.post] can themselves raise (a connection error), hence the [Res].
    The [Authorization] header of a request is [Bearer] followed by the
    module's access token, so the token stands for the header.  [EvRefresh]
    marks an invocation of [refresh_yahoo_token]. *)
Inductive Event : Type :=
| EvCacheGet (key : string)
| EvCacheSet (key : string) (value : PyVal)
| EvAcquire
| EvGet (url : string) (token : PyVal) (reply : Res Response)
| EvRefresh
| EvPost (url : string) (form : list (string * string)) (reply : Res Response).

(** The upstream API and the token endpoint.  A reply may depend on
    everything that happened before the request. *)
Record Network : Type := mkNetwork {
  http_get : list Event -> string -> PyVal -> Res Response;
  http_post : list Event -> string -> list (string * string) -> Res Response
}.

(** Modelled from the spec: [response_cache] of [src/yahoo_api_utils.py],
    which is not among the sources.  Section 4.2: [get(key)] returns the
    cached payload if present and unexpired, else a miss signal ([None]), and
    never raises; [set(key, value)] stores the payload.  Both may update the
    cache's own bookkeeping (counters, eviction), so [cache_get] returns the
    new cache state too. *)
Class ResponseCache (C : Type) : Type := {
  cache_get : string -> C -> PyVal * C;
  cache_set : string -> PyVal -> C -> C
}.

(** Modelled from the spec: a response cache none of whose entries expires
    during the run, a dictionary from endpoint to payload. *)
#[export] Instance dict_cache : ResponseCache (gmap string PyVal) := {
  cache_get k c := (default PyNone (c !! k), c);
  cache_set k v c := <[k := v]> c
}.

Section Process.
Context {C : Type} `{!ResponseCache C}.
Variable net : Network.

(** The builtins that are parameters of the development, see [py_str] and
    [py_float]. *)
Variable repr : PyVal -> string.
Variable float_of_str : string -> option float.
Variable int_of_str : string -> Res Z.

(** The module's mutable state: two globals, the environment, the cache of
    [src.yahoo_api_utils], and the log of effects. *)
Record World : Type := mkWorld {
  YAHOO_ACCESS_TOKEN : PyVal;
  LEAGUES_CACHE : Leagues;
  environ : gmap string string;
  response_cache : C;
  trace : list Event
}.

(** A coroutine is a computation over the module's state. *)
Definition M (A : Type) : Type := ST World A.

Definition emit (ev : Event) : M unit :=
  fun w =>
    (Ok tt, mkWorld (YAHOO_ACCESS_TOKEN w) (LEAGUES_CACHE w) (environ w)
              (response_cache w) (trace w ++ [ev])).

(** [os.getenv(k)] *)
Definition getenv (k : string) : M PyVal :=
  fun w =>
    (Ok (match environ w !! k with Some s => PyStr s | None => PyNone end), w).

(** [os.getenv(k, default)] *)
Definition getenv_default (k dflt : string) : M PyVal :=
  fun w => (Ok (PyStr (default dflt (environ w !! k))), w).

Definition has_nul (s : string) : bool :=
  existsb (fun c => Ascii.eqb c Ascii.zero) (String.list_ascii_of_string s).

(** [os.environ[k] = v]: only a string without a NUL character is
    accepted. *)
Definition setenv (k : string) (v : PyVal) : M unit :=
  match v with
  | PyStr s =>
      if has_nul s then raise ValueError "embedded null byte"
      else fun w =>
             (Ok tt, mkWorld (YAHOO_ACCESS_TOKEN w) (LEAGUES_CACHE w)
                       (<[k := s]> (environ w)) (response_cache w) (trace w))
  | _ => raise TypeError ("str expected, not " +:+ type_name v)
  end.

Definition read_token : M PyVal := fun w => (Ok (YAHOO_ACCESS_TOKEN w), w).

Definition write_token (v : PyVal) : M unit :=
  fun w =>
    (Ok tt, mkWorld v (LEAGUES_CACHE w) (environ w) (response_cache w)
              (trace w)).

Definition read_leagues : M Leagues :=
  fun w => (Ok (LEAGUES_CACHE w), w).

Definition write_leagues (d : Leagues) : M unit :=
  fun w =>
    (Ok tt, mkWorld (YAHOO_ACCESS_TOKEN w) d (environ w) (response_cache w)
              (trace w)).

(** [await response_cache.get(key)] *)
Definition response_cache_get (key : string) : M PyVal :=
  fun w =>
    let '(v, c) := cache_get key (response_cache w) in
    (Ok v, mkWorld (YAHOO_ACCESS_TOKEN w) (LEAGUES_CACHE w) (environ w) c
             (trace w ++ [EvCacheGet key])).

(** [await response_cache.set(key, value)] *)
Definition response_cache_set (key : string) (value : PyVal) : M unit :=
  fun w =>
    (Ok tt, mkWorld (YAHOO_ACCESS_TOKEN w) (LEAGUES_CACHE w) (environ w)
              (cache_set key value (response_cache w))
              (trace w ++ [EvCacheSet key value])).

(** Modelled from the spec: [rate_limiter.acquire()] of
    [src/yahoo_api_utils.py], which is not among the sources.  Section 4.1:
    no result value and no error condition, it only delays; the permit is
    logged. *)
Definition rate_limiter_acquire : M unit := emit EvAcquire.

(** [async with session.get(url, headers=headers) as response] *)
Definition session_get (url : string) (token : PyVal) : M Response :=
  fun w =>
    let reply := http_get net (trace w) url token in
    (reply, mkWorld (YAHOO_ACCESS_TOKEN w) (LEAGUES_CACHE w) (environ w)
              (response_cache w) (trace w ++ [EvGet url token reply])).

(** [async with session.post(token_url, data=data) as response] *)
Definition session_post (url : string) (form : list (string * string))
  : M Response :=
  fun w =>
    let reply := http_post net (trace w) url form in
    (reply, mkWorld (YAHOO_ACCESS_TOKEN w) (LEAGUES_CACHE w) (environ w)
              (response_cache w) (trace w ++ [EvPost url form reply])).

Local Open Scope proc_scope.

(** ** The credential refresher *)

Definition token_url : string := "https://api.login.yahoo.com/oauth2/get_token".

Definition error_missing_credentials : PyVal :=
  PyDict [("status", PyStr "error");
          ("message", PyStr "Missing credentials in environment")].

Definition refresh_yahoo_token : M PyVal :=
  emit EvRefresh ;;;
  client_id <- getenv "YAHOO_CONSUMER_KEY" ;;
  client_secret <- getenv "YAHOO_CONSUMER_SECRET" ;;
  refresh_token <- getenv "YAHOO_REFRESH_TOKEN" ;;
  match client_id, client_secret, refresh_token with
  | PyStr id, PyStr secret, PyStr rt =>
      if negb (forallb truthy [client_id; client_secret; refresh_token])
      then ret error_missing_credentials
      else
        let data := [("client_id", id); ("client_secret", secret);
                     ("refresh_token", rt); ("grant_type", "refresh_token")] in
        try_except
          (response <- session_post token_url data ;;
           if status response =? 200 then
             token_data <- lift (json response) ;;
             new_access_token <- lift (py_get1 token_data "access_token") ;;
             new_refresh_token <-
               lift (py_get token_data "refresh_token" refresh_token) ;;
             expires_in <- lift (py_get token_data "expires_in" (PyInt 3600)) ;;
             write_token new_access_token ;;;
             setenv "YAHOO_ACCESS_TOKEN" new_access_token ;;;
             (if negb (eq_str new_refresh_token rt)
              then setenv "YAHOO_REFRESH_TOKEN" new_refresh_token
              else ret tt) ;;;
             hours <- lift (res_bind (py_truediv expires_in 3600) py_round1) ;;
             ret (PyDict [("status", PyStr "success");
                          ("message", PyStr "Token refreshed successfully");
                          ("expires_in", expires_in);
                          ("expires_in_hours", hours)])
           else
             error_text <- lift (text response) ;;
             ret (PyDict [("status", PyStr "error");
                          ("message",
                           PyStr ("Failed to refresh token: "
                                  +:+ pretty (status response)));
                          ("details", PyStr (str_take 200 error_text))]))
          (fun e =>
             ret (PyDict [("status", PyStr "error");
                          ("message",
                           PyStr ("Error refreshing token: " +:+ exc_str e))]))
  | _, _, _ => ret error_missing_credentials
  end.

(** ** The access gateway *)

Definition YAHOO_API_BASE : string :=
  "https://fantasysports.yahooapis.com/fantasy/v2".

(** [f"{YAHOO_API_BASE}/{endpoint}?format=json"] *)
Definition request_url (endpoint : string) : string :=
  YAHOO_API_BASE +:+ "/" +:+ endpoint +:+ "?format=json".

(** The block under [async with session.get(...) as response], with the
    call [yahoo_api_call] makes to itself (always with
    [retry_on_auth_fail=False]) as the parameter [self]. *)
Definition handle_response (self : string -> bool -> M PyVal)
    (endpoint : string) (retry_on_auth_fail use_cache : bool)
    (response : Response) : M PyVal :=
  if status response =? 200 then
    data <- lift (json response) ;;
    (if use_cache then response_cache_set endpoint data else ret tt) ;;;
    ret data
  else if (status response =? 401) && retry_on_auth_fail then
    refresh_result <- refresh_yahoo_token ;;
    refresh_status <- lift (py_get1 refresh_result "status") ;;
    if eq_str refresh_status "success" then self endpoint use_cache
    else
      text <- lift (text response) ;;
      raise Exception
        ("Yahoo API auth failed and token refresh failed: "
         +:+ str_take 200 text)
  else
    text <- lift (text response) ;;
    raise Exception
      ("Yahoo API error " +:+ pretty (status response) +:+ ": "
       +:+ str_take 200 text).

(** The body of [yahoo_api_call]. *)
Definition yahoo_api_call_body (self : string -> bool -> M PyVal)
    (endpoint : string) (retry_on_auth_fail use_cache : bool) : M PyVal :=
  cached_response <-
    (if use_cache then response_cache_get endpoint else ret PyNone) ;;
  if use_cache && negb (is_none cached_response) then ret cached_response
  else
    rate_limiter_acquire ;;;
    let url := request_url endpoint in
    token <- read_token ;;
    response <- session_get url token ;;
    handle_response self endpoint retry_on_auth_fail use_cache response.

(** The call with [retry_on_auth_fail=False] never reaches the recursive
    call, whatever stands for it. *)
Definition yahoo_api_call_no_retry (endpoint : string) (use_cache : bool)
  : M PyVal :=
  yahoo_api_call_body (fun _ _ => raise Exception "unreachable")
    endpoint false use_cache.

Definition yahoo_api_call (endpoint : string)
    (retry_on_auth_fail use_cache : bool) : M PyVal :=
  yahoo_api_call_body yahoo_api_call_no_retry
    endpoint retry_on_auth_fail use_cache.

(** ** League discovery *)

(** [LEAGUES_CACHE] maps league keys to league records.  A league key comes
    from the payload ([league_dict.get("league_key", "")]), so the keys of
    this dictionary are values: any hashable one can occur. *)
(** [leagues[league_key] = {...}] for the first element of a [league]
    array *)
Definition add_league (league_dict : PyVal) : ST Leagues unit :=
  league_key <- lift (py_get league_dict "league_key" (PyStr "")) ;;
  league_id <- lift (py_get league_dict "league_id" (PyStr "")) ;;
  name <- lift (py_get league_dict "name" (PyStr "Unknown")) ;;
  season <- lift (py_get league_dict "season" (PyInt 2025)) ;;
  num_teams <- lift (py_get league_dict "num_teams" (PyInt 0)) ;;
  scoring_type <- lift (py_get league_dict "scoring_type" (PyStr "head")) ;;
  current_week <- lift (py_get league_dict "current_week" (PyInt 1)) ;;
  is_finished <- lift (py_get league_dict "is_finished" (PyInt 0)) ;;
  leagues <- get_state ;;
  leagues' <- lift (leagues_set league_key
                      (PyDict [("key", league_key);
                               ("id", league_id);
                               ("name", name);
                               ("season", season);
                               ("num_teams", num_teams);
                               ("scoring_type", scoring_type);
                               ("current_week", current_week);
                               ("is_finished", is_finished)])
                      leagues) ;;
  put_state leagues'.

(** The body of [for key in league_data] *)
Definition scan_league_key (league_data key : PyVal) : ST Leagues unit :=
  is_entry <-
    (if negb (eq_str key "count")
     then entry <- lift (py_subscript league_data key) ;; ret (is_dict entry)
     else ret false) ;;
  when is_entry
    (entry <- lift (py_subscript league_data key) ;;
     has_league <- lift (py_contains "league" entry) ;;
     when has_league
       (league_info <- lift (py_item entry "league") ;;
        nonempty <-
          (if is_list league_info
           then n <- lift (py_len league_info) ;; ret (0 <? n)
           else ret false) ;;
        when nonempty
          (league_dict <- lift (py_index league_info 0) ;;
           add_league league_dict))).

(** The body of [for g in game] *)
Definition scan_game (g : PyVal) : ST Leagues unit :=
  has_leagues <- and_then (is_dict g) (py_contains "leagues" g) ;;
  when has_leagues
    (league_data <- lift (py_item g "leagues") ;;
     keys <- lift (py_iter league_data) ;;
     for_in keys (scan_league_key league_data)).

(** The body of [for item in user] *)
Definition scan_user_item (item : PyVal) : ST Leagues unit :=
  has_games <- and_then (is_dict item) (py_contains "games" item) ;;
  when has_games
    (games <- lift (py_item item "games") ;;
     has_game <- lift (py_contains "0" games) ;;
     when has_game
       (game0 <- lift (py_item games "0") ;;
        game <- lift (py_item game0 "game") ;;
        when (is_list game)
          (gs <- lift (py_iter game) ;;
           for_in gs scan_game))).

(** The [try] block of [discover_leagues], filling the local [leagues]. *)
Definition parse_leagues (data : PyVal) : ST Leagues unit :=
  fantasy_content <- lift (py_get data "fantasy_content" (PyDict [])) ;;
  users <- lift (py_get fantasy_content "users" (PyDict [])) ;;
  has_user <- lift (py_contains "0" users) ;;
  when has_user
    (user0 <- lift (py_item users "0") ;;
     user <- lift (py_item user0 "user") ;;
     when (is_list user)
       (items <- lift (py_iter user) ;;
        for_in items scan_user_item)).

Definition leagues_endpoint : string :=
  "users;use_login=1/games;game_keys=nfl/leagues".

Definition discover_leagues : M Leagues :=
  cached <- read_leagues ;;
  match cached with
  | _ :: _ => ret cached
  | [] =>
      data <- yahoo_api_call leagues_endpoint true true ;;
      let leagues :=
        snd (try_except (parse_leagues data) (fun _ => ret tt) []) in
      write_leagues leagues ;;;
      ret leagues
  end.

(** ** The user's team *)

(** The locals of a loop body are kept in a dictionary from variable name to
    value, so that [copy_field] and [set_item] assign to them. *)
Definition local (locals : Dict) (name : string) : PyVal :=
  default PyNone (dict_lookup name locals).

(** The block runs from the given locals; its final locals are the result. *)
Definition run_locals {T : Type} (init : T) (block : ST T unit) : Res T :=
  match block init with
  | (Ok _, t) => Ok t
  | (Raise e, _) => Raise e
  end.

Definition team_locals : Dict :=
  [("team_key", PyNone); ("team_name", PyNone);
   ("is_users_team", PyBool false);
   ("draft_grade", PyNone); ("draft_position", PyNone)].

(** The body of [for element in team_data] in [get_user_team_info] *)
Definition scan_team_element (user_guid element : PyVal) : ST Dict unit :=
  when (is_dict element)
    (copy_field element "team_key" "team_key" ;;;
     copy_field element "name" "team_name" ;;;
     copy_field element "draft_grade" "draft_grade" ;;;
     copy_field element "draft_position" "draft_position" ;;;
     owned <-
       lift (has_flag <- py_contains "is_owned_by_current_login" element ;;
             if has_flag
             then (flag <- py_item element "is_owned_by_current_login" ;;
                   Ok (eq_int flag 1))
             else Ok false)%res ;;
     when owned (set_item "is_users_team" (PyBool true)) ;;;
     has_managers <- lift (py_contains "managers" element) ;;
     when has_managers
       (managers <- lift (py_item element "managers") ;;
        nonempty <-
          (if truthy managers
           then n <- lift (py_len managers) ;; ret (0 <? n)
           else ret false) ;;
        when nonempty
          (manager0 <- lift (py_index managers 0) ;;
           mgr <- lift (py_get manager0 "manager" (PyDict [])) ;;
           guid <- lift (py_get1 mgr "guid") ;;
           when (py_eqb guid user_guid)
             (set_item "is_users_team" (PyBool true))))).

(** The body of [for key in teams] in [get_user_team_info]: [Some] of the
    dict it returns, or [None] when the loop goes on. *)
Definition users_team_at (user_guid teams key : PyVal) : Res (option PyVal) :=
  (team_array <- numbered_entry teams key "team" ;;
   match team_array with
   | Some (PyList (PyList team_data :: _)) =>
       locals <- run_locals team_locals
                   (for_in team_data (scan_team_element user_guid)) ;;
       if truthy (local locals "is_users_team")
          && truthy (local locals "team_key")
       then Ok (Some (PyDict
                        [("team_key", local locals "team_key");
                         ("team_name", local locals "team_name");
                         ("draft_grade", local locals "draft_grade");
                         ("draft_position", local locals "draft_position")]))
       else Ok None
   | _ => Ok None
   end)%res.

(** The parse of [get_user_team_info], from the payload to the dict or
    [None] it returns. *)
Definition find_user_team (user_guid data : PyVal) : Res PyVal :=
  (fantasy_content <- py_get data "fantasy_content" (PyDict []) ;;
   league <- py_get fantasy_content "league" (PyList []) ;;
   teams <- second_element_field league "teams" ;;
   match teams with
   | Some teams =>
       keys <- py_iter teams ;;
       found <- first_return keys (users_team_at user_guid teams) ;;
       Ok (default PyNone found)
   | None => Ok PyNone
   end)%res.

Definition get_user_team_info (league_key : string) : M PyVal :=
  try_except
    (data <- yahoo_api_call ("league/" +:+ league_key +:+ "/teams") true true ;;
     user_guid <- getenv_default "YAHOO_GUID" "QQQ5VN577FJJ4GT2NLMJMIYEBU" ;;
     lift (find_user_team user_guid data))
    (fun _ => ret PyNone).

(** ** The roster tool *)

(** [d.get("position") or d.get("position_type")] for a dict [d] *)
Definition position_of (d : PyVal) : Res PyVal :=
  (position <- py_get1 d "position" ;;
   position_type <- py_get1 d "position_type" ;;
   Ok (py_or position position_type))%res.

(** The body of [for element in player_data] in [ff_get_roster] *)
Definition scan_roster_element (element : PyVal) : ST Dict unit :=
  when (is_dict element)
    (has_name <- lift (py_contains "name" element) ;;
     when has_name
       (name_val <- lift (py_item element "name") ;;
        match name_val with
        | PyDict _ =>
            full <- lift (py_get1 name_val "full") ;;
            first <- lift (py_get1 name_val "first") ;;
            set_item "name" (py_or full first)
        | PyStr _ => set_item "name" name_val
        | _ => ret tt
        end) ;;;
     has_selected <- lift (py_contains "selected_position" element) ;;
     (if has_selected then
        sel <- lift (py_item element "selected_position") ;;
        match sel with
        | PyList (sel0 :: _) =>
            if is_dict sel0
            then (position <- lift (position_of sel0) ;;
                  set_item "position" position)
            else set_item "position" (PyStr (py_str repr sel0))
        | PyDict _ =>
            position <- lift (position_of sel) ;;
            set_item "position" position
        | _ => ret tt
        end
      else
        has_display <- lift (py_contains "display_position" element) ;;
        if has_display then copy_field element "display_position" "position"
        else copy_field element "position" "position") ;;;
     has_status <- lift (py_contains "status" element) ;;
     if has_status then
       status <- lift (py_get element "status" (PyStr "OK")) ;;
       set_item "status" status
     else
       has_status_full <- lift (py_contains "status_full" element) ;;
       when has_status_full
         (status <- lift (py_get element "status_full" (PyStr "OK")) ;;
          set_item "status" status)).

(** The body of [for key in players] in [ff_get_roster] *)
Definition scan_roster_player (players key : PyVal) : ST (list PyVal) unit :=
  player_array <- lift (numbered_entry players key "player") ;;
  match player_array with
  | Some (PyList (player0 :: _)) =>
      player_info <-
        match player0 with
        | PyList player_data =>
            with_locals [] (for_in player_data scan_roster_element)
        | _ => ret []
        end ;;
      when (truthy (local player_info "name")) (append (PyDict player_info))
  | _ => ret tt
  end.

(** The body of [for item in team] in [ff_get_roster] *)
Definition scan_team_item (item : PyVal) : ST (list PyVal) unit :=
  has_roster <- and_then (is_dict item) (py_contains "roster" item) ;;
  when has_roster
    (roster_data <- lift (py_item item "roster") ;;
     has_first <- lift (py_contains "0" roster_data) ;;
     has_players <-
       (if has_first
        then lift (first <- py_item roster_data "0" ;;
                   py_contains "players" first)%res
        else ret false) ;;
     when has_players
       (first <- lift (py_item roster_data "0") ;;
        players <- lift (py_item first "players") ;;
        keys <- lift (py_iter players) ;;
        for_in keys (scan_roster_player players))).

Definition parse_roster (data : PyVal) : Res (list PyVal) :=
  (fantasy_content <- py_get data "fantasy_content" (PyDict []) ;;
   team <- py_get fantasy_content "team" (PyList []) ;;
   items <- py_iter team ;;
   run_locals [] (for_in items scan_team_item))%res.

Definition ff_get_roster (league_key : string) : M PyVal :=
  team_info <- get_user_team_info league_key ;;
  if truthy team_info then
    team_key <- lift (py_item team_info "team_key") ;;
    data <- yahoo_api_call ("team/" +:+ py_str repr team_key +:+ "/roster")
              true true ;;
    roster <- lift (parse_roster data) ;;
    team_name <- lift (py_get team_info "team_name" (PyStr "Unknown")) ;;
    draft_position <- lift (py_get1 team_info "draft_position") ;;
    draft_grade <- lift (py_get1 team_info "draft_grade") ;;
    ret (PyDict [("league_key", PyStr league_key);
                 ("team_key", team_key);
                 ("team_name", team_name);
                 ("draft_position", draft_position);
                 ("draft_grade", draft_grade);
                 ("roster", PyList roster)])
  else
    raise ToolError ("Could not find your team in league " +:+ league_key).

(** ** Player lists *)

(** The body of [for element in player_data] in [get_waiver_wire_players] *)
Definition scan_player_element (element : PyVal) : ST Dict unit :=
  when (is_dict element)
    (has_name <- lift (py_contains "name" element) ;;
     when has_name
       (name <- lift (py_item element "name") ;;
        full <- lift (py_item name "full") ;;
        set_item "name" full) ;;;
     copy_field element "player_key" "player_key" ;;;
     copy_field element "editorial_team_abbr" "team" ;;;
     copy_field element "display_position" "position" ;;;
     has_bye <- lift (py_contains "bye_weeks" element) ;;
     when has_bye
       (bye_weeks <- lift (py_item element "bye_weeks") ;;
        week <- lift (py_get bye_weeks "week" (PyStr "N/A")) ;;
        set_item "bye" week) ;;;
     has_ownership <- lift (py_contains "ownership" element) ;;
     when has_ownership
       (ownership <- lift (py_item element "ownership") ;;
        owned_pct <- lift (py_get ownership "ownership_percentage" (PyInt 0)) ;;
        set_item "owned_pct" owned_pct ;;;
        weekly_change <- lift (py_get ownership "weekly_change" (PyInt 0)) ;;
        set_item "weekly_change" weekly_change) ;;;
     copy_field element "status" "injury_status" ;;;
     copy_field element "status_full" "injury_detail").

(** The body of [for key in players_data] in [get_waiver_wire_players] *)
Definition scan_available_player (players_data key : PyVal)
  : ST (list PyVal) unit :=
  player_array <- lift (numbered_entry players_data key "player") ;;
  match player_array with
  | Some (PyList (PyList player_data :: _)) =>
      player_info <- with_locals [] (for_in player_data scan_player_element) ;;
      when (truthy (local player_info "name")) (append (PyDict player_info))
  | _ => ret tt
  end.

(** The parse of [get_waiver_wire_players], from the payload to [players]. *)
Definition parse_available_players (data : PyVal) : Res (list PyVal) :=
  (fantasy_content <- py_get data "fantasy_content" (PyDict []) ;;
   league <- py_get fantasy_content "league" (PyList []) ;;
   players_data <- second_element_field league "players" ;;
   match players_data with
   | Some players_data =>
       keys <- py_iter players_data ;;
       run_locals [] (for_in keys (scan_available_player players_data))
   | None => Ok []
   end)%res.

(** [{"rank": "OR", "points": "PTS", "owned": "O", "trending": "A"}
      .get(sort, "OR")]; the lookup hashes [sort]. *)
Definition sort_type_of (sort : PyVal) : Res string :=
  match sort with
  | PyList _ | PyDict _ =>
      raise_type_error ("unhashable type: '" +:+ type_name sort +:+ "'")
  | PyStr s =>
      Ok (default "OR"
            (dict_lookup s
               [("rank", "OR"); ("points", "PTS"); ("owned", "O");
                ("trending", "A")]))
  | _ => Ok "OR"
  end.

(** [f";position={position}" if position != "all" else ""] *)
Definition position_filter (position : PyVal) : string :=
  if negb (eq_str position "all") then ";position=" +:+ py_str repr position
  else "".

Definition get_waiver_wire_players (league_key position sort count : PyVal)
  : M PyVal :=
  try_except
    (let pos_filter := position_filter position in
     sort_type <- lift (sort_type_of sort) ;;
     let endpoint :=
       "league/" +:+ py_str repr league_key +:+ "/players;status=A"
       +:+ pos_filter +:+ ";sort=" +:+ sort_type
       +:+ ";count=" +:+ py_str repr count in
     data <- yahoo_api_call endpoint true true ;;
     players <- lift (parse_available_players data) ;;
     ret (PyList players))
    (fun _ => ret (PyList [])).

(** The body of [for element in player_data] in [get_draft_rankings] *)
Definition scan_ranked_element (rank : Z) (element : PyVal) : ST Dict unit :=
  when (is_dict element)
    (has_name <- lift (py_contains "name" element) ;;
     when has_name
       (name <- lift (py_item element "name") ;;
        full <- lift (py_item name "full") ;;
        set_item "name" full) ;;;
     copy_field element "editorial_team_abbr" "team" ;;;
     copy_field element "display_position" "position" ;;;
     has_bye <- lift (py_contains "bye_weeks" element) ;;
     when has_bye
       (bye_weeks <- lift (py_item element "bye_weeks") ;;
        week <- lift (py_get bye_weeks "week" (PyStr "N/A")) ;;
        set_item "bye" week) ;;;
     has_draft <- lift (py_contains "draft_analysis" element) ;;
     if has_draft then
       draft <- lift (py_item element "draft_analysis") ;;
       average_pick <- lift (py_get draft "average_pick" (PyInt rank)) ;;
       set_item "average_draft_position" average_pick ;;;
       average_round <- lift (py_get draft "average_round" (PyStr "N/A")) ;;
       set_item "average_round" average_round ;;;
       average_cost <- lift (py_get draft "average_cost" (PyStr "N/A")) ;;
       set_item "average_cost" average_cost ;;;
       percent_drafted <- lift (py_get draft "percent_drafted" (PyInt 0)) ;;
       set_item "percent_drafted" percent_drafted
     else set_item "rank" (PyInt rank)).

(** The body of [for key in players_data] in [get_draft_rankings] *)
Definition scan_ranked_player (players_data key : PyVal)
  : ST (list PyVal) unit :=
  player_array <- lift (numbered_entry players_data key "player") ;;
  match player_array with
  | Some (PyList (PyList player_data :: _)) =>
      key_number <- lift (py_int int_of_str key) ;;
      let rank := key_number + 1 in
      player_info <-
        with_locals [] (for_in player_data (scan_ranked_element rank)) ;;
      when (truthy (local player_info "name")) (append (PyDict player_info))
  | _ => ret tt
  end.

Definition parse_ranked_players (data : PyVal) : Res (list PyVal) :=
  (fantasy_content <- py_get data "fantasy_content" (PyDict []) ;;
   league <- py_get fantasy_content "league" (PyList []) ;;
   players_data <- second_element_field league "players" ;;
   match players_data with
   | Some players_data =>
       keys <- py_iter players_data ;;
       run_locals [] (for_in keys (scan_ranked_player players_data))
   | None => Ok []
   end)%res.

(** [float(x.get("average_draft_position", 999))
      if x.get("average_draft_position") != "N/A" else 999] *)
Definition adp_key (x : PyVal) : Res PyVal :=
  (adp <- py_get1 x "average_draft_position" ;;
   if negb (eq_str adp "N/A") then
     adp' <- py_get x "average_draft_position" (PyInt 999) ;;
     f <- py_float repr float_of_str adp' ;;
     Ok (PyFloat f)
   else Ok (PyInt 999))%res.

Definition get_draft_rankings (league_key position count : PyVal) : M PyVal :=
  try_except
    (chosen <-
       (if negb (truthy league_key) then
          leagues <- discover_leagues ;;
          match leagues with
          | (first_key, _) :: _ => ret (Some first_key)
          | [] => ret None
          end
        else ret (Some league_key)) ;;
     match chosen with
     | None => ret (PyList [])
     | Some league_key =>
         let pos_filter := position_filter position in
         let endpoint :=
           "league/" +:+ py_str repr league_key +:+ "/players" +:+ pos_filter
           +:+ ";sort=OR;count=" +:+ py_str repr count in
         data <- yahoo_api_call endpoint true true ;;
         players <- lift (parse_ranked_players data) ;;
         sorted <- lift (py_sorted adp_key players) ;;
         ret (PyList sorted)
     end)
    (fun _ => ret (PyList [])).

(** ** The waiver-wire tool *)

(** The parameters are shadowed by the assignments from [arguments], a name
    that neither the function nor the module binds. *)
Definition ff_get_waiver_wire (league_key position sort : string) (count : Z)
  : M PyVal :=
  arguments <- load_name "arguments" ;;
  league_key <- lift (py_get1 arguments "league_key") ;;
  position <- lift (py_get arguments "position" (PyStr "all")) ;;
  sort <- lift (py_get arguments "sort" (PyStr "rank")) ;;
  count <- lift (py_get arguments "count" (PyInt 20)) ;;
  players <- get_waiver_wire_players league_key position sort count ;;
  if truthy players then
    n <- lift (py_len players) ;;
    ret (PyDict [("league_key", league_key);
                 ("position", position);
                 ("sort", sort);
                 ("total_players", PyInt n);
                 ("players", players)])
  else
    raise ToolError
      ("Could not retrieve waiver wire players for league "
       +:+ py_str repr league_key).

(** ** Teams of a league *)

(** The body of [for element in team_data] in [get_all_teams_info] *)
Definition scan_team_info_element (element : PyVal) : ST Dict unit :=
  when (is_dict element)
    (copy_field element "team_key" "team_key" ;;;
     copy_field element "team_id" "team_id" ;;;
     copy_field element "name" "name" ;;;
     copy_field element "draft_grade" "draft_grade" ;;;
     copy_field element "draft_position" "draft_position" ;;;
     copy_field element "draft_recap_url" "draft_recap_url" ;;;
     copy_field element "number_of_moves" "moves" ;;;
     copy_field element "number_of_trades" "trades" ;;;
     has_managers <- lift (py_contains "managers" element) ;;
     when has_managers
       (managers <- lift (py_item element "managers") ;;
        nonempty <-
          (if truthy managers
           then n <- lift (py_len managers) ;; ret (0 <? n)
           else ret false) ;;
        when nonempty
          (manager0 <- lift (py_index managers 0) ;;
           mgr <- lift (py_get manager0 "manager" (PyDict [])) ;;
           nickname <- lift (py_get mgr "nickname" (PyStr "Unknown")) ;;
           set_item "manager" nickname))).

(** The body of [for key in teams] in [get_all_teams_info] *)
Definition scan_team_info (teams key : PyVal) : ST (list PyVal) unit :=
  team_array <- lift (numbered_entry teams key "team") ;;
  match team_array with
  | Some (PyList (PyList team_data :: _)) =>
      team_info <- with_locals [] (for_in team_data scan_team_info_element) ;;
      when (truthy (local team_info "team_key")) (append (PyDict team_info))
  | _ => ret tt
  end.

Definition parse_teams (data : PyVal) : Res (list PyVal) :=
  (fantasy_content <- py_get data "fantasy_content" (PyDict []) ;;
   league <- py_get fantasy_content "league" (PyList []) ;;
   teams <- second_element_field league "teams" ;;
   teams_list <-
     match teams with
     | Some teams =>
         keys <- py_iter teams ;;
         run_locals [] (for_in keys (scan_team_info teams))
     | None => Ok []
     end ;;
   py_sorted (fun x => py_get x "draft_position" (PyInt 999)) teams_list)%res.

Definition get_all_teams_info (league_key : string) : M PyVal :=
  try_except
    (data <- yahoo_api_call ("league/" +:+ league_key +:+ "/teams") true true ;;
     teams_list <- lift (parse_teams data) ;;
     ret (PyList teams_list))
    (fun _ => ret (PyList [])).

(** ** The standings tool *)

(** The dict appended to [standings] for a team. *)
Definition standing_entry (team_name team_standings : PyVal) : Res PyVal :=
  (rank <- py_get team_standings "rank" (PyInt 0) ;;
   totals <- py_get team_standings "outcome_totals" (PyDict []) ;;
   wins <- py_get totals "wins" (PyInt 0) ;;
   totals <- py_get team_standings "outcome_totals" (PyDict []) ;;
   losses <- py_get totals "losses" (PyInt 0) ;;
   totals <- py_get team_standings "outcome_totals" (PyDict []) ;;
   ties <- py_get totals "ties" (PyInt 0) ;;
   points_for <- py_get team_standings "points_for" (PyInt 0) ;;
   points_against <- py_get team_standings "points_against" (PyInt 0) ;;
   Ok (PyDict [("rank", rank); ("team", team_name); ("wins", wins);
               ("losses", losses); ("ties", ties);
               ("points_for", points_for);
               ("points_against", points_against)]))%res.

Definition standing_locals : Dict :=
  [("team_name", PyNone); ("team_standings", PyDict [])].

(** The body of [for element in team_array], the same in the structural
    parse and in [traverse_and_collect] *)
Definition scan_standing_element (element : PyVal) : ST Dict unit :=
  when (is_dict element)
    (has_name <- lift (py_contains "name" element) ;;
     when has_name
       (name_value <- lift (py_item element "name") ;;
        team_name <-
          (if is_dict name_value then lift (py_get1 name_value "full")
           else ret name_value) ;;
        set_item "team_name" team_name) ;;;
     has_standings <- lift (py_contains "team_standings" element) ;;
     when has_standings
       (team_standings <- lift (py_item element "team_standings") ;;
        when (is_dict team_standings)
          (set_item "team_standings" team_standings))).

(** The body of [for key, value in teams_data.items()] *)
Definition scan_standing_team (kv : string * PyVal) : ST (list PyVal) unit :=
  let '(key, value) := kv in
  if String.eqb key "count" then ret tt
  else
    has_team <- and_then (is_dict value) (py_contains "team" value) ;;
    when has_team
      (team_array <- lift (py_item value "team") ;;
       match team_array with
       | PyList ((_ :: _) as elements) =>
           locals <- with_locals standing_locals
                       (for_in elements scan_standing_element) ;;
           when (truthy (local locals "team_name")
                 && truthy (local locals "team_standings"))
             (entry <- lift (standing_entry (local locals "team_name")
                               (local locals "team_standings")) ;;
              append entry)
       | _ => ret tt
       end).

(** Methods 1 to 3 of the source: where [standings] may sit in [league].
    The third is an [elif] with the test of the second, so it never runs. *)
Definition find_standings_container (league : PyVal) : Res PyVal :=
  match league with
  | PyDict _ =>
      (has_standings <- py_contains "standings" league ;;
       if has_standings then py_item league "standings" else Ok PyNone)%res
  | PyList items =>
      (found <-
         first_return items (fun item =>
           if is_dict item then
             has_standings <- py_contains "standings" item ;;
             if has_standings
             then (c <- py_item item "standings" ;; Ok (Some c))
             else Ok None
           else Ok None) ;;
       Ok (default PyNone found))%res
  | _ => Ok PyNone
  end.

(** [standings.teams] or [standings.0.teams] *)
Definition find_teams_data (standings_container : PyVal) : Res PyVal :=
  if is_dict standings_container then
    (has_teams <- py_contains "teams" standings_container ;;
     if has_teams then py_item standings_container "teams"
     else
       has_first <- py_contains "0" standings_container ;;
       if has_first then
         first <- py_item standings_container "0" ;;
         if is_dict first then
           has_teams <- py_contains "teams" first ;;
           if has_teams then py_item first "teams" else Ok PyNone
         else Ok PyNone
       else Ok PyNone)%res
  else Ok PyNone.

(** The structural parse, from [league] to [standings]. *)
Definition parse_standings (league : PyVal) : Res (list PyVal) :=
  (standings_container <- find_standings_container league ;;
   if truthy standings_container then
     teams_data <- find_teams_data standings_container ;;
     if truthy teams_data then
       match teams_data with
       | PyDict items => run_locals [] (for_in items scan_standing_team)
       | _ => Ok []
       end
     else Ok []
   else Ok [])%res.

(** The team block of [traverse_and_collect] *)
Definition collect_team_block (team_array : list PyVal) : ST (list PyVal) unit :=
  locals <- with_locals standing_locals
              (for_in team_array scan_standing_element) ;;
  when (truthy (local locals "team_name"))
    (entry <- lift (standing_entry (local locals "team_name")
                      (local locals "team_standings")) ;;
     append entry).

(** The deep fallback: every dict and list of the payload is visited, and a
    team block with a name adds an entry to [standings]. *)
Fixpoint traverse_and_collect (obj : PyVal) {struct obj}
  : ST (list PyVal) unit :=
  match obj with
  | PyDict d =>
      match dict_lookup "team" d with
      | Some (PyList team_array) => collect_team_block team_array
      | _ => ret tt
      end ;;;
      (fix values (d : list (string * PyVal)) {struct d}
         : ST (list PyVal) unit :=
         match d with
         | [] => ret tt
         | (_, v) :: d' => traverse_and_collect v ;;; values d'
         end) d
  | PyList l =>
      (fix each (l : list PyVal) {struct l} : ST (list PyVal) unit :=
         match l with
         | [] => ret tt
         | v :: l' => traverse_and_collect v ;;; each l'
         end) l
  | _ => ret tt
  end.

(** The placeholder standings: one entry per team, ranked by position in
    [teams_sorted], with a zero record. *)
Fixpoint placeholder_entries (idx : Z) (teams_sorted : list PyVal)
  : Res (list PyVal) :=
  match teams_sorted with
  | [] => Ok []
  | t :: rest =>
      (name <- py_get1 t "name" ;;
       team <-
         (if is_dict name
          then (n <- py_get t "name" (PyStr "Unknown") ;; py_get1 n "full")
          else py_get t "name" (PyStr "Unknown")) ;;
       entries <- placeholder_entries (idx + 1) rest ;;
       Ok (PyDict [("rank", PyInt (idx + 1)); ("team", team);
                   ("wins", PyInt 0); ("losses", PyInt 0); ("ties", PyInt 0);
                   ("points_for", PyInt 0); ("points_against", PyInt 0)]
           :: entries))%res
  end.

(** [any(t.get("draft_position") for t in teams)] *)
Fixpoint any_draft_position (teams : list PyVal) : Res bool :=
  match teams with
  | [] => Ok false
  | t :: rest =>
      (p <- py_get1 t "draft_position" ;;
       if truthy p then Ok true else any_draft_position rest)%res
  end.

Definition placeholder_standings (teams : list PyVal) : Res (list PyVal) :=
  (by_draft <- any_draft_position teams ;;
   teams_sorted <-
     (if by_draft
      then py_sorted (fun t => py_get t "draft_position" (PyInt 9999)) teams
      else py_sorted
             (fun t => name <- py_get t "name" (PyStr "") ;;
                       Ok (PyStr (py_str repr name))) teams) ;;
   placeholder_entries 0 teams_sorted)%res.

(** The statements of [ff_get_standings] after its first one.  They refer
    to the payload by the name [data]; [load_data] is what evaluating that
    name does. *)
Definition standings_from (load_data : M PyVal) (league_key : string)
  : M PyVal :=
  data <- load_data ;;
  fantasy_content <- lift (py_get data "fantasy_content" (PyDict [])) ;;
  league <- lift (py_get fantasy_content "league" (PyList [])) ;;
  standings <- lift (parse_standings league) ;;
  standings <-
    match standings with
    | [] =>
        try_except
          (data <- load_data ;;
           fantasy_content <-
             lift (py_get data "fantasy_content" (PyDict [])) ;;
           let '(result, collected) :=
             traverse_and_collect fantasy_content [] in
           ret collected)
          (fun _ => ret [])
    | _ => ret standings
    end ;;
  standings <-
    match standings with
    | [] =>
        try_except
          (teams <- get_all_teams_info league_key ;;
           match teams with
           | PyList ((_ :: _) as teams) => lift (placeholder_standings teams)
           | _ => ret []
           end)
          (fun _ => ret [])
    | _ => ret standings
    end ;;
  sorted <- lift (py_sorted (fun x => py_item x "rank") standings) ;;
  ret (PyDict [("league_key", PyStr league_key);
               ("standings", PyList sorted);
               ("debug_info",
                PyDict [("total_teams_found",
                         PyInt (Z.of_nat (length sorted)));
                        ("league_structure", PyStr "logged_to_console")])]).

(** The first statement binds the payload to [ata]; the rest of the function
    refers to [data], a name that neither the function nor the module
    binds.  (The [print] calls of the source write to the standard output,
    which is not part of the state.) *)
Definition ff_get_standings (league_key : string) : M PyVal :=
  ata <- yahoo_api_call ("league/" +:+ league_key +:+ "/standings") true true ;;
  standings_from (load_name "data") league_key.

(** The function with [data] in place of [ata] in its first statement. *)
Definition ff_get_standings_with_data_bound (league_key : string) : M PyVal :=
  data <- yahoo_api_call ("league/" +:+ league_key +:+ "/standings") true true ;;
  standings_from (ret data) league_key.

(** ** The other tools *)

(** [team_info.get("team_key") if team_info else None] *)
Definition get_user_team_key (league_key : string) : M PyVal :=
  team_info <- get_user_team_info league_key ;;
  if truthy team_info then lift (py_get1 team_info "team_key") else ret PyNone.

(** [l[:n]] *)
Definition take_upto {A : Type} (n : Z) (l : list A) : list A :=
  if 0 <=? n then firstn (Z.to_nat n) l
  else firstn (Z.to_nat (Z.of_nat (length l) + n)) l.

(** [ff_get_players]: the parse is the one of [get_waiver_wire_players],
    statement for statement, but outside any [try]. *)
Definition ff_get_players (league_key position : string) (count : Z) : M PyVal :=
  let pos_filter :=
    if truthy (PyStr position) then ";position=" +:+ position else "" in
  let endpoint :=
    "league/" +:+ league_key +:+ "/players;status=A" +:+ pos_filter
    +:+ ";sort=OR;count=" +:+ pretty count in
  data <- yahoo_api_call endpoint true true ;;
  players <- lift (parse_available_players data) ;;
  ret (PyDict [("league_key", PyStr league_key);
               ("position", py_or (PyStr position) (PyStr "all"));
               ("count", PyInt (Z.of_nat (length players)));
               ("players", PyList (take_upto count players))]).

Definition ff_get_draft_rankings (league_key position : string) (count : Z)
  : M PyVal :=
  players <- get_draft_rankings (PyStr league_key) (PyStr position)
               (PyInt count) ;;
  if truthy players then
    n <- lift (py_len players) ;;
    ret (PyDict [("position", PyStr position);
                 ("total_players", PyInt n);
                 ("rankings", players)])
  else
    raise ToolError
      ("Could not retrieve draft rankings for league " +:+ league_key).

Definition ff_get_draft_results (league_key : string) : M PyVal :=
  teams <- get_all_teams_info league_key ;;
  if truthy teams then
    user_guid <- getenv_default "YAHOO_GUID" "QQQ5VN577FJJ4GT2NLMJMIYEBU" ;;
    n <- lift (py_len teams) ;;
    ret (PyDict [("league_key", PyStr league_key);
                 ("total_teams", PyInt n);
                 ("draft_results", teams)])
  else
    raise ToolError
      ("Could not retrieve draft results for league " +:+ league_key).

(** [list(d.keys())] for a value [d] *)
Definition py_keys (d : PyVal) : Res PyVal :=
  match d with
  | PyDict items => Ok (PyList (map PyStr (dict_keys items)))
  | _ => no_attribute d "keys"
  end.

(** The [week] argument is an integer or [None]. *)
Definition ff_get_matchup (league_key : string) (week : PyVal) : M PyVal :=
  team_key <- get_user_team_key league_key ;;
  if truthy team_key then
    let week_param := if truthy week then ";week=" +:+ py_str repr week else "" in
    data <- yahoo_api_call
              ("team/" +:+ py_str repr team_key +:+ "/matchups" +:+ week_param)
              true true ;;
    keys <- (if truthy data then lift (py_keys data) else ret (PyList [])) ;;
    fantasy_content_keys <-
      (if truthy data
       then lift (fc <- py_get data "fantasy_content" (PyDict []) ;;
                  py_keys fc)%res
       else ret (PyList [])) ;;
    team_structure <-
      (if truthy data
       then lift (fc <- py_get data "fantasy_content" (PyDict []) ;;
                  team <- py_get fc "team" PyNone ;;
                  Ok (PyStr (type_name team)))%res
       else ret (PyStr "None")) ;;
    ret (PyDict [("league_key", PyStr league_key);
                 ("team_key", team_key);
                 ("week", py_or week (PyStr "current"));
                 ("message", PyStr "Matchup data retrieved");
                 ("raw_data", data);
                 ("data_structure",
                  PyDict [("keys", keys);
                          ("fantasy_content_keys", fantasy_content_keys);
                          ("team_structure", team_structure)])])
  else
    raise ToolError ("Could not find your team in league " +:+ league_key).

(** One element of the list [ff_get_leagues] returns *)
Definition league_summary (league : PyVal) : Res PyVal :=
  (key <- py_item league "key" ;;
   name <- py_item league "name" ;;
   teams <- py_item league "num_teams" ;;
   current_week <- py_item league "current_week" ;;
   scoring <- py_item league "scoring_type" ;;
   Ok (PyDict [("key", key); ("name", name); ("teams", teams);
               ("current_week", current_week); ("scoring", scoring)]))%res.

(** A list comprehension: [[f(x) for x in l]] *)
Fixpoint comprehension {A B : Type} (f : A -> Res B) (l : list A)
  : Res (list B) :=
  match l with
  | [] => Ok []
  | x :: l' => (y <- f x ;; ys <- comprehension f l' ;; Ok (y :: ys))%res
  end.

Definition ff_get_leagues : M PyVal :=
  leagues <- discover_leagues ;;
  match leagues with
  | [] =>
      ret (PyDict
             [("error", PyStr "No active NFL leagues found");
              ("suggestion",
               PyStr ("Make sure your Yahoo token is valid and you have "
                      +:+ "active leagues"))])
  | _ :: _ =>
      summaries <- lift (comprehension league_summary (map snd leagues)) ;;
      ret (PyDict [("total_leagues", PyInt (Z.of_nat (length leagues)));
                   ("leagues", PyList summaries)])
  end.

Definition ff_get_league_info (league_key : string) : M PyVal :=
  leagues <- discover_leagues ;;
  match leagues_lookup (PyStr league_key) leagues with
  | Some league =>
      team_info <- get_user_team_info league_key ;;
      data <- yahoo_api_call ("league/" +:+ league_key) true true ;;
      name <- lift (py_item league "name") ;;
      season <- lift (py_item league "season") ;;
      teams <- lift (py_item league "num_teams") ;;
      current_week <- lift (py_item league "current_week") ;;
      scoring_type <- lift (py_item league "scoring_type") ;;
      is_finished <- lift (py_item league "is_finished") ;;
      team_name <-
        (if truthy team_info
         then lift (py_get team_info "team_name" (PyStr "Unknown"))
         else ret (PyStr "Not found")) ;;
      team_key <-
        (if truthy team_info then lift (py_get1 team_info "team_key")
         else ret PyNone) ;;
      draft_position <-
        (if truthy team_info then lift (py_get1 team_info "draft_position")
         else ret PyNone) ;;
      draft_grade <-
        (if truthy team_info then lift (py_get1 team_info "draft_grade")
         else ret PyNone) ;;
      ret (PyDict [("league", name);
                   ("key", PyStr league_key);
                   ("season", season);
                   ("teams", teams);
                   ("current_week", current_week);
                   ("scoring_type", scoring_type);
                   ("status",
                    PyStr (if negb (truthy is_finished) then "active"
                           else "finished"));
                   ("your_team",
                    PyDict [("name", team_name);
                            ("key", team_key);
                            ("draft_position", draft_position);
                            ("draft_grade", draft_grade)])])
  | None =>
      raise ToolError
        ("League " +:+ league_key +:+ " not found. Available leagues: "
         +:+ repr (PyList (map fst leagues)))
  end.

Definition ff_refresh_token : M PyVal := refresh_yahoo_token.

(** [await helper(...)] for a helper that the module is expected to define:
    the name is looked up when the call is evaluated.  What the call of a
    bound name would do is not modelled; none of the five names below is
    bound. *)
Definition call_helper (name : string) : M PyVal :=
  helper <- load_name name ;;
  raise TypeError ("'" +:+ type_name helper +:+ "' object is not callable").

(** [try: return await helper(...)  except Exception as e:
      raise ToolError(f"{prefix}{str(e)}{suffix}")] *)
Definition delegate (name prefix suffix : string) : M PyVal :=
  try_except (call_helper name)
    (fun e => raise ToolError (prefix +:+ exc_str e +:+ suffix)).

Definition matchup_suggestion : string :=
  ". Suggestion: Check that the league key is valid and you have an active "
  +:+ "matchup".

Definition ff_get_opponent_roster_comparison (league_key : string)
    (week : PyVal) : M PyVal :=
  if negb (truthy (PyStr league_key)) then
    raise ToolError "League key is required"
  else
    delegate "get_opponent_roster_comparison_simple"
      "Failed to get roster comparison: " matchup_suggestion.

Definition ff_get_all_teams (league_key : string) : M PyVal :=
  if negb (truthy (PyStr league_key)) then
    raise ToolError "League key is required"
  else
    delegate "get_all_teams_with_rosters" "Failed to get all teams: "
      ". Suggestion: Check that the league key is valid".

Definition ff_get_draft_recommendation (league_key strategy : string)
    (num_recommendations : Z) (current_pick : PyVal) : M PyVal :=
  delegate "get_draft_recommendation_simple" "Draft recommendation failed: " "".

Definition ff_analyze_draft_state (league_key strategy : string) : M PyVal :=
  delegate "analyze_draft_state_simple" "Draft analysis failed: "
    (". Suggestion: Try using ff_get_roster to check current team "
     +:+ "composition").

Definition ff_get_opponent_roster (league_key : string) (week : PyVal)
  : M PyVal :=
  delegate "get_opponent_roster_simple" "Failed to get opponent roster: "
    matchup_suggestion.

(** ** Vocabulary of the statements *)

(** The events of the cache lookup that opens a gateway call, and the state
    of the cache after it. *)
Definition lookup_events (use_cache : bool) (endpoint : string) : list Event :=
  if use_cache then [EvCacheGet endpoint] else [].

Definition cache_after_lookup (use_cache : bool) (endpoint : string) (c : C)
  : C :=
  if use_cache then snd (cache_get endpoint c) else c.

(** The gateway goes upstream: the cache is not consulted, or holds nothing
    for the endpoint. *)
Definition cache_miss (use_cache : bool) (endpoint : string) (c : C) : Prop :=
  use_cache = false \/ fst (cache_get endpoint c) = PyNone.

(** The reply to the request a gateway call issues from state [w] after a
    miss. *)
Definition first_reply (use_cache : bool) (endpoint : string) (w : World)
  : Res Response :=
  http_get net
    (trace w ++ lookup_events use_cache endpoint ++ [EvAcquire])
    (request_url endpoint) (YAHOO_ACCESS_TOKEN w).

(** The form the refresher posts when the three credentials are set. *)
Definition refresh_form (id secret rt : string) : list (string * string) :=
  [("client_id", id); ("client_secret", secret);
   ("refresh_token", rt); ("grant_type", "refresh_token")].

Definition credentials (w : World) (id secret rt : string) : Prop :=
  environ w !! "YAHOO_CONSUMER_KEY" = Some id
  /\ environ w !! "YAHOO_CONSUMER_SECRET" = Some secret
  /\ environ w !! "YAHOO_REFRESH_TOKEN" = Some rt
  /\ id <> "" /\ secret <> "" /\ rt <> "".

Definition missing_credentials (w : World) : Prop :=
  exists k,
    (k = "YAHOO_CONSUMER_KEY" \/ k = "YAHOO_CONSUMER_SECRET"
     \/ k = "YAHOO_REFRESH_TOKEN")
    /\ (environ w !! k = None \/ environ w !! k = Some "").

(** The rotated refresh credential of a token reply: its [refresh_token]
    when that is a string, differs from the one sent, and is accepted by
    [os.environ]. *)
Definition rotated_token (new_refresh : PyVal) (sent : string) : option string :=
  match new_refresh with
  | PyStr new_rt =>
      if String.eqb new_rt sent || has_nul new_rt then None else Some new_rt
  | _ => None
  end.

(** The state in which the reply to that request is handled. *)
Definition after_request (use_cache : bool) (endpoint : string) (w : World)
  : World :=
  mkWorld (YAHOO_ACCESS_TOKEN w) (LEAGUES_CACHE w) (environ w)
    (cache_after_lookup use_cache endpoint (response_cache w))
    (trace w ++ lookup_events use_cache endpoint
       ++ [EvAcquire;
           EvGet (request_url endpoint) (YAHOO_ACCESS_TOKEN w)
             (first_reply use_cache endpoint w)]).

End Process.

Fixpoint count_refresh (tr : list Event) : nat :=
  match tr with
  | [] => 0
  | EvRefresh :: tr' => S (count_refresh tr')
  | _ :: tr' => count_refresh tr'
  end.

(** The store that follows a reply: the payload of a 200 response, when the
    cache is in use. *)
Definition store_events (use_cache : bool) (endpoint : string)
    (reply : Res Response) : list Event :=
  match reply with
  | Ok r =>
      if status r =? 200 then
        match json r with
        | Ok data => if use_cache then [EvCacheSet endpoint data] else []
        | Raise _ => []
        end
      else []
  | Raise _ => []
  end.

(** One exchange with upstream: lookup, permit, request, store. *)
Definition exchange_events (use_cache : bool) (endpoint : string)
    (token : PyVal) (reply : Res Response) : list Event :=
  lookup_events use_cache endpoint
  ++ [EvAcquire; EvGet (request_url endpoint) token reply]
  ++ store_events use_cache endpoint reply.

(** The events of the refresher: its invocation and at most one token
    exchange. *)
Definition refresh_events (evs : list Event) : Prop :=
  exists posts,
    evs = EvRefresh :: posts
    /\ (posts = [] \/ exists form reply, posts = [EvPost token_url form reply]).

(** The shapes the log of one gateway call can take: a hit; one exchange; or,
    when retry is enabled, an exchange answered 401, the refresher, and then
    nothing more (the refresh failed) or the log of a call without retry. *)
Inductive gateway_run (endpoint : string) (use_cache : bool)
  : bool -> list Event -> Prop :=
| run_hit retry :
    use_cache = true ->
    gateway_run endpoint use_cache retry [EvCacheGet endpoint]
| run_exchange retry token reply :
    gateway_run endpoint use_cache retry
      (exchange_events use_cache endpoint token reply)
| run_refresh_failed token r refresh :
    status r = 401 ->
    refresh_events refresh ->
    gateway_run endpoint use_cache true
      (exchange_events use_cache endpoint token (Ok r) ++ refresh)
| run_refresh_retry token r refresh tail :
    status r = 401 ->
    refresh_events refresh ->
    gateway_run endpoint use_cache false tail ->
    gateway_run endpoint use_cache true
      (exchange_events use_cache endpoint token (Ok r) ++ refresh ++ tail).

(** The events of the response cache *)
Definition is_cache_event (ev : Event) : bool :=
  match ev with
  | EvCacheGet _ | EvCacheSet _ _ => true
  | _ => false
  end.

(** A response cache that hands back what was stored last under a key. *)
Definition cache_returns_stored (C : Type) `{!ResponseCache C} : Prop :=
  forall k v (c : C), fst (cache_get k (cache_set k v c)) = v.

(** A computation keeps a property of its state, whether it returns or
    raises. *)
Definition preserves {S A : Type} (P : S -> Prop) (m : ST S A) : Prop :=
  forall s, P s -> P (snd (m s)).

(** A dict whose entry [k] counts as true. *)
Definition has_true_field (k : string) (v : PyVal) : Prop :=
  exists d, v = PyDict d /\ truthy (local d k) = true.

(** Draft order: integer draft positions, ascending; a team without one
    counts as 999, the default of the sort key. *)
Definition in_draft_order (a b : PyVal) : Prop :=
  exists m n,
    py_get a "draft_position" (PyInt 999) = Ok (PyInt m)
    /\ py_get b "draft_position" (PyInt 999) = Ok (PyInt n)
    /\ m <= n.

(** A league record as [discover_leagues] builds it. *)
Definition league_record (v : PyVal) : Prop :=
  exists key id name season num_teams scoring_type current_week is_finished,
    v = PyDict [("key", key); ("id", id); ("name", name); ("season", season);
                ("num_teams", num_teams); ("scoring_type", scoring_type);
                ("current_week", current_week); ("is_finished", is_finished)].

Definition league_records (leagues : Leagues) : Prop :=
  Forall (fun kv => league_record (snd kv)) leagues.

Arguments World : clear implicits.
Arguments M : clear implicits.

(** ** Sample processes *)

(** A network that gives the same reply to every request of a kind. *)
Definition constant_network (get_reply post_reply : Res Response) : Network :=
  mkNetwork (fun _ _ _ => get_reply) (fun _ _ _ => post_reply).

Definition sample_environ : gmap string string :=
  <["YAHOO_CONSUMER_KEY" := "consumer-key"]>
    (<["YAHOO_CONSUMER_SECRET" := "consumer-secret"]>
       (<["YAHOO_REFRESH_TOKEN" := "refresh-1"]> ∅)).

(** A process with credentials in its environment, an access token that may
    have expired, and nothing cached. *)
Definition sample_world : World (gmap string PyVal) :=
  mkWorld (PyStr "access-0") [] sample_environ ∅ [].

Definition not_json : Res PyVal :=
  Raise (mkExc ClientError "Attempt to decode JSON with unexpected mimetype").

Definition unauthorized : Response :=
  mkResponse 401 not_json (Ok "token_expired").

Definition server_error : Response :=
  mkResponse 500 not_json (Ok "Internal Server Error").





(** A token endpoint reply that issues a new access token and rotates the
    refresh token. *)
Definition token_issued : Response :=
  mkResponse 200
    (Ok (PyDict [("access_token", PyStr "access-1");
                 ("refresh_token", PyStr "refresh-2");
                 ("expires_in", PyInt 3600)]))
    (Ok EmptyString).

(** The same without rotation. *)
Definition token_issued_no_rotation : Response :=
  mkResponse 200
    (Ok (PyDict [("access_token", PyStr "access-1");
                 ("expires_in", PyInt 3600)]))
    (Ok EmptyString).

Definition standings_endpoint : string := "league/461.l.61410/standings".

Definition standings_payload : PyVal :=
  PyDict [("fantasy_content", PyDict [("league", PyList [])])].

Definition standings_ok : Response := mkResponse 200 (Ok standings_payload) (Ok EmptyString).

(** A leagues payload with one league, in the nesting [discover_leagues]
    walks. *)
Definition one_league : PyVal :=
  PyDict [("league_key", PyStr "461.l.61410");
          ("league_id", PyStr "61410");
          ("name", PyStr "Sunday League");
          ("season", PyStr "2025");
          ("num_teams", PyInt 10);
          ("scoring_type", PyStr "head");
          ("current_week", PyInt 3);
          ("is_finished", PyInt 0)].

Definition leagues_payload : PyVal :=
  PyDict
    [("fantasy_content",
      PyDict
        [("users",
          PyDict
            [("0",
              PyDict
                [("user",
                  PyList
                    [PyDict [("guid", PyStr "QQQ5VN577FJJ4GT2NLMJMIYEBU")];
                     PyDict
                       [("games",
                         PyDict
                           [("0",
                             PyDict
                               [("game",
                                 PyList
                                   [PyDict [("game_key", PyStr "461")];
                                    PyDict
                                      [("leagues",
                                        PyDict
                                          [("0",
                                            PyDict
                                              [("league",
                                                PyList [one_league])]);
                                           ("count", PyInt 1)])]])]);
                            ("count", PyInt 1)])]])]);
             ("count", PyInt 1)])])].

Definition leagues_ok : Response := mkResponse 200 (Ok leagues_payload) (Ok EmptyString).

(** A user without leagues. *)
Definition no_leagues_payload : PyVal :=
  PyDict [("fantasy_content",
           PyDict [("users", PyDict [("count", PyInt 0)])])].

Definition no_leagues_ok : Response :=
  mkResponse 200 (Ok no_leagues_payload) (Ok EmptyString).

(** Stand-ins for the builtin parameters in the sample runs, none of which
    formats a float, a list or a dict, or parses a float; the integers
    parsed are written in ASCII. *)
Definition sample_repr : PyVal -> string := fun _ => "<object>".
Definition sample_float_of_str : string -> option float := fun _ => None.

Definition is_space (c : Ascii.ascii) : bool :=
  let n := Ascii.nat_of_ascii c in
  Nat.eqb n 32 || (Nat.leb 9 n && Nat.leb n 13).

Fixpoint strip_left (s : string) : string :=
  match s with
  | String c s' => if is_space c then strip_left s' else s
  | EmptyString => s
  end.

(** [s.strip()] *)
Definition strip (s : string) : string :=
  String.rev (strip_left (String.rev (strip_left s))).

Definition digit_of (c : Ascii.ascii) : option Z :=
  let n := Ascii.nat_of_ascii c in
  if Nat.leb 48 n && Nat.leb n 57 then Some (Z.of_nat (n - 48)) else None.

(** Decimal digits, with single underscores (code 95) between digits. *)
Fixpoint parse_digits (s : string) (acc : Z) (after_digit : bool) : option Z :=
  match s with
  | EmptyString => if after_digit then Some acc else None
  | String c s' =>
      if Nat.eqb (Ascii.nat_of_ascii c) 95 then
        if after_digit then parse_digits s' acc false else None
      else
        match digit_of c with
        | Some d => parse_digits s' (10 * acc + d) true
        | None => None
        end
  end.

(** The decimal parse of ASCII text: surrounding whitespace, an optional sign
    ([-] is code 45, [+] code 43), decimal digits. *)
Definition decimal_of_str (s : string) : option Z :=
  match strip s with
  | String c s' =>
      let n := Ascii.nat_of_ascii c in
      if Nat.eqb n 45 then option_map Z.opp (parse_digits s' 0 false)
      else if Nat.eqb n 43 then parse_digits s' 0 false
      else parse_digits (String c s') 0 false
  | EmptyString => None
  end.

Definition sample_int_of_str (s : string) : Res Z :=
  match decimal_of_str s with
  | Some n => Ok n
  | None =>
      Raise (mkExc ValueError
               ("invalid literal for int() with base 10: '" +:+ s +:+ "'"))
  end.

Definition players_endpoint : string :=
  "league/461.l.61410/players;status=A;sort=OR;count=20".

(** A players payload in which the [name] of the player is a string instead
    of the object with a [full] field the parse expects. *)
Definition malformed_players_payload : PyVal :=
  PyDict
    [("fantasy_content",
      PyDict
        [("league",
          PyList
            [PyDict [("league_key", PyStr "461.l.61410")];
             PyDict
               [("players",
                 PyDict
                   [("0",
                     PyDict
                       [("player",
                         PyList
                           [PyList
                              [PyDict [("player_key", PyStr "461.p.1")];
                               PyDict [("name", PyStr "Josh Allen")]]])]);
                    ("count", PyInt 1)])]])])].

(** A players payload with no player in it. *)
Definition no_players_payload : PyVal :=
  PyDict
    [("fantasy_content",
      PyDict
        [("league",
          PyList
            [PyDict [("league_key", PyStr "461.l.61410")];
             PyDict [("players", PyDict [("count", PyInt 0)])]])])].

(** A teams payload in which no team belongs to the user. *)
Definition teams_payload : PyVal :=
  PyDict
    [("fantasy_content",
      PyDict
        [("league",
          PyList
            [PyDict [("league_key", PyStr "461.l.61410")];
             PyDict
               [("teams",
                 PyDict
                   [("0",
                     PyDict
                       [("team",
                         PyList
                           [PyList
                              [PyDict [("team_key", PyStr "461.l.61410.t.1")];
                               PyDict [("name", PyStr "Gridiron Gang")];
                               PyDict [("draft_position", PyInt 2)];
                               PyDict
                                 [("managers",
                                   PyList
                                     [PyDict
                                        [("manager",
                                          PyDict
                                            [("guid", PyStr "SOMEONEELSE");
                                             ("nickname", PyStr "Sam")])]])]]])]);
                    ("1",
                     PyDict
                       [("team",
                         PyList
                           [PyList
                              [PyDict [("team_key", PyStr "461.l.61410.t.2")];
                               PyDict [("name", PyStr "Air Raid")];
                               PyDict [("draft_position", PyInt 1)]]])]);
                    ("count", PyInt 2)])]])])].

Definition reply_with (payload : PyVal) : Res Response :=
  Ok (mkResponse 200 (Ok payload) (Ok EmptyString)).

(** An upstream that answers a standings request with a payload that holds
    no standings and no team, and any other request with the teams of the
    league. *)
Definition league_network : Network :=
  mkNetwork
    (fun _ url _ =>
       if str_contains "/standings" url then reply_with standings_payload
       else reply_with teams_payload)
    (fun _ _ _ => Ok token_issued).

(** The upstream cannot be reached. *)
Definition connection_error : PyExc :=
  mkExc ClientError "Cannot connect to host fantasysports.yahooapis.com:443".

(** A process without credentials in its environment. *)
Definition no_credentials_world : World (gmap string PyVal) :=
  mkWorld (PyStr "access-0") [] ∅ ∅ [].

(** A token endpoint reply whose expiry is a string. *)
Definition token_issued_bad_expiry : Response :=
  mkResponse 200
    (Ok (PyDict [("access_token", PyStr "access-1");
                 ("expires_in", PyStr "3600")]))
    (Ok EmptyString).

(** A teams payload whose only team belongs to the user. *)
Definition my_teams_payload : PyVal :=
  PyDict
    [("fantasy_content",
      PyDict
        [("league",
          PyList
            [PyDict [("league_key", PyStr "461.l.61410")];
             PyDict
               [("teams",
                 PyDict
                   [("0",
                     PyDict
                       [("team",
                         PyList
                           [PyList
                              [PyDict [("team_key", PyStr "461.l.61410.t.1")];
                               PyDict [("name", PyStr "Gridiron Gang")];
                               PyDict [("is_owned_by_current_login", PyInt 1)];
                               PyDict [("draft_position", PyInt 2)]]])]);
                    ("count", PyInt 1)])]])])].

(** A roster payload with two players, the second without a name. *)
Definition roster_payload : PyVal :=
  PyDict
    [("fantasy_content",
      PyDict
        [("team",
          PyList
            [PyList [PyDict [("team_key", PyStr "461.l.61410.t.1")]];
             PyDict
               [("roster",
                 PyDict
                   [("0",
                     PyDict
                       [("players",
                         PyDict
                           [("0",
                             PyDict
                               [("player",
                                 PyList
                                   [PyList
                                      [PyDict [("player_key", PyStr "461.p.1")];
                                       PyDict
                                         [("name",
                                           PyDict
                                             [("full", PyStr "Josh Allen");
                                              ("first", PyStr "Josh")])];
                                       PyDict
                                         [("display_position", PyStr "QB")]]])]);
                            ("1",
                             PyDict
                               [("player",
                                 PyList
                                   [PyList
                                      [PyDict [("player_key", PyStr "461.p.2")];
                                       PyDict
                                         [("display_position", PyStr "RB")]]])]);
                            ("count", PyInt 2)])])])]])])].

(** An upstream that answers a roster request with the roster and any other
    request with the teams of the league. *)
Definition roster_network : Network :=
  mkNetwork
    (fun _ url _ =>
       if str_contains "/roster" url then reply_with roster_payload
       else reply_with my_teams_payload)
    (fun _ _ _ => Ok token_issued).

(** A players payload with two named players. *)
Definition named_players_payload : PyVal :=
  PyDict
    [("fantasy_content",
      PyDict
        [("league",
          PyList
            [PyDict [("league_key", PyStr "461.l.61410")];
             PyDict
               [("players",
                 PyDict
                   [("0",
                     PyDict
                       [("player",
                         PyList
                           [PyList
                              [PyDict [("player_key", PyStr "461.p.1")];
                               PyDict
                                 [("name",
                                   PyDict [("full", PyStr "Josh Allen")])]]])]);
                    ("1",
                     PyDict
                       [("player",
                         PyList
                           [PyList
                              [PyDict [("player_key", PyStr "461.p.2")];
                               PyDict
                                 [("name",
                                   PyDict [("full", PyStr "Lamar Jackson")])]]])]);
                    ("count", PyInt 2)])]])])].

(** The record [discover_leagues] builds for the league of the sample
    payload. *)
Definition one_league_record : PyVal :=
  PyDict [("key", PyStr "461.l.61410"); ("id", PyStr "61410");
          ("name", PyStr "Sunday League"); ("season", PyStr "2025");
          ("num_teams", PyInt 10); ("scoring_type", PyStr "head");
          ("current_week", PyInt 3); ("is_finished", PyInt 0)].

(** The two teams of the sample league, as [get_all_teams_info] reports
    them. *)
Definition air_raid_team : PyVal :=
  PyDict [("team_key", PyStr "461.l.61410.t.2"); ("name", PyStr "Air Raid");
          ("draft_position", PyInt 1)].

Definition gridiron_gang_team : PyVal :=
  PyDict [("team_key", PyStr "461.l.61410.t.1");
          ("name", PyStr "Gridiron Gang"); ("draft_position", PyInt 2);
          ("manager", PyStr "Sam")].

(** * Properties *)

Open Scope list_scope.

(** Case analysis on the innermost [match] of the goal: the scrutinee that
    contains no other. *)
Ltac case_innermost :=
  match goal with
  | |- context [match ?x with _ => _ end] =>
      lazymatch x with
      | context [match _ with _ => _ end] => fail
      | _ => destruct x eqn:?
      end
  end.

Section GatewayProperties.
Context {C : Type} `{!ResponseCache C}.
Variable net : Network.
Local Open Scope list_scope.
Local Open Scope proc_scope.

Lemma count_refresh_app (a b : list Event) :
  count_refresh (a ++ b) = (count_refresh a + count_refresh b)%nat.
Proof.
  induction a as [|ev a IH]; [reflexivity|].
  destruct ev; cbn; rewrite IH; reflexivity.
Qed.




(** The refresher logs its invocation and at most one token exchange; it
    leaves the response cache and the league memo alone. *)
Lemma refresh_yahoo_token_frame (w : World C) :
  exists posts,
    trace (snd (refresh_yahoo_token net w)) = trace w ++ EvRefresh :: posts
    /\ (posts = [] \/ exists form reply, posts = [EvPost token_url form reply])
    /\ response_cache (snd (refresh_yahoo_token net w)) = response_cache w
    /\ LEAGUES_CACHE (snd (refresh_yahoo_token net w)) = LEAGUES_CACHE w.
Proof.
  unfold refresh_yahoo_token, bind, emit, getenv, try_except, session_post,
    setenv, write_token, lift, ret, raise; cbn.
  repeat (case_innermost; cbn).
  all: rewrite <- ?app_assoc; cbn.
  all: eexists; split; [reflexivity|]; split; [|split; reflexivity].
  all: first [left; reflexivity | right; eauto].
Qed.

(** After a miss the gateway takes a permit, issues the request and handles
    the reply. *)
Lemma yahoo_api_call_body_miss self endpoint retry use_cache (w : World C) :
  cache_miss use_cache endpoint (response_cache w) ->
  yahoo_api_call_body net self endpoint retry use_cache w =
    match first_reply net use_cache endpoint w with
    | Ok r =>
        handle_response net self endpoint retry use_cache r
          (after_request net use_cache endpoint w)
    | Raise e => (Raise e, after_request net use_cache endpoint w)
    end.
Proof.
  intros Hmiss.
  unfold after_request, first_reply.
  unfold yahoo_api_call_body, bind, response_cache_get, rate_limiter_acquire,
    emit, read_token, session_get, lift, ret, cache_miss,
    cache_after_lookup, lookup_events in *.
  destruct use_cache; cbn in *.
  - destruct Hmiss as [|Hmiss]; [discriminate|].
    destruct (cache_get endpoint (response_cache w)) as [v c]; cbn in *.
    subst v; cbn. rewrite <- !app_assoc; cbn.
    destruct (http_get net _ _ _); reflexivity.
  - rewrite <- !app_assoc; cbn.
    destruct (http_get net _ _ _); reflexivity.
Qed.

(** A hit is returned at once. *)
Lemma yahoo_api_call_body_hit self endpoint retry (w : World C) v c :
  cache_get endpoint (response_cache w) = (v, c) ->
  v <> PyNone ->
  yahoo_api_call_body net self endpoint retry true w =
    (Ok v, mkWorld (YAHOO_ACCESS_TOKEN w) (LEAGUES_CACHE w) (environ w) c
             (trace w ++ [EvCacheGet endpoint])).
Proof.
  intros Hget Hv.
  unfold yahoo_api_call_body, bind, response_cache_get, ret; cbn.
  rewrite Hget. destruct v; [contradiction | reflexivity ..].
Qed.

Lemma cache_hit_or_miss use_cache endpoint (c : C) :
  cache_miss use_cache endpoint c
  \/ use_cache = true /\ fst (cache_get endpoint c) <> PyNone.
Proof.
  unfold cache_miss. destruct use_cache; [|auto].
  destruct (fst (cache_get endpoint c)); auto; right; split; congruence.
Qed.

Lemma handle_response_ok self endpoint retry use_cache r data (w : World C) :
  status r = 200 ->
  json r = Ok data ->
  handle_response net self endpoint retry use_cache r w =
    (Ok data,
     mkWorld (YAHOO_ACCESS_TOKEN w) (LEAGUES_CACHE w) (environ w)
       (if use_cache then cache_set endpoint data (response_cache w)
        else response_cache w)
       (trace w ++ if use_cache then [EvCacheSet endpoint data] else [])).
Proof.
  intros Hs Hj. unfold handle_response, bind, lift, response_cache_set, ret.
  rewrite Hs, Hj; cbn. destruct use_cache; cbn; [reflexivity|].
  rewrite app_nil_r. destruct w; reflexivity.
Qed.

Lemma handle_response_bad_json self endpoint retry use_cache r e (w : World C) :
  status r = 200 ->
  json r = Raise e ->
  handle_response net self endpoint retry use_cache r w = (Raise e, w).
Proof.
  intros Hs Hj. unfold handle_response, bind, lift.
  rewrite Hs, Hj; reflexivity.
Qed.

Lemma handle_response_error self endpoint retry use_cache r (w : World C) :
  status r <> 200 ->
  status r <> 401 \/ retry = false ->
  handle_response net self endpoint retry use_cache r w =
    (match text r with
     | Ok body =>
         Raise (mkExc Exception
                  ("Yahoo API error " +:+ pretty (status r) +:+ ": "
                   +:+ str_take 200 body))
     | Raise e => Raise e
     end, w).
Proof.
  intros H200 H401. unfold handle_response, bind, lift, raise.
  destruct (Z.eqb_spec (status r) 200); [contradiction|].
  destruct (Z.eqb_spec (status r) 401), retry; cbn;
    try (destruct (text r); reflexivity); destruct H401; congruence.
Qed.

(** A 401 with retry enabled: one call of the refresher, then either the
    call to [self] or a failure. *)
Lemma handle_response_401 self endpoint use_cache r (w : World C) :
  status r = 401 ->
  handle_response net self endpoint true use_cache r w =
    match refresh_yahoo_token net w with
    | (Ok refresh_result, w') =>
        match py_get1 refresh_result "status" with
        | Ok refresh_status =>
            if eq_str refresh_status "success" then self endpoint use_cache w'
            else
              (match text r with
               | Ok body =>
                   Raise (mkExc Exception
                            ("Yahoo API auth failed and token refresh failed: "
                             +:+ str_take 200 body))
               | Raise e => Raise e
               end, w')
        | Raise e => (Raise e, w')
        end
    | (Raise e, w') => (Raise e, w')
    end.
Proof.
  intros Hs. unfold handle_response, bind, lift, raise.
  rewrite Hs. change (401 =? 200) with false. change (401 =? 401) with true.
  cbv iota; cbn [andb].
  destruct (refresh_yahoo_token net w) as [[rr|e] w']; [|reflexivity].
  destruct (py_get1 rr "status") as [st|]; [|reflexivity].
  destruct (eq_str st "success"); [reflexivity|].
  destruct (text r); reflexivity.
Qed.

(** The call without retry never calls itself. *)
Lemma yahoo_api_call_body_no_retry self1 self2 endpoint use_cache (w : World C) :
  yahoo_api_call_body net self1 endpoint false use_cache w =
  yahoo_api_call_body net self2 endpoint false use_cache w.
Proof.
  destruct (cache_hit_or_miss use_cache endpoint (response_cache w))
    as [Hmiss|[-> Hhit]].
  - rewrite !yahoo_api_call_body_miss by assumption.
    destruct (first_reply net use_cache endpoint w) as [r|]; [|reflexivity].
    destruct (Z.eq_dec (status r) 200) as [H200|H200].
    + destruct (json r) eqn:Hj.
      * erewrite !handle_response_ok by eassumption. reflexivity.
      * erewrite !handle_response_bad_json by eassumption. reflexivity.
    + rewrite !handle_response_error by auto. reflexivity.
  - destruct (cache_get endpoint (response_cache w)) as [v c] eqn:Hget.
    erewrite !yahoo_api_call_body_hit by eassumption. reflexivity.
Qed.

(** [yahoo_api_call] satisfies the recursive equation of the source: its
    body, where the call to itself passes [retry_on_auth_fail=False]. *)
Lemma yahoo_api_call_unfold endpoint retry use_cache (w : World C) :
  yahoo_api_call net endpoint retry use_cache w =
  yahoo_api_call_body net (fun e u => yahoo_api_call net e false u)
    endpoint retry use_cache w.
Proof.
  unfold yahoo_api_call at 1.
  destruct (cache_hit_or_miss use_cache endpoint (response_cache w))
    as [Hmiss|[-> Hhit]].
  - rewrite !yahoo_api_call_body_miss by assumption.
    destruct (first_reply net use_cache endpoint w) as [r|]; [|reflexivity].
    destruct (Z.eq_dec (status r) 200) as [H200|H200].
    + destruct (json r) eqn:Hj.
      * erewrite !handle_response_ok by eassumption. reflexivity.
      * erewrite !handle_response_bad_json by eassumption. reflexivity.
    + destruct (Z.eq_dec (status r) 401) as [H401|H401], retry.
      * rewrite !handle_response_401 by assumption.
        destruct (refresh_yahoo_token net _) as [[rr|] w']; [|reflexivity].
        destruct (py_get1 rr "status") as [st|]; [|reflexivity].
        destruct (eq_str st "success"); [|reflexivity].
        unfold yahoo_api_call, yahoo_api_call_no_retry.
        apply yahoo_api_call_body_no_retry.
      * rewrite !handle_response_error by auto. reflexivity.
      * rewrite !handle_response_error by auto. reflexivity.
      * rewrite !handle_response_error by auto. reflexivity.
  - destruct (cache_get endpoint (response_cache w)) as [v c] eqn:Hget.
    erewrite !yahoo_api_call_body_hit by eassumption. reflexivity.
Qed.

Lemma count_refresh_exchange use_cache endpoint token reply :
  count_refresh (exchange_events use_cache endpoint token reply) = 0%nat.
Proof.
  unfold exchange_events, lookup_events, store_events.
  rewrite !count_refresh_app.
  destruct use_cache, reply as [r|]; cbn; try reflexivity;
    destruct (status r =? 200); try reflexivity;
    destruct (json r); reflexivity.
Qed.

Lemma count_refresh_events refresh :
  refresh_events refresh -> count_refresh refresh = 1%nat.
Proof.
  intros (posts & -> & [->|(form & reply & ->)]); reflexivity.
Qed.

Lemma gateway_run_count endpoint use_cache retry delta :
  gateway_run endpoint use_cache retry delta ->
  (count_refresh delta <= 1)%nat
  /\ (retry = false -> count_refresh delta = 0%nat).
Proof.
  induction 1 as [retry Hc|retry token reply|token r refresh H401 Hr
                 |token r refresh tail H401 Hr Htail [IH1 IH2]].
  - cbn. split; [lia | reflexivity].
  - rewrite count_refresh_exchange. split; [lia | reflexivity].
  - rewrite count_refresh_app, count_refresh_exchange,
      (count_refresh_events _ Hr).
    split; [lia | discriminate].
  - rewrite !count_refresh_app, count_refresh_exchange,
      (count_refresh_events _ Hr), IH2 by reflexivity.
    split; [lia | discriminate].
Qed.

(** The log of the reply handler, for a reply that is not a retried 401. *)
Lemma handle_response_final self endpoint retry use_cache r (w : World C) :
  status r <> 401 \/ retry = false ->
  trace (snd (handle_response net self endpoint retry use_cache r w)) =
    trace w ++ store_events use_cache endpoint (Ok r).
Proof.
  intros H401. unfold store_events.
  destruct (Z.eqb_spec (status r) 200) as [H200|H200].
  - destruct (json r) eqn:Hj.
    + erewrite handle_response_ok by eassumption. reflexivity.
    + erewrite handle_response_bad_json by eassumption.
      cbn. rewrite ?app_nil_r. reflexivity.
  - rewrite handle_response_error by assumption.
    cbn. rewrite ?app_nil_r. reflexivity.
Qed.

Lemma trace_after_request use_cache endpoint (w : World C) :
  trace (after_request net use_cache endpoint w) =
    trace w ++ lookup_events use_cache endpoint
      ++ [EvAcquire;
          EvGet (request_url endpoint) (YAHOO_ACCESS_TOKEN w)
            (first_reply net use_cache endpoint w)].
Proof. reflexivity. Qed.

Lemma yahoo_api_call_no_retry_run endpoint use_cache (w : World C) :
  exists delta,
    trace (snd (yahoo_api_call net endpoint false use_cache w)) =
      trace w ++ delta
    /\ gateway_run endpoint use_cache false delta.
Proof.
  unfold yahoo_api_call.
  destruct (cache_hit_or_miss use_cache endpoint (response_cache w))
    as [Hmiss|[-> Hhit]].
  - rewrite yahoo_api_call_body_miss by assumption.
    exists (exchange_events use_cache endpoint (YAHOO_ACCESS_TOKEN w)
              (first_reply net use_cache endpoint w)).
    split; [|constructor].
    unfold exchange_events.
    destruct (first_reply net use_cache endpoint w) as [r|e] eqn:Hreply.
    + rewrite handle_response_final by auto.
      rewrite trace_after_request, Hreply, <- !app_assoc. reflexivity.
    + cbn [snd]. rewrite trace_after_request, Hreply.
      cbn [store_events]. rewrite ?app_nil_r. reflexivity.
  - destruct (cache_get endpoint (response_cache w)) as [v c] eqn:Hget.
    erewrite yahoo_api_call_body_hit by eassumption.
    eexists; split; [reflexivity | constructor; reflexivity].
Qed.

(** The log of a gateway call has one of the shapes of [gateway_run]. *)
Lemma yahoo_api_call_run endpoint retry use_cache (w : World C) :
  exists delta,
    trace (snd (yahoo_api_call net endpoint retry use_cache w)) =
      trace w ++ delta
    /\ gateway_run endpoint use_cache retry delta.
Proof.
  destruct retry; [|apply yahoo_api_call_no_retry_run].
  rewrite yahoo_api_call_unfold.
  destruct (cache_hit_or_miss use_cache endpoint (response_cache w))
    as [Hmiss|[-> Hhit]].
  - rewrite yahoo_api_call_body_miss by assumption.
    destruct (first_reply net use_cache endpoint w) as [r|e] eqn:Hreply.
    + destruct (Z.eq_dec (status r) 401) as [H401|H401].
      * rewrite handle_response_401 by assumption.
        pose proof (trace_after_request use_cache endpoint w) as Hreq.
        rewrite Hreply in Hreq.
        set (w1 := after_request net use_cache endpoint w) in *.
        destruct (refresh_yahoo_token_frame w1) as (posts & Htr & Hposts & _).
        assert (Hex : exchange_events use_cache endpoint
                        (YAHOO_ACCESS_TOKEN w) (Ok r) =
                      lookup_events use_cache endpoint
                      ++ [EvAcquire;
                          EvGet (request_url endpoint)
                            (YAHOO_ACCESS_TOKEN w) (Ok r)]).
        { unfold exchange_events, store_events.
          rewrite H401. cbn. rewrite ?app_nil_r. reflexivity. }
        assert (Hfail : exists delta,
                   trace (snd (refresh_yahoo_token net w1)) = trace w ++ delta
                   /\ gateway_run endpoint use_cache true delta).
        { exists (exchange_events use_cache endpoint (YAHOO_ACCESS_TOKEN w)
                    (Ok r) ++ EvRefresh :: posts).
          split.
          - rewrite Htr, Hreq, Hex, <- !app_assoc. reflexivity.
          - apply run_refresh_failed; [assumption|].
            exists posts; split; [reflexivity | assumption]. }
        destruct (refresh_yahoo_token net w1) as [[rr|e] w2]; [|exact Hfail].
        destruct (py_get1 rr "status") as [st|e]; [|exact Hfail].
        destruct (eq_str st "success"); [|exact Hfail].
        destruct (yahoo_api_call_no_retry_run endpoint use_cache w2)
          as (tail & Htail & Hrun).
        exists (exchange_events use_cache endpoint (YAHOO_ACCESS_TOKEN w)
                  (Ok r) ++ (EvRefresh :: posts) ++ tail).
        split.
        -- rewrite Htail. cbn [snd] in Htr.
           rewrite Htr, Hreq, Hex, <- !app_assoc. reflexivity.
        -- apply run_refresh_retry; [assumption| |assumption].
           exists posts; split; [reflexivity | assumption].
      * exists (exchange_events use_cache endpoint (YAHOO_ACCESS_TOKEN w)
                  (Ok r)).
        split; [|constructor].
        rewrite handle_response_final by auto.
        rewrite trace_after_request, Hreply.
        unfold exchange_events. rewrite <- !app_assoc. reflexivity.
    + exists (exchange_events use_cache endpoint (YAHOO_ACCESS_TOKEN w)
                (Raise e)).
      split; [|constructor].
      cbn [snd]. rewrite trace_after_request, Hreply.
      unfold exchange_events. cbn [store_events].
      rewrite ?app_nil_r. reflexivity.
  - destruct (cache_get endpoint (response_cache w)) as [v c] eqn:Hget.
    erewrite yahoo_api_call_body_hit by eassumption.
    eexists; split; [reflexivity | constructor; reflexivity].
Qed.

(** The reply handler only adds to the log. *)
Lemma handle_response_extends endpoint retry use_cache r (w : World C) :
  exists rest,
    trace (snd (handle_response net
                  (fun e u => yahoo_api_call net e false u)
                  endpoint retry use_cache r w)) = trace w ++ rest.
Proof.
  destruct (Z.eq_dec (status r) 401) as [H401|H401]; [destruct retry|].
  - rewrite handle_response_401 by assumption.
    destruct (refresh_yahoo_token_frame w) as (posts & Htr & _).
    destruct (refresh_yahoo_token net w) as [[rr|e] w2]; cbn [snd] in *;
      [|eauto].
    destruct (py_get1 rr "status") as [st|e]; [|eauto].
    destruct (eq_str st "success"); [|eauto].
    destruct (yahoo_api_call_no_retry_run endpoint use_cache w2)
      as (tail & Htail & _).
    exists ((EvRefresh :: posts) ++ tail).
    rewrite Htail, Htr, <- app_assoc. reflexivity.
  - rewrite handle_response_final by auto. eauto.
  - rewrite handle_response_final by auto. eauto.
Qed.

(** A hit, for the gateway itself. *)
Lemma yahoo_api_call_hit endpoint retry (w : World C) v c :
  cache_get endpoint (response_cache w) = (v, c) ->
  v <> PyNone ->
  yahoo_api_call net endpoint retry true w =
    (Ok v, mkWorld (YAHOO_ACCESS_TOKEN w) (LEAGUES_CACHE w) (environ w) c
             (trace w ++ [EvCacheGet endpoint])).
Proof.
  intros Hget Hv. unfold yahoo_api_call.
  apply yahoo_api_call_body_hit; assumption.
Qed.

(** After a miss the log starts with the lookup, the permit and the
    request. *)
Lemma yahoo_api_call_miss_prefix endpoint retry use_cache (w : World C) :
  cache_miss use_cache endpoint (response_cache w) ->
  exists rest,
    trace (snd (yahoo_api_call net endpoint retry use_cache w)) =
      trace w ++ lookup_events use_cache endpoint
        ++ [EvAcquire;
            EvGet (request_url endpoint) (YAHOO_ACCESS_TOKEN w)
              (first_reply net use_cache endpoint w)]
        ++ rest.
Proof.
  intros Hmiss. rewrite yahoo_api_call_unfold.
  rewrite yahoo_api_call_body_miss by assumption.
  destruct (first_reply net use_cache endpoint w) as [r|e] eqn:Hreply.
  - destruct (handle_response_extends endpoint retry use_cache r
                (after_request net use_cache endpoint w)) as (rest & Htr).
    exists rest. rewrite Htr, trace_after_request, Hreply, <- !app_assoc.
    reflexivity.
  - exists []. cbn [snd]. rewrite trace_after_request, Hreply. reflexivity.
Qed.

(** ** The claims on the access gateway *)

(** C1.  One logical call to [yahoo_api_call] invokes the credential
    refresher at most once, whatever the upstream replies: the log of the
    call holds at most one [EvRefresh], and none when retry is disabled.
    The call the gateway makes to itself after a successful refresh passes
    [retry_on_auth_fail=False] (the recursive equation), and in such a call
    a 401 raises instead of refreshing: the error that names the status, or
    the exception of reading the body. *)
Theorem yahoo_api_call_refreshes_at_most_once
    endpoint retry use_cache (w : World C) :
  (exists delta,
      trace (snd (yahoo_api_call net endpoint retry use_cache w)) =
        trace w ++ delta
      /\ (count_refresh delta <= 1)%nat
      /\ (retry = false -> count_refresh delta = 0%nat))
  /\ yahoo_api_call net endpoint retry use_cache w =
       yahoo_api_call_body net (fun e u => yahoo_api_call net e false u)
         endpoint retry use_cache w
  /\ (forall r,
        cache_miss use_cache endpoint (response_cache w) ->
        first_reply net use_cache endpoint w = Ok r ->
        status r = 401 ->
        yahoo_api_call net endpoint false use_cache w =
          (match text r with
           | Ok body =>
               Raise (mkExc Exception
                        ("Yahoo API error 401: " +:+ str_take 200 body))
           | Raise e => Raise e
           end,
           after_request net use_cache endpoint w)).
Proof.
  split; [|split].
  - destruct (yahoo_api_call_run endpoint retry use_cache w)
      as (delta & Htr & Hrun).
    exists delta. split; [exact Htr|].
    exact (gateway_run_count _ _ _ _ Hrun).
  - apply yahoo_api_call_unfold.
  - intros r Hmiss Hreply H401.
    unfold yahoo_api_call.
    rewrite yahoo_api_call_body_miss, Hreply by assumption.
    rewrite handle_response_error by (auto; lia).
    rewrite H401. reflexivity.
Qed.


(** C2.  With the cache in use, an entry held for the endpoint is returned
    at once: the log gains the lookup alone, so no permit is taken and no
    request is issued.  On a miss the permit is taken, then the request is
    issued; the payload of the reply is stored right after the request if
    and only if the status is 200 and the cache is in use, and then it is
    the result of the call.  Every log of a call has one of the shapes of
    [gateway_run]: each request is preceded by a permit, each store
    follows a reply with status 200. *)
Theorem yahoo_api_call_cache_then_permit_then_fetch
    endpoint retry use_cache (w : World C) :
  (forall v c,
      use_cache = true ->
      cache_get endpoint (response_cache w) = (v, c) ->
      v <> PyNone ->
      yahoo_api_call net endpoint retry use_cache w =
        (Ok v,
         mkWorld (YAHOO_ACCESS_TOKEN w) (LEAGUES_CACHE w) (environ w) c
           (trace w ++ [EvCacheGet endpoint])))
  /\ (cache_miss use_cache endpoint (response_cache w) ->
      exists rest,
        trace (snd (yahoo_api_call net endpoint retry use_cache w)) =
          trace w ++ lookup_events use_cache endpoint
            ++ [EvAcquire;
                EvGet (request_url endpoint) (YAHOO_ACCESS_TOKEN w)
                  (first_reply net use_cache endpoint w)]
            ++ rest
        /\ forall data,
            (exists rest', rest = EvCacheSet endpoint data :: rest')
            <-> (use_cache = true
                 /\ exists r,
                     first_reply net use_cache endpoint w = Ok r
                     /\ status r = 200 /\ json r = Ok data))
  /\ (forall r data,
        cache_miss use_cache endpoint (response_cache w) ->
        first_reply net use_cache endpoint w = Ok r ->
        status r = 200 ->
        json r = Ok data ->
        fst (yahoo_api_call net endpoint retry use_cache w) = Ok data
        /\ response_cache
             (snd (yahoo_api_call net endpoint retry use_cache w)) =
           if use_cache
           then cache_set endpoint data
                  (cache_after_lookup use_cache endpoint (response_cache w))
           else response_cache w)
  /\ (exists delta,
        trace (snd (yahoo_api_call net endpoint retry use_cache w)) =
          trace w ++ delta
        /\ gateway_run endpoint use_cache retry delta).
Proof.
  split; [|split; [|split]].
  - intros v c -> Hget Hv. unfold yahoo_api_call.
    apply yahoo_api_call_body_hit; assumption.
  - intros Hmiss. rewrite yahoo_api_call_unfold.
    rewrite yahoo_api_call_body_miss by assumption.
    destruct (first_reply net use_cache endpoint w) as [r|e] eqn:Hreply.
    + destruct (Z.eq_dec (status r) 401) as [H401|H401].
      * destruct retry.
        -- rewrite handle_response_401 by assumption.
           set (w1 := after_request net use_cache endpoint w).
           destruct (refresh_yahoo_token_frame w1)
             as (posts & Htr & _ & _ & _).
           assert (Hstop : exists rest,
                      trace (snd (refresh_yahoo_token net w1)) =
                        trace w ++ lookup_events use_cache endpoint
                          ++ [EvAcquire;
                              EvGet (request_url endpoint)
                                (YAHOO_ACCESS_TOKEN w) (Ok r)] ++ rest
                      /\ forall data,
                          (exists rest', rest = EvCacheSet endpoint data :: rest')
                          <-> (use_cache = true
                               /\ exists r0,
                                   Ok r = Ok r0
                                   /\ status r0 = 200 /\ json r0 = Ok data)).
           { exists (EvRefresh :: posts). split.
             - rewrite Htr. subst w1.
               rewrite trace_after_request, Hreply, <- !app_assoc.
               reflexivity.
             - intros data. split.
               + intros (rest' & Hrest). discriminate.
               + intros (_ & r0 & [= <-] & H200 & _). lia. }
           destruct (refresh_yahoo_token net w1) as [[rr|e] w2];
             [|exact Hstop].
           destruct (py_get1 rr "status") as [st|e]; [|exact Hstop].
           destruct (eq_str st "success"); [|exact Hstop].
           destruct (yahoo_api_call_no_retry_run endpoint use_cache w2)
             as (tail & Htail & _).
           exists ((EvRefresh :: posts) ++ tail). split.
           ++ rewrite Htail. cbn [snd] in Htr. rewrite Htr. subst w1.
              rewrite trace_after_request, Hreply, <- !app_assoc.
              reflexivity.
           ++ intros data. split.
              ** intros (rest' & Hrest). discriminate.
              ** intros (_ & r0 & [= <-] & H200 & _). lia.
        -- exists []. split.
           ++ rewrite handle_response_error by (auto; lia).
              cbn [snd]. rewrite trace_after_request, Hreply. reflexivity.
           ++ intros data. split.
              ** intros (rest' & Hrest). discriminate.
              ** intros (_ & r0 & [= <-] & H200 & _). lia.
      * exists (store_events use_cache endpoint (Ok r)). split.
        -- rewrite handle_response_final by auto.
           rewrite trace_after_request, Hreply, <- !app_assoc. reflexivity.
        -- intros data. unfold store_events. split.
           ++ intros (rest' & Hrest).
              destruct (Z.eqb_spec (status r) 200) as [H200|]; [|discriminate].
              destruct (json r) as [d|] eqn:Hj; [|discriminate].
              destruct use_cache; [|discriminate].
              injection Hrest as -> _.
              split; [reflexivity | exists r; auto].
           ++ intros (-> & r0 & [= <-] & H200 & Hj).
              rewrite H200, Hj. cbn. eauto.
    + exists []. split.
      * cbn [snd]. rewrite trace_after_request, Hreply. reflexivity.
      * intros data. split.
        -- intros (rest' & Hrest). discriminate.
        -- intros (_ & r0 & [=] & _).
  - intros r data Hmiss Hreply H200 Hj. unfold yahoo_api_call.
    rewrite yahoo_api_call_body_miss, Hreply by assumption.
    erewrite handle_response_ok by eassumption.
    cbn. destruct use_cache; split; reflexivity.
  - apply yahoo_api_call_run.
Qed.

(** ** The claims on the credential refresher *)

(** Every outcome of the refresher: a dict that reports success, built from
    the reply of the token endpoint, or a dict that reports an error. *)
Lemma refresh_yahoo_token_outcome (w : World C) :
  exists result w',
    refresh_yahoo_token net w = (Ok (PyDict result), w')
    /\ ((exists id secret rt r token_data expires_in hours,
           credentials w id secret rt
           /\ http_post net (trace w ++ [EvRefresh]) token_url
                (refresh_form id secret rt) = Ok r
           /\ status r = 200
           /\ json r = Ok token_data
           /\ py_get token_data "expires_in" (PyInt 3600) = Ok expires_in
           /\ res_bind (py_truediv expires_in 3600) py_round1 = Ok hours
           /\ result = [("status", PyStr "success");
                        ("message", PyStr "Token refreshed successfully");
                        ("expires_in", expires_in);
                        ("expires_in_hours", hours)])
        \/ (dict_lookup "status" result = Some (PyStr "error")
            /\ exists msg, dict_lookup "message" result = Some (PyStr msg))).
Proof.
  assert (Herr : forall (d : Dict) (w0 : World C),
             dict_lookup "status" d = Some (PyStr "error") ->
             (exists msg, dict_lookup "message" d = Some (PyStr msg)) ->
             exists result w',
               (Ok (PyDict d), w0) = (Ok (PyDict result), w')
               /\ ((exists id secret rt r token_data expires_in hours,
                      credentials w id secret rt
                      /\ http_post net (trace w ++ [EvRefresh]) token_url
                           (refresh_form id secret rt) = Ok r
                      /\ status r = 200
                      /\ json r = Ok token_data
                      /\ py_get token_data "expires_in" (PyInt 3600)
                         = Ok expires_in
                      /\ res_bind (py_truediv expires_in 3600) py_round1
                         = Ok hours
                      /\ result = [("status", PyStr "success");
                                   ("message",
                                    PyStr "Token refreshed successfully");
                                   ("expires_in", expires_in);
                                   ("expires_in_hours", hours)])
                   \/ (dict_lookup "status" result = Some (PyStr "error")
                       /\ exists msg,
                           dict_lookup "message" result = Some (PyStr msg)))).
  { intros d w0 Hs Hm. exists d, w0. split; [reflexivity|]. right. auto. }
  unfold refresh_yahoo_token, bind, emit, getenv, try_except, session_post,
    setenv, write_token, lift, ret, raise, error_missing_credentials; cbn.
  destruct (environ w !! "YAHOO_CONSUMER_KEY") as [id|] eqn:Hid;
    destruct (environ w !! "YAHOO_CONSUMER_SECRET") as [secret|] eqn:Hsecret;
    destruct (environ w !! "YAHOO_REFRESH_TOKEN") as [rt|] eqn:Hrt;
    cbn; try (apply Herr; [reflexivity | eexists; reflexivity]).
  destruct (String.eqb id "") eqn:Nid; cbn;
    [apply Herr; [reflexivity | eexists; reflexivity]|].
  destruct (String.eqb secret "") eqn:Nsecret; cbn;
    [apply Herr; [reflexivity | eexists; reflexivity]|].
  destruct (String.eqb rt "") eqn:Nrt; cbn;
    [apply Herr; [reflexivity | eexists; reflexivity]|].
  apply String.eqb_neq in Nid, Nsecret, Nrt.
  destruct (http_post net _ _ _) as [r|e] eqn:Hpost; cbn;
    [|apply Herr; [reflexivity | eexists; reflexivity]].
  destruct (Z.eqb_spec (status r) 200) as [H200|H200]; cbn.
  2: { destruct (text r); cbn;
         apply Herr; first [reflexivity | eexists; reflexivity]. }
  destruct (json r) as [token_data|e] eqn:Hj; cbn;
    [|apply Herr; [reflexivity | eexists; reflexivity]].
  destruct (py_get1 token_data "access_token") as [a|e]; cbn;
    [|apply Herr; [reflexivity | eexists; reflexivity]].
  destruct (py_get token_data "refresh_token" (PyStr rt)) as [a0|e]; cbn;
    [|apply Herr; [reflexivity | eexists; reflexivity]].
  destruct (py_get token_data "expires_in" (PyInt 3600)) as [a1|e] eqn:Hexp;
    cbn; [|apply Herr; [reflexivity | eexists; reflexivity]].
  destruct a as [| | | |tok| | |]; cbn;
    try (apply Herr; [reflexivity | eexists; reflexivity]).
  destruct (has_nul tok); cbn;
    [apply Herr; [reflexivity | eexists; reflexivity]|].
  assert (Hok : forall w0 : World C,
             exists result w',
               match res_bind (py_truediv a1 3600) py_round1 with
               | Ok hours =>
                   (Ok (PyDict [("status", PyStr "success");
                                ("message",
                                 PyStr "Token refreshed successfully");
                                ("expires_in", a1);
                                ("expires_in_hours", hours)]), w0)
               | Raise e =>
                   (Ok (PyDict [("status", PyStr "error");
                                ("message",
                                 PyStr ("Error refreshing token: "
                                        +:+ exc_str e))]), w0)
               end = (Ok (PyDict result), w')
               /\ ((exists id secret rt r token_data expires_in hours,
                      credentials w id secret rt
                      /\ http_post net (trace w ++ [EvRefresh]) token_url
                           (refresh_form id secret rt) = Ok r
                      /\ status r = 200
                      /\ json r = Ok token_data
                      /\ py_get token_data "expires_in" (PyInt 3600)
                         = Ok expires_in
                      /\ res_bind (py_truediv expires_in 3600) py_round1
                         = Ok hours
                      /\ result = [("status", PyStr "success");
                                   ("message",
                                    PyStr "Token refreshed successfully");
                                   ("expires_in", expires_in);
                                   ("expires_in_hours", hours)])
                   \/ (dict_lookup "status" result = Some (PyStr "error")
                       /\ exists msg,
                           dict_lookup "message" result = Some (PyStr msg)))).
  { intros w0.
    destruct (res_bind (py_truediv a1 3600) py_round1) as [hours|e] eqn:Hdiv.
    - eexists. eexists. split; [reflexivity|]. left.
      exists id, secret, rt, r, token_data, a1, hours.
      repeat split; assumption.
    - apply Herr; [reflexivity | eexists; reflexivity]. }
  destruct (negb (eq_str a0 rt)); cbn.
  - destruct a0 as [| | | |new_rt| | |]; cbn;
      try (apply Herr; [reflexivity | eexists; reflexivity]).
    destruct (has_nul new_rt); cbn;
      [apply Herr; [reflexivity | eexists; reflexivity]|].
    destruct (Hok (mkWorld (PyStr tok) (LEAGUES_CACHE w)
                     (<["YAHOO_REFRESH_TOKEN" := new_rt]>
                        (<["YAHOO_ACCESS_TOKEN" := tok]> (environ w)))
                     (response_cache w)
                     ((trace w ++ [EvRefresh])
                      ++ [EvPost token_url
                            [("client_id", id); ("client_secret", secret);
                             ("refresh_token", rt);
                             ("grant_type", "refresh_token")] (Ok r)])))
      as (result & w' & Hrun & Hshape).
    destruct (res_bind (py_truediv a1 3600) py_round1); cbn;
      exists result, w'; split; assumption.
  - destruct (Hok (mkWorld (PyStr tok) (LEAGUES_CACHE w)
                     (<["YAHOO_ACCESS_TOKEN" := tok]> (environ w))
                     (response_cache w)
                     ((trace w ++ [EvRefresh])
                      ++ [EvPost token_url
                            [("client_id", id); ("client_secret", secret);
                             ("refresh_token", rt);
                             ("grant_type", "refresh_token")] (Ok r)])))
      as (result & w' & Hrun & Hshape).
    destruct (res_bind (py_truediv a1 3600) py_round1); cbn;
      exists result, w'; split; assumption.
Qed.

(** C4.  [refresh_yahoo_token] never raises: from every state and for every
    behaviour of the token endpoint it returns a dict whose [status] is
    ["success"] or ["error"].  A success dict carries the new expiry: its
    [expires_in] is the one of the token reply (3600 when the reply has
    none), and [expires_in_hours] is that number of seconds in hours, to one
    decimal.  An error dict carries a [message].  It returns an error dict
    when a credential is missing from the environment (and then posts
    nothing), when the token endpoint answers with a status other than 200,
    and when the exchange raises; and it does report success for a reply
    that issues a token with a numeric expiry. *)
Theorem refresh_yahoo_token_never_raises (w : World C) :
  (exists result w',
      refresh_yahoo_token net w = (Ok (PyDict result), w')
      /\ ((exists id secret rt r token_data expires_in hours,
             credentials w id secret rt
             /\ http_post net (trace w ++ [EvRefresh]) token_url
                  (refresh_form id secret rt) = Ok r
             /\ status r = 200
             /\ json r = Ok token_data
             /\ py_get token_data "expires_in" (PyInt 3600) = Ok expires_in
             /\ res_bind (py_truediv expires_in 3600) py_round1 = Ok hours
             /\ result = [("status", PyStr "success");
                          ("message", PyStr "Token refreshed successfully");
                          ("expires_in", expires_in);
                          ("expires_in_hours", hours)])
          \/ (dict_lookup "status" result = Some (PyStr "error")
              /\ exists msg, dict_lookup "message" result = Some (PyStr msg))))
  /\ (missing_credentials w ->
      refresh_yahoo_token net w =
        (Ok error_missing_credentials,
         mkWorld (YAHOO_ACCESS_TOKEN w) (LEAGUES_CACHE w) (environ w)
           (response_cache w) (trace w ++ [EvRefresh])))
  /\ (forall id secret rt r,
        credentials w id secret rt ->
        http_post net (trace w ++ [EvRefresh]) token_url
          (refresh_form id secret rt) = Ok r ->
        status r <> 200 ->
        fst (refresh_yahoo_token net w) =
          match text r with
          | Ok error_text =>
              Ok (PyDict [("status", PyStr "error");
                          ("message",
                           PyStr ("Failed to refresh token: "
                                  +:+ pretty (status r)));
                          ("details", PyStr (str_take 200 error_text))])
          | Raise e =>
              Ok (PyDict [("status", PyStr "error");
                          ("message",
                           PyStr ("Error refreshing token: " +:+ exc_str e))])
          end)
  /\ (forall id secret rt e,
        credentials w id secret rt ->
        http_post net (trace w ++ [EvRefresh]) token_url
          (refresh_form id secret rt) = Raise e ->
        fst (refresh_yahoo_token net w) =
          Ok (PyDict [("status", PyStr "error");
                      ("message",
                       PyStr ("Error refreshing token: " +:+ exc_str e))]))
  /\ (forall id secret rt r token_data tok new_refresh expires_in hours,
        credentials w id secret rt ->
        http_post net (trace w ++ [EvRefresh]) token_url
          (refresh_form id secret rt) = Ok r ->
        status r = 200 ->
        json r = Ok token_data ->
        py_get1 token_data "access_token" = Ok (PyStr tok) ->
        has_nul tok = false ->
        py_get token_data "refresh_token" (PyStr rt) = Ok new_refresh ->
        eq_str new_refresh rt = true
        \/ rotated_token new_refresh rt <> None ->
        py_get token_data "expires_in" (PyInt 3600) = Ok expires_in ->
        res_bind (py_truediv expires_in 3600) py_round1 = Ok hours ->
        fst (refresh_yahoo_token net w) =
          Ok (PyDict [("status", PyStr "success");
                      ("message", PyStr "Token refreshed successfully");
                      ("expires_in", expires_in);
                      ("expires_in_hours", hours)])).
Proof.
  split; [|split; [|split; [|split]]].
  - apply refresh_yahoo_token_outcome.
  - intros (k & Hk & Hnone).
    unfold refresh_yahoo_token, bind, emit, getenv, ret; cbn.
    destruct Hk as [-> | [-> | ->]], Hnone as [Hn | Hn]; rewrite Hn; cbn;
      repeat (case_innermost; cbn); try reflexivity;
      rewrite ?andb_false_r in *; cbn in *; congruence.
  - intros id secret rt r (Hid & Hsecret & Hrt & Nid & Nsecret & Nrt) Hpost H200.
    unfold refresh_form in Hpost.
    unfold refresh_yahoo_token, bind, emit, getenv, try_except, session_post,
      lift, ret; cbn.
    rewrite Hid, Hsecret, Hrt; cbn.
    apply String.eqb_neq in Nid, Nsecret, Nrt.
    rewrite Nid, Nsecret, Nrt; cbn. rewrite Hpost; cbn.
    destruct (Z.eqb_spec (status r) 200); [contradiction|].
    destruct (text r); reflexivity.
  - intros id secret rt e (Hid & Hsecret & Hrt & Nid & Nsecret & Nrt) Hpost.
    unfold refresh_form in Hpost.
    unfold refresh_yahoo_token, bind, emit, getenv, try_except, session_post,
      lift, ret; cbn.
    rewrite Hid, Hsecret, Hrt; cbn.
    apply String.eqb_neq in Nid, Nsecret, Nrt.
    rewrite Nid, Nsecret, Nrt; cbn. rewrite Hpost; cbn. reflexivity.
  - intros id secret rt r token_data tok new_refresh expires_in hours
      (Hid & Hsecret & Hrt & Nid & Nsecret & Nrt)
      Hpost H200 Hj Htok Hnul Hnew Hrot Hexp Hdiv.
    unfold refresh_form in Hpost.
    unfold refresh_yahoo_token, bind, emit, getenv, try_except, session_post,
      setenv, write_token, lift, ret, raise; cbn.
    rewrite Hid, Hsecret, Hrt; cbn.
    apply String.eqb_neq in Nid, Nsecret, Nrt.
    rewrite Nid, Nsecret, Nrt; cbn. rewrite Hpost; cbn.
    rewrite H200; cbn. rewrite Hj; cbn. rewrite Htok, Hnew, Hexp; cbn.
    rewrite Hnul; cbn.
    destruct Hrot as [Heq | Hrot].
    + rewrite Heq; cbn. rewrite Hdiv; cbn. reflexivity.
    + unfold rotated_token in Hrot.
      destruct new_refresh as [|b|n|f|new_rt|l|d'|o]; try congruence.
      cbn. destruct (String.eqb new_rt rt); cbn in *; [congruence|].
      destruct (has_nul new_rt); cbn in *; [congruence|].
      rewrite Hdiv; cbn. reflexivity.
Qed.

(** C6.  When the token endpoint answers 200 with a JSON object that
    carries a string [access_token], the refresher sets the global
    [YAHOO_ACCESS_TOKEN] and the environment variable of that name to the
    new token.  The environment variable [YAHOO_REFRESH_TOKEN] is written
    if and only if the object carries a rotated [refresh_token], different
    from the one sent ([rotated_token]); otherwise the environment changes
    in the access token alone and the refresh credential stays as it was.
    ([new_refresh] is the [refresh_token] of the object, or the one sent
    when the object has none.) *)
Theorem refresh_yahoo_token_updates_credentials
    (w : World C) id secret rt r token_data tok new_refresh :
  credentials w id secret rt ->
  http_post net (trace w ++ [EvRefresh]) token_url
    (refresh_form id secret rt) = Ok r ->
  status r = 200 ->
  json r = Ok token_data ->
  py_get1 token_data "access_token" = Ok (PyStr tok) ->
  py_get token_data "refresh_token" (PyStr rt) = Ok new_refresh ->
  has_nul tok = false ->
  let w' := snd (refresh_yahoo_token net w) in
  YAHOO_ACCESS_TOKEN w' = PyStr tok
  /\ environ w' !! "YAHOO_ACCESS_TOKEN" = Some tok
  /\ environ w' =
       match rotated_token new_refresh rt with
       | Some new_rt =>
           <["YAHOO_REFRESH_TOKEN" := new_rt]>
             (<["YAHOO_ACCESS_TOKEN" := tok]> (environ w))
       | None => <["YAHOO_ACCESS_TOKEN" := tok]> (environ w)
       end
  /\ (rotated_token new_refresh rt = None ->
      environ w' !! "YAHOO_REFRESH_TOKEN" =
        environ w !! "YAHOO_REFRESH_TOKEN").
Proof.
  intros (Hid & Hsecret & Hrt & Nid & Nsecret & Nrt)
    Hpost H200 Hj Htok Hnew Hnul.
  unfold refresh_form in Hpost.
  assert (Hrun :
            let w' := snd (refresh_yahoo_token net w) in
            YAHOO_ACCESS_TOKEN w' = PyStr tok
            /\ environ w' =
                 match rotated_token new_refresh rt with
                 | Some new_rt =>
                     <["YAHOO_REFRESH_TOKEN" := new_rt]>
                       (<["YAHOO_ACCESS_TOKEN" := tok]> (environ w))
                 | None => <["YAHOO_ACCESS_TOKEN" := tok]> (environ w)
                 end).
  { unfold refresh_yahoo_token, bind, emit, getenv, try_except, session_post,
      setenv, write_token, lift, ret, raise, rotated_token; cbn.
    rewrite Hid, Hsecret, Hrt; cbn.
    apply String.eqb_neq in Nid, Nsecret, Nrt.
    rewrite Nid, Nsecret, Nrt; cbn. rewrite Hpost; cbn.
    rewrite H200; cbn. rewrite Hj; cbn. rewrite Htok, Hnew; cbn.
    destruct token_data as [| | | | | |d|]; try discriminate Htok.
    cbn. rewrite Hnul; cbn.
    destruct new_refresh as [|b|n|f|new_rt|l|d'|o]; cbn;
      try (split; reflexivity).
    destruct (String.eqb new_rt rt); cbn.
    - destruct (res_bind (py_truediv _ 3600) py_round1); cbn;
        split; reflexivity.
    - destruct (has_nul new_rt); cbn; [split; reflexivity|].
      destruct (res_bind (py_truediv _ 3600) py_round1); cbn;
        split; reflexivity. }
  cbv zeta in *. destruct Hrun as [Htoken Henv].
  split; [exact Htoken|]. split; [|split; [exact Henv|]].
  - rewrite Henv. destruct (rotated_token new_refresh rt).
    + rewrite lookup_insert_ne by discriminate. apply lookup_insert_eq.
    + apply lookup_insert_eq.
  - intros Hnone. rewrite Henv, Hnone.
    apply lookup_insert_ne. discriminate.
Qed.

End GatewayProperties.

(** ** The gateway and the refresher on sample processes *)


(** Upstream answers 401 to every request and the token endpoint issues a
    token: the gateway refreshes once, retries, and raises on the second
    401. *)
Lemma yahoo_api_call_refreshes_at_most_once_witness :
  yahoo_api_call (constant_network (Ok unauthorized) (Ok token_issued))
    standings_endpoint false true sample_world
  = (Raise (mkExc Exception "Yahoo API error 401: token_expired"),
     after_request (constant_network (Ok unauthorized) (Ok token_issued))
       true standings_endpoint sample_world)
  /\ count_refresh
       (trace (snd (yahoo_api_call
                      (constant_network (Ok unauthorized) (Ok token_issued))
                      standings_endpoint true true sample_world))) = 1%nat.
Proof.
  split.
  - destruct (yahoo_api_call_refreshes_at_most_once
                (constant_network (Ok unauthorized) (Ok token_issued))
                standings_endpoint false true sample_world)
      as (_ & _ & Hraise).
    apply (Hraise unauthorized).
    + right. reflexivity.
    + reflexivity.
    + reflexivity.
  - vm_compute. reflexivity.
Defined.

(** Upstream answers 200 with a payload: it is returned and stored. *)
Lemma yahoo_api_call_cache_then_permit_then_fetch_witness :
  fst (yahoo_api_call (constant_network (Ok standings_ok) (Ok token_issued))
         standings_endpoint true true sample_world) = Ok standings_payload
  /\ response_cache
       (snd (yahoo_api_call (constant_network (Ok standings_ok) (Ok token_issued))
               standings_endpoint true true sample_world))
     = <[standings_endpoint := standings_payload]> ∅.
Proof.
  destruct (yahoo_api_call_cache_then_permit_then_fetch
              (constant_network (Ok standings_ok) (Ok token_issued))
              standings_endpoint true true sample_world)
    as (_ & _ & Hstore & _).
  apply (Hstore standings_ok standings_payload).
  - right. reflexivity.
  - reflexivity.
  - reflexivity.
  - reflexivity.
Defined.

(** The token endpoint rotates the refresh token: both credentials change. *)
Lemma refresh_yahoo_token_updates_credentials_witness :
  let w' :=
    snd (refresh_yahoo_token
           (constant_network (Ok unauthorized) (Ok token_issued)) sample_world) in
  YAHOO_ACCESS_TOKEN w' = PyStr "access-1"
  /\ environ w' !! "YAHOO_ACCESS_TOKEN" = Some "access-1"
  /\ environ w' !! "YAHOO_REFRESH_TOKEN" = Some "refresh-2".
Proof.
  destruct (refresh_yahoo_token_updates_credentials
              (constant_network (Ok unauthorized) (Ok token_issued))
              sample_world "consumer-key" "consumer-secret" "refresh-1"
              token_issued
              (PyDict [("access_token", PyStr "access-1");
                       ("refresh_token", PyStr "refresh-2");
                       ("expires_in", PyInt 3600)])
              "access-1" (PyStr "refresh-2"))
    as (Htok & Haccess & Henv & _).
  - repeat split; try reflexivity; discriminate.
  - reflexivity.
  - reflexivity.
  - reflexivity.
  - reflexivity.
  - reflexivity.
  - reflexivity.
  - cbv zeta. split; [exact Htok|]. split; [exact Haccess|].
    rewrite Henv. apply lookup_insert_eq.
Defined.

(** A credential is missing: the refresher answers with an error dict and
    posts nothing. *)
Lemma refresh_yahoo_token_never_raises_witness :
  refresh_yahoo_token (constant_network (Ok unauthorized) (Ok token_issued))
    (mkWorld (PyStr "access-0") [] (∅ : gmap string string)
       (∅ : gmap string PyVal) [])
  = (Ok error_missing_credentials,
     mkWorld (PyStr "access-0") [] ∅ ∅ [EvRefresh]).
Proof.
  destruct (refresh_yahoo_token_never_raises
              (constant_network (Ok unauthorized) (Ok token_issued))
              (mkWorld (PyStr "access-0") [] (∅ : gmap string string)
                 (∅ : gmap string PyVal) []))
    as (_ & Hmissing & _).
  apply Hmissing.
  exists "YAHOO_CONSUMER_KEY". split; [left; reflexivity | left; reflexivity].
Defined.

(** ** League discovery *)

Section DiscoveryProperties.
Context {C : Type} `{!ResponseCache C}.
Variable net : Network.
Local Open Scope list_scope.

(** With an empty memo, [discover_leagues] is a gateway call followed by the
    parse, whose result it writes to [LEAGUES_CACHE]. *)
Lemma discover_leagues_fetch (w : World C) :
  LEAGUES_CACHE w = [] ->
  discover_leagues net w =
    match yahoo_api_call net leagues_endpoint true true w with
    | (Ok data, w1) =>
        let leagues :=
          snd (try_except (parse_leagues data) (fun _ => ret tt) []) in
        (Ok leagues,
         mkWorld (YAHOO_ACCESS_TOKEN w1) leagues (environ w1)
           (response_cache w1) (trace w1))
    | (Raise e, w1) => (Raise e, w1)
    end.
Proof.
  intros Hempty.
  unfold discover_leagues, bind at 1, read_leagues. rewrite Hempty.
  unfold bind, write_leagues, ret.
  destruct (yahoo_api_call net leagues_endpoint true true w) as [[data|e] w1];
    reflexivity.
Qed.

Lemma discover_leagues_trace (w : World C) :
  LEAGUES_CACHE w = [] ->
  trace (snd (discover_leagues net w)) =
  trace (snd (yahoo_api_call net leagues_endpoint true true w)).
Proof.
  intros Hempty. rewrite discover_leagues_fetch by assumption.
  destruct (yahoo_api_call net leagues_endpoint true true w) as [[data|e] w1];
    reflexivity.
Qed.

(** C10, as amended.  [discover_leagues] memoizes only non-empty results.
    With a non-empty [LEAGUES_CACHE] a call returns that mapping and does
    nothing else: the state, and with it the log, is unchanged.  A call
    that returns writes its result to [LEAGUES_CACHE], so a non-empty result
    is what every later call returns.  With an empty [LEAGUES_CACHE] (no
    call yet, or an empty result) the call goes through the access gateway
    again: it looks the endpoint up in the response cache, and on a miss
    takes a permit and issues the upstream request, while on a hit it issues
    none. *)
Theorem discover_leagues_memoizes_nonempty (w : World C) :
  (LEAGUES_CACHE w <> [] ->
   discover_leagues net w = (Ok (LEAGUES_CACHE w), w))
  /\ (forall leagues w',
        discover_leagues net w = (Ok leagues, w') ->
        LEAGUES_CACHE w' = leagues
        /\ (leagues <> [] -> discover_leagues net w' = (Ok leagues, w')))
  /\ (LEAGUES_CACHE w = [] ->
      (exists delta,
          trace (snd (discover_leagues net w)) =
            trace w ++ EvCacheGet leagues_endpoint :: delta)
      /\ (cache_miss true leagues_endpoint (response_cache w) ->
          exists delta,
            trace (snd (discover_leagues net w)) =
              trace w
              ++ [EvCacheGet leagues_endpoint; EvAcquire;
                  EvGet (request_url leagues_endpoint) (YAHOO_ACCESS_TOKEN w)
                    (first_reply net true leagues_endpoint w)]
              ++ delta)
      /\ (forall v c,
            cache_get leagues_endpoint (response_cache w) = (v, c) ->
            v <> PyNone ->
            trace (snd (discover_leagues net w)) =
              trace w ++ [EvCacheGet leagues_endpoint])).
Proof.
  assert (Hmemo : forall w0 : World C,
             LEAGUES_CACHE w0 <> [] ->
             discover_leagues net w0 = (Ok (LEAGUES_CACHE w0), w0)).
  { intros w0 Hne. unfold discover_leagues, bind, read_leagues, ret.
    destruct (LEAGUES_CACHE w0); [contradiction | reflexivity]. }
  split; [apply Hmemo|]. split.
  - intros leagues w' Hrun.
    assert (Hwritten : LEAGUES_CACHE w' = leagues).
    { destruct (LEAGUES_CACHE w) as [|kv rest] eqn:Hcache.
      - rewrite discover_leagues_fetch in Hrun by assumption.
        destruct (yahoo_api_call net leagues_endpoint true true w)
          as [[data|e] w1]; [|discriminate].
        cbv zeta in Hrun. injection Hrun as <- <-. reflexivity.
      - rewrite Hmemo in Hrun by congruence. congruence. }
    split; [assumption|].
    intros Hne. subst leagues. apply Hmemo. assumption.
  - intros Hempty. rewrite discover_leagues_trace by assumption.
    pose proof (yahoo_api_call_hit net leagues_endpoint true w) as Hhit.
    pose proof (yahoo_api_call_miss_prefix net leagues_endpoint true true w)
      as Hmiss.
    split; [|split].
    + destruct (cache_hit_or_miss true leagues_endpoint (response_cache w))
        as [Hm|[_ Hh]].
      * destruct (Hmiss Hm) as (rest & Htr).
        rewrite Htr. cbn. eauto.
      * destruct (cache_get leagues_endpoint (response_cache w))
          as [v c] eqn:Hget.
        rewrite (Hhit v c) by auto. cbn. eauto.
    + intros Hm. destruct (Hmiss Hm) as (rest & Htr).
      exists rest. rewrite Htr. reflexivity.
    + intros v c Hget Hv. rewrite (Hhit v c) by auto. reflexivity.
Qed.

End DiscoveryProperties.

(** The league of the sample payload is discovered and, from then on,
    returned without another effect. *)
Lemma discover_leagues_memoizes_nonempty_witness :
  let net := constant_network (Ok leagues_ok) (Ok token_issued) in
  let w' := snd (discover_leagues net sample_world) in
  exists league,
    discover_leagues net sample_world =
      (Ok [(PyStr "461.l.61410", league)], w')
    /\ discover_leagues net w' = (Ok [(PyStr "461.l.61410", league)], w').
Proof.
  cbv zeta. eexists. split; [vm_compute; reflexivity|].
  destruct (discover_leagues_memoizes_nonempty
              (constant_network (Ok leagues_ok) (Ok token_issued))
              sample_world) as (_ & Hwritten & _).
  refine (proj2 (Hwritten _ _ _) _); [vm_compute; reflexivity | discriminate].
Defined.

(** C10, as stated, fails.  For a user without leagues the first call
    returns the empty mapping and leaves [LEAGUES_CACHE] empty, but the
    gateway has stored the payload in the response cache; the next call is
    answered from there and issues no upstream request: its log is the cache
    lookup alone. *)
Lemma discover_leagues_empty_result_not_refetched :
  let net := constant_network (Ok no_leagues_ok) (Ok token_issued) in
  let w1 := snd (discover_leagues net sample_world) in
  fst (discover_leagues net sample_world) = Ok []
  /\ LEAGUES_CACHE w1 = []
  /\ fst (discover_leagues net w1) = Ok []
  /\ trace (snd (discover_leagues net w1)) =
       trace w1 ++ [EvCacheGet leagues_endpoint].
Proof.
  cbv zeta. repeat split; vm_compute; reflexivity.
Qed.

(** ** Tools and retrieval helpers *)

Section RetrievalProperties.
Context {C : Type} `{!ResponseCache C}.
Variable net : Network.
Variable repr : PyVal -> string.
Variable float_of_str : string -> option float.
Variable int_of_str : string -> Res Z.

Lemma bind_ok_inv {S A B : Type} (m : ST S A) (k : A -> ST S B) s b s' :
  bind m k s = (Ok b, s') ->
  exists a s1, m s = (Ok a, s1) /\ k a s1 = (Ok b, s').
Proof.
  unfold bind. destruct (m s) as [[a|e] s1]; [eauto | discriminate].
Qed.

(** A [try] whose handler returns a value never raises. *)
Lemma try_except_returns {S A : Type} (body : ST S A) (fallback : A)
    (P : A -> Prop) s :
  (forall a s', body s = (Ok a, s') -> P a) ->
  P fallback ->
  exists a s',
    try_except body (fun _ => ret fallback) s = (Ok a, s') /\ P a.
Proof.
  intros Hbody Hfallback. unfold try_except, ret.
  destruct (body s) as [[a|e] s'] eqn:Hrun; eauto.
Qed.

Lemma first_return_some {A R : Type} (xs : list A) (body : A -> Res (option R)) y :
  first_return xs body = Ok (Some y) ->
  exists x, In x xs /\ body x = Ok (Some y).
Proof.
  induction xs as [|x xs IH]; cbn; [discriminate|].
  destruct (body x) as [[r|]|e] eqn:Hx.
  - intros [= ->]. exists x. auto.
  - intros Hrest. destruct (IH Hrest) as (x' & Hin & Hx'). eauto.
  - discriminate.
Qed.

(** A team is reported only with a team key that counts as true. *)
Lemma users_team_at_some user_guid teams key v :
  users_team_at user_guid teams key = Ok (Some v) ->
  exists d, v = PyDict d /\ truthy (local d "team_key") = true.
Proof.
  unfold users_team_at, res_bind. intros Hrun.
  repeat case_match; simplify_eq.
  eexists. split; [reflexivity|].
  match goal with
  | H : _ && _ = true |- _ => apply andb_true_iff in H; destruct H as [_ H]
  end.
  assumption.
Qed.

Lemma find_user_team_result user_guid data v :
  find_user_team user_guid data = Ok v ->
  v = PyNone \/ exists d, v = PyDict d /\ truthy (local d "team_key") = true.
Proof.
  unfold find_user_team, res_bind. intros Hrun.
  repeat case_match; simplify_eq; auto.
  match goal with
  | H : first_return _ _ = Ok ?found |- _ => destruct found as [v|]
  end; [|auto].
  right.
  match goal with
  | H : first_return _ _ = Ok _ |- _ =>
      destruct (first_return_some _ _ _ H) as (key & _ & Hkey)
  end.
  exact (users_team_at_some _ _ _ _ Hkey).
Qed.

(** C8.  [get_user_team_info] never raises: it yields [None] or a dict whose
    [team_key] counts as true, so [None] is its only result that
    [if team_info:] rejects.  When it yields [None], [ff_get_roster] raises
    a [ToolError] that names the league, in the state [get_user_team_info]
    left: it makes no roster request and returns no roster. *)
Theorem ff_get_roster_missing_team (league_key : string) (w : World C) :
  (exists v w',
      get_user_team_info net league_key w = (Ok v, w')
      /\ (v = PyNone
          \/ exists d, v = PyDict d /\ truthy (local d "team_key") = true))
  /\ (forall w',
        get_user_team_info net league_key w = (Ok PyNone, w') ->
        ff_get_roster net repr league_key w =
          (Raise (mkExc ToolError
                    ("Could not find your team in league " +:+ league_key)),
           w')).
Proof.
  split.
  - unfold get_user_team_info.
    apply try_except_returns; [|auto].
    intros v w' Hrun.
    apply bind_ok_inv in Hrun as (data & w1 & _ & Hrun).
    apply bind_ok_inv in Hrun as (user_guid & w2 & _ & Hrun).
    unfold lift in Hrun. injection Hrun as Hparse _.
    exact (find_user_team_result _ _ _ Hparse).
  - intros w' Hnone. unfold ff_get_roster, bind. rewrite Hnone. reflexivity.
Qed.

(** C9.  [ff_get_waiver_wire] never returns: whatever its arguments and the
    state, its first statement raises [NameError] for the name [arguments],
    and the state, with its log, is unchanged: no request was made. *)
Theorem ff_get_waiver_wire_always_raises
    (league_key position sort : string) (count : Z) (w : World C) :
  ff_get_waiver_wire net repr league_key position sort count w =
    (Raise (mkExc NameError "name 'arguments' is not defined"), w).
Proof. reflexivity. Qed.

(** C5, as amended.  [get_waiver_wire_players] and [get_draft_rankings]
    never raise and always return a list.  When the gateway returns a
    payload whose parse raises, the exception is caught and the result is
    the empty list, which is also the result for a payload that parses to
    no player: the failure is not signalled. *)
Theorem player_lists_hide_parse_failures
    (league_key position sort count : PyVal) (w : World C) :
  (exists players w',
      get_waiver_wire_players net repr league_key position sort count w =
        (Ok (PyList players), w'))
  /\ (exists players w',
        get_draft_rankings net repr float_of_str int_of_str league_key position count w =
          (Ok (PyList players), w'))
  /\ (forall sort_type data w1,
        sort_type_of sort = Ok sort_type ->
        yahoo_api_call net
          ("league/" +:+ py_str repr league_key +:+ "/players;status=A"
           +:+ position_filter repr position +:+ ";sort=" +:+ sort_type
           +:+ ";count=" +:+ py_str repr count) true true w = (Ok data, w1) ->
        (forall e,
            parse_available_players data = Raise e ->
            get_waiver_wire_players net repr league_key position sort count w =
              (Ok (PyList []), w1))
        /\ (parse_available_players data = Ok [] ->
            get_waiver_wire_players net repr league_key position sort count w =
              (Ok (PyList []), w1)))
  /\ (forall data w1,
        truthy league_key = true ->
        yahoo_api_call net
          ("league/" +:+ py_str repr league_key +:+ "/players"
           +:+ position_filter repr position
           +:+ ";sort=OR;count=" +:+ py_str repr count) true true w
          = (Ok data, w1) ->
        (forall e,
            parse_ranked_players int_of_str data = Raise e ->
            get_draft_rankings net repr float_of_str int_of_str league_key position count w =
              (Ok (PyList []), w1))
        /\ (parse_ranked_players int_of_str data = Ok [] ->
            get_draft_rankings net repr float_of_str int_of_str league_key position count w =
              (Ok (PyList []), w1))).
Proof.
  split; [|split; [|split]].
  - unfold get_waiver_wire_players.
    destruct (try_except_returns
                (S := World C) (A := PyVal)
                (sort_type <- lift (sort_type_of sort) ;;
                 data <- yahoo_api_call net
                           ("league/" +:+ py_str repr league_key
                            +:+ "/players;status=A"
                            +:+ position_filter repr position
                            +:+ ";sort=" +:+ sort_type
                            +:+ ";count=" +:+ py_str repr count) true true ;;
                 players <- lift (parse_available_players data) ;;
                 ret (PyList players))%proc
                (PyList []) (fun v => exists l, v = PyList l) w)
      as (v & w' & Hrun & l & ->).
    + intros v w' Hrun.
      apply bind_ok_inv in Hrun as (st & w1 & _ & Hrun).
      apply bind_ok_inv in Hrun as (data & w2 & _ & Hrun).
      apply bind_ok_inv in Hrun as (players & w3 & _ & Hrun).
      injection Hrun as <- _. eauto.
    + eauto.
    + eauto.
  - unfold get_draft_rankings.
    match goal with
    | |- exists players w', try_except ?body _ w = _ =>
        destruct (try_except_returns (S := World C) (A := PyVal) body
                    (PyList []) (fun v => exists l, v = PyList l) w)
          as (v & w' & Hrun & l & ->)
    end.
    + intros v w' Hrun.
      apply bind_ok_inv in Hrun as (chosen & w1 & _ & Hrun).
      destruct chosen as [key|].
      * apply bind_ok_inv in Hrun as (data & w2 & _ & Hrun).
        apply bind_ok_inv in Hrun as (players & w3 & _ & Hrun).
        apply bind_ok_inv in Hrun as (sorted & w4 & _ & Hrun).
        injection Hrun as <- _. eauto.
      * injection Hrun as <- _. eauto.
    + eauto.
    + eauto.
  - intros st data w1 Hsort Hcall.
    unfold get_waiver_wire_players, try_except, bind, lift, ret.
    rewrite Hsort, Hcall.
    split; [intros e Hparse | intros Hparse]; rewrite Hparse; reflexivity.
  - intros data w1 Hkey Hcall.
    unfold get_draft_rankings, try_except, bind, lift, ret.
    rewrite Hkey. cbn [negb]. rewrite Hcall.
    split; [intros e Hparse | intros Hparse]; rewrite Hparse; reflexivity.
Qed.

(** [ff_get_standings] binds the payload to [ata] and then evaluates [data],
    which nothing binds: it never returns, whatever the payload.  When the gateway returns, the
    function raises [NameError] in the state the gateway left, before any
    parse and before [get_all_teams_info]; when the gateway raises, so does
    the function. *)
Theorem ff_get_standings_never_returns (league_key : string) (w : World C) :
  (exists e w', ff_get_standings net repr league_key w = (Raise e, w'))
  /\ (forall ata w1,
        yahoo_api_call net ("league/" +:+ league_key +:+ "/standings")
          true true w = (Ok ata, w1) ->
        ff_get_standings net repr league_key w =
          (Raise (mkExc NameError "name 'data' is not defined"), w1)).
Proof.
  assert (Hbound : forall ata w1,
             yahoo_api_call net ("league/" +:+ league_key +:+ "/standings")
               true true w = (Ok ata, w1) ->
             ff_get_standings net repr league_key w =
               (Raise (mkExc NameError "name 'data' is not defined"), w1)).
  { intros ata w1 Hcall. unfold ff_get_standings, bind at 1.
    rewrite Hcall. reflexivity. }
  split; [|exact Hbound].
  destruct (yahoo_api_call net ("league/" +:+ league_key +:+ "/standings")
              true true w) as [[ata|e] w1] eqn:Hcall.
  - rewrite (Hbound ata w1) by reflexivity. eauto.
  - unfold ff_get_standings, bind at 1. rewrite Hcall. eauto.
Qed.

End RetrievalProperties.

(** ** The tools on sample processes *)

(** No team of the sample league belongs to the user: the roster tool
    raises. *)
Lemma ff_get_roster_missing_team_witness :
  fst (ff_get_roster
         (constant_network (reply_with teams_payload) (Ok token_issued))
         sample_repr "461.l.61410" sample_world)
  = Raise (mkExc ToolError "Could not find your team in league 461.l.61410").
Proof.
  destruct (ff_get_roster_missing_team
              (constant_network (reply_with teams_payload) (Ok token_issued))
              sample_repr "461.l.61410" sample_world) as [_ Hraise].
  rewrite (Hraise
             (snd (get_user_team_info
                     (constant_network (reply_with teams_payload)
                        (Ok token_issued))
                     "461.l.61410" sample_world))).
  - reflexivity.
  - vm_compute. reflexivity.
Defined.

(** C5, as stated, fails.  The parse of the malformed payload raises
    [TypeError], and both [get_waiver_wire_players] and [get_draft_rankings]
    answer with the empty list, exactly as they do for the payload without
    players: nothing signals the failure. *)
Lemma parse_failure_returns_empty_list :
  let failing :=
    constant_network (reply_with malformed_players_payload) (Ok token_issued) in
  let empty :=
    constant_network (reply_with no_players_payload) (Ok token_issued) in
  let league := PyStr "461.l.61410" in
  parse_available_players malformed_players_payload
  = Raise (mkExc TypeError "string indices must be integers, not 'str'")
  /\ parse_available_players no_players_payload = Ok []
  /\ fst (get_waiver_wire_players failing sample_repr
           league (PyStr "all") (PyStr "rank") (PyInt 20) sample_world)
     = Ok (PyList [])
  /\ fst (get_waiver_wire_players empty sample_repr
           league (PyStr "all") (PyStr "rank") (PyInt 20) sample_world)
     = Ok (PyList [])
  /\ fst (get_draft_rankings failing sample_repr sample_float_of_str sample_int_of_str
           league (PyStr "all") (PyInt 50) sample_world)
     = Ok (PyList [])
  /\ fst (get_draft_rankings empty sample_repr sample_float_of_str sample_int_of_str
           league (PyStr "all") (PyInt 50) sample_world)
     = Ok (PyList []).
Proof.
  cbv zeta. repeat split; vm_compute; reflexivity.
Qed.

(** The malformed payload, through the amended statement. *)
Lemma player_lists_hide_parse_failures_witness :
  fst (get_waiver_wire_players
         (constant_network (reply_with malformed_players_payload)
            (Ok token_issued))
         sample_repr (PyStr "461.l.61410") (PyStr "all") (PyStr "rank")
         (PyInt 20) sample_world)
  = Ok (PyList []).
Proof.
  destruct (player_lists_hide_parse_failures
              (constant_network (reply_with malformed_players_payload)
                 (Ok token_issued))
              sample_repr sample_float_of_str sample_int_of_str
              (PyStr "461.l.61410") (PyStr "all") (PyStr "rank") (PyInt 20)
              sample_world) as (_ & _ & Hwaiver & _).
  destruct (Hwaiver "OR" malformed_players_payload
              (snd (yahoo_api_call
                      (constant_network (reply_with malformed_players_payload)
                         (Ok token_issued))
                      players_endpoint true true sample_world)))
    as [Hfail _].
  - reflexivity.
  - vm_compute. reflexivity.
  - rewrite (Hfail (mkExc TypeError
                      "string indices must be integers, not 'str'")).
    + reflexivity.
    + vm_compute. reflexivity.
Defined.

(** C3: the code does not do what the claim says.  On the sample league,
    whose standings payload holds no standings and no team, the claim
    expects placeholder standings; [ff_get_standings] raises [NameError]
    instead.  With [data] bound by the first statement it would return the
    placeholder standings, one zero record per team in draft order. *)
Lemma ff_get_standings_raises_name_error :
  fst (ff_get_standings league_network sample_repr "461.l.61410" sample_world)
  = Raise (mkExc NameError "name 'data' is not defined")
  /\ fst (ff_get_standings_with_data_bound league_network sample_repr
            "461.l.61410" sample_world)
     = Ok (PyDict
             [("league_key", PyStr "461.l.61410");
              ("standings",
               PyList
                 [PyDict
                    [("rank", PyInt 1); ("team", PyStr "Air Raid");
                     ("wins", PyInt 0); ("losses", PyInt 0);
                     ("ties", PyInt 0); ("points_for", PyInt 0);
                     ("points_against", PyInt 0)];
                  PyDict
                    [("rank", PyInt 2); ("team", PyStr "Gridiron Gang");
                     ("wins", PyInt 0); ("losses", PyInt 0);
                     ("ties", PyInt 0); ("points_for", PyInt 0);
                     ("points_against", PyInt 0)]]);
              ("debug_info",
               PyDict
                 [("total_teams_found", PyInt 2);
                  ("league_structure", PyStr "logged_to_console")])]).
Proof.
  split; vm_compute; reflexivity.
Qed.

(** ** More on the access gateway and the credential refresher *)

Section GatewayBehaviour.
Context {C : Type} `{!ResponseCache C}.
Variable net : Network.
Local Open Scope list_scope.
Local Open Scope proc_scope.

(** The refresher never raises, and its result is a dict. *)
Lemma refresh_yahoo_token_returns (w : World C) :
  exists result w', refresh_yahoo_token net w = (Ok (PyDict result), w').
Proof.
  unfold refresh_yahoo_token, bind, emit, getenv, try_except, session_post,
    setenv, write_token, lift, ret, raise, error_missing_credentials; cbn.
  repeat (case_innermost; cbn).
  all: eexists; eexists; reflexivity.
Qed.

Lemma refresh_yahoo_token_missing (w : World C) :
  missing_credentials w ->
  refresh_yahoo_token net w =
    (Ok error_missing_credentials,
     mkWorld (YAHOO_ACCESS_TOKEN w) (LEAGUES_CACHE w) (environ w)
       (response_cache w) (trace w ++ [EvRefresh])).
Proof.
  intros (k & Hk & Hnone).
  unfold refresh_yahoo_token, bind, emit, getenv, ret; cbn.
  destruct Hk as [-> | [-> | ->]], Hnone as [Hn | Hn]; rewrite Hn; cbn;
    repeat (case_innermost; cbn); try reflexivity;
    rewrite ?andb_false_r in *; cbn in *; congruence.
Qed.

(** A report of success comes with the new token installed. *)
Lemma refresh_yahoo_token_success (w : World C) result w' :
  refresh_yahoo_token net w = (Ok (PyDict result), w') ->
  dict_lookup "status" result = Some (PyStr "success") ->
  exists id secret rt r token_data tok,
    credentials w id secret rt
    /\ http_post net (trace w ++ [EvRefresh]) token_url
         (refresh_form id secret rt) = Ok r
    /\ status r = 200
    /\ json r = Ok token_data
    /\ py_get1 token_data "access_token" = Ok (PyStr tok)
    /\ YAHOO_ACCESS_TOKEN w' = PyStr tok
    /\ environ w' !! "YAHOO_ACCESS_TOKEN" = Some tok.
Proof.
  intros Hrun Hst.
  unfold refresh_yahoo_token, bind, emit, getenv, try_except, session_post,
    setenv, write_token, lift, ret, raise, error_missing_credentials in Hrun;
    cbn in Hrun.
  destruct (environ w !! "YAHOO_CONSUMER_KEY") as [id|] eqn:Hid;
    destruct (environ w !! "YAHOO_CONSUMER_SECRET") as [secret|] eqn:Hsecret;
    destruct (environ w !! "YAHOO_REFRESH_TOKEN") as [rt|] eqn:Hrt;
    cbn in Hrun; try (injection Hrun as <- _; discriminate Hst).
  destruct (String.eqb id "") eqn:Nid; cbn in Hrun;
    [injection Hrun as <- _; discriminate Hst|].
  destruct (String.eqb secret "") eqn:Nsecret; cbn in Hrun;
    [injection Hrun as <- _; discriminate Hst|].
  destruct (String.eqb rt "") eqn:Nrt; cbn in Hrun;
    [injection Hrun as <- _; discriminate Hst|].
  apply String.eqb_neq in Nid, Nsecret, Nrt.
  destruct (http_post net _ _ _) as [r|e] eqn:Hpost; cbn in Hrun;
    [|injection Hrun as <- _; discriminate Hst].
  destruct (Z.eqb_spec (status r) 200) as [H200|H200]; cbn in Hrun;
    [|destruct (text r); cbn in Hrun;
      injection Hrun as <- _; discriminate Hst].
  destruct (json r) as [token_data|e] eqn:Hj; cbn in Hrun;
    [|injection Hrun as <- _; discriminate Hst].
  destruct (py_get1 token_data "access_token") as [a|e] eqn:Htok;
    cbn in Hrun; [|injection Hrun as <- _; discriminate Hst].
  destruct (py_get token_data "refresh_token" (PyStr rt)) as [a0|e];
    cbn in Hrun; [|injection Hrun as <- _; discriminate Hst].
  destruct (py_get token_data "expires_in" (PyInt 3600)) as [a1|e];
    cbn in Hrun; [|injection Hrun as <- _; discriminate Hst].
  destruct a as [| | | |tok| | |]; cbn in Hrun;
    try (injection Hrun as <- _; discriminate Hst).
  destruct (has_nul tok) eqn:Hnul; cbn in Hrun;
    [injection Hrun as <- _; discriminate Hst|].
  exists id, secret, rt, r, token_data, tok.
  split; [repeat split; assumption|].
  do 4 (split; [assumption|]).
  destruct (negb (eq_str a0 rt)); cbn in Hrun.
  - destruct a0 as [| | | |new_rt| | |]; cbn in Hrun;
      try (injection Hrun as <- _; discriminate Hst).
    destruct (has_nul new_rt); cbn in Hrun;
      [injection Hrun as <- _; discriminate Hst|].
    destruct (res_bind (py_truediv a1 3600) py_round1); cbn in Hrun;
      [|injection Hrun as <- _; discriminate Hst].
    injection Hrun as _ <-. cbn. split; [reflexivity|].
    rewrite lookup_insert_ne by discriminate. apply lookup_insert_eq.
  - destruct (res_bind (py_truediv a1 3600) py_round1); cbn in Hrun;
      [|injection Hrun as <- _; discriminate Hst].
    injection Hrun as _ <-. cbn. split; [reflexivity|].
    apply lookup_insert_eq.
Qed.

Lemma exchange_events_without_cache endpoint token reply :
  Forall (fun ev => is_cache_event ev = false)
    (exchange_events false endpoint token reply).
Proof.
  unfold exchange_events, lookup_events, store_events.
  destruct reply as [r|]; cbn;
    [destruct (status r =? 200); [destruct (json r)|]|];
    repeat constructor.
Qed.

Lemma refresh_events_without_cache refresh :
  refresh_events refresh ->
  Forall (fun ev => is_cache_event ev = false) refresh.
Proof.
  intros (posts & -> & [-> | (form & reply & ->)]); repeat constructor.
Qed.

Lemma gateway_run_without_cache endpoint retry delta :
  gateway_run endpoint false retry delta ->
  Forall (fun ev => is_cache_event ev = false) delta.
Proof.
  induction 1 as [retry Hc|retry token reply|token r refresh H401 Hr
                 |token r refresh tail H401 Hr Htail IH].
  - discriminate.
  - apply exchange_events_without_cache.
  - apply Forall_app. split.
    + apply exchange_events_without_cache.
    + apply refresh_events_without_cache; assumption.
  - rewrite !Forall_app. repeat split.
    + apply exchange_events_without_cache.
    + apply refresh_events_without_cache; assumption.
    + assumption.
Qed.

(** What a call without retry leaves as it was. *)
Lemma yahoo_api_call_no_retry_state endpoint use_cache (w : World C) :
  let w' := snd (yahoo_api_call net endpoint false use_cache w) in
  YAHOO_ACCESS_TOKEN w' = YAHOO_ACCESS_TOKEN w
  /\ environ w' = environ w
  /\ LEAGUES_CACHE w' = LEAGUES_CACHE w
  /\ (use_cache = false -> response_cache w' = response_cache w).
Proof.
  cbv zeta. unfold yahoo_api_call.
  destruct (cache_hit_or_miss use_cache endpoint (response_cache w))
    as [Hmiss|[-> Hhit]].
  - rewrite yahoo_api_call_body_miss by assumption.
    destruct (first_reply net use_cache endpoint w) as [r|e].
    + destruct (Z.eq_dec (status r) 200) as [H200|H200].
      * destruct (json r) eqn:Hj.
        -- erewrite handle_response_ok by eassumption.
           cbn. repeat split. intros ->. reflexivity.
        -- erewrite handle_response_bad_json by eassumption.
           cbn. repeat split. intros ->. reflexivity.
      * rewrite handle_response_error by auto.
        cbn. repeat split. intros ->. reflexivity.
    + cbn. repeat split. intros ->. reflexivity.
  - destruct (cache_get endpoint (response_cache w)) as [v c] eqn:Hget.
    erewrite yahoo_api_call_body_hit by eassumption.
    cbn. repeat split. discriminate.
Qed.

(** What a call leaves as it was: the league memo always; the response
    cache when it is bypassed; the credentials unless the refresher ran. *)
Lemma yahoo_api_call_state endpoint retry use_cache (w : World C) :
  let w' := snd (yahoo_api_call net endpoint retry use_cache w) in
  LEAGUES_CACHE w' = LEAGUES_CACHE w
  /\ (use_cache = false -> response_cache w' = response_cache w)
  /\ (forall delta,
        trace w' = trace w ++ delta ->
        count_refresh delta = 0%nat ->
        YAHOO_ACCESS_TOKEN w' = YAHOO_ACCESS_TOKEN w
        /\ environ w' = environ w).
Proof.
  cbv zeta.
  assert (Hplain :
            forall w0 : World C,
              YAHOO_ACCESS_TOKEN w0 = YAHOO_ACCESS_TOKEN w ->
              environ w0 = environ w ->
              LEAGUES_CACHE w0 = LEAGUES_CACHE w ->
              (use_cache = false -> response_cache w0 = response_cache w) ->
              LEAGUES_CACHE w0 = LEAGUES_CACHE w
              /\ (use_cache = false -> response_cache w0 = response_cache w)
              /\ (forall delta,
                    trace w0 = trace w ++ delta ->
                    count_refresh delta = 0%nat ->
                    YAHOO_ACCESS_TOKEN w0 = YAHOO_ACCESS_TOKEN w
                    /\ environ w0 = environ w)) by auto.
  destruct retry.
  2: { destruct (yahoo_api_call_no_retry_state endpoint use_cache w)
         as (Ht & He & Hl & Hc).
       apply Hplain; assumption. }
  rewrite yahoo_api_call_unfold.
  destruct (cache_hit_or_miss use_cache endpoint (response_cache w))
    as [Hmiss|[-> Hhit]].
  - rewrite yahoo_api_call_body_miss by assumption.
    assert (Hreq : forall u, u = use_cache -> u = false ->
                     response_cache (after_request net use_cache endpoint w)
                     = response_cache w).
    { intros u -> ->. reflexivity. }
    destruct (first_reply net use_cache endpoint w) as [r|e] eqn:Hreply.
    + destruct (Z.eq_dec (status r) 401) as [H401|H401].
      * rewrite handle_response_401 by assumption.
        set (w1 := after_request net use_cache endpoint w) in *.
        destruct (refresh_yahoo_token_frame net w1)
          as (posts & Htr & _ & Hcache & Hleagues).
        assert (Hlog : forall w3 : World C,
                   (exists tail, trace w3 =
                      trace (snd (refresh_yahoo_token net w1)) ++ tail) ->
                   forall delta,
                     trace w3 = trace w ++ delta ->
                     count_refresh delta = 0%nat ->
                     YAHOO_ACCESS_TOKEN w3 = YAHOO_ACCESS_TOKEN w
                     /\ environ w3 = environ w).
        { intros w3 (tail & Htail) delta Hdelta Hcount. exfalso.
          rewrite Htail, Htr in Hdelta. subst w1.
          rewrite trace_after_request, <- !app_assoc in Hdelta.
          apply app_inv_head in Hdelta. subst delta.
          rewrite !count_refresh_app in Hcount. cbn in Hcount.
          rewrite ?count_refresh_app in Hcount. lia. }
        assert (Hstop : LEAGUES_CACHE (snd (refresh_yahoo_token net w1))
                        = LEAGUES_CACHE w
                        /\ (use_cache = false ->
                            response_cache (snd (refresh_yahoo_token net w1))
                            = response_cache w)
                        /\ (forall delta,
                              trace (snd (refresh_yahoo_token net w1))
                              = trace w ++ delta ->
                              count_refresh delta = 0%nat ->
                              YAHOO_ACCESS_TOKEN (snd (refresh_yahoo_token net w1))
                              = YAHOO_ACCESS_TOKEN w
                              /\ environ (snd (refresh_yahoo_token net w1))
                                 = environ w)).
        { split; [rewrite Hleagues; reflexivity|]. split.
          - intros Hu. rewrite Hcache. apply (Hreq use_cache); auto.
          - apply Hlog. exists []. rewrite app_nil_r. reflexivity. }
        destruct (refresh_yahoo_token net w1) as [[rr|e] w2];
          cbn [snd] in *; [|exact Hstop].
        destruct (py_get1 rr "status") as [st|e]; [|exact Hstop].
        destruct (eq_str st "success"); [|exact Hstop].
        destruct (yahoo_api_call_no_retry_state endpoint use_cache w2)
          as (_ & _ & Hl & Hc).
        destruct (yahoo_api_call_no_retry_run net endpoint use_cache w2)
          as (tail & Htail & _).
        split; [rewrite Hl, Hleagues; reflexivity|]. split.
        -- intros Hu. rewrite (Hc Hu), Hcache. apply (Hreq use_cache); auto.
        -- apply Hlog. exists tail. exact Htail.
      * destruct (Z.eq_dec (status r) 200) as [H200|H200].
        -- destruct (json r) eqn:Hj.
           ++ erewrite handle_response_ok by eassumption.
              apply Hplain; try reflexivity. intros ->. reflexivity.
           ++ erewrite handle_response_bad_json by eassumption.
              apply Hplain; try reflexivity. intros ->. reflexivity.
        -- rewrite handle_response_error by auto.
           apply Hplain; try reflexivity. intros ->. reflexivity.
    + apply Hplain; try reflexivity. intros ->. reflexivity.
  - destruct (cache_get endpoint (response_cache w)) as [v c] eqn:Hget.
    erewrite yahoo_api_call_body_hit by eassumption.
    apply Hplain; try reflexivity. discriminate.
Qed.

(** With the cache bypassed ([use_cache=False]) a gateway call neither reads
    nor writes the response cache: the cache is left as it was and the log of
    the call holds no cache event, whatever upstream replies and whether or
    not the call refreshes and retries. *)
Theorem yahoo_api_call_bypasses_cache endpoint retry (w : World C) :
  response_cache (snd (yahoo_api_call net endpoint retry false w))
  = response_cache w
  /\ exists delta,
       trace (snd (yahoo_api_call net endpoint retry false w))
       = trace w ++ delta
       /\ Forall (fun ev => is_cache_event ev = false) delta.
Proof.
  split.
  - destruct (yahoo_api_call_state endpoint retry false w) as (_ & Hc & _).
    apply Hc. reflexivity.
  - destruct (yahoo_api_call_run net endpoint retry false w)
      as (delta & Htr & Hrun).
    exists delta. split; [exact Htr|].
    exact (gateway_run_without_cache _ _ _ Hrun).
Qed.

(** A gateway call never touches the league memo, and it changes the
    credentials (the access token of the module and the environment) only
    through the refresher: they are as before whenever the log of the call
    holds no invocation of the refresher, in particular whenever retry is
    disabled. *)
Theorem yahoo_api_call_keeps_credentials endpoint retry use_cache (w : World C) :
  LEAGUES_CACHE (snd (yahoo_api_call net endpoint retry use_cache w))
  = LEAGUES_CACHE w
  /\ (forall delta,
        trace (snd (yahoo_api_call net endpoint retry use_cache w))
        = trace w ++ delta ->
        count_refresh delta = 0%nat ->
        YAHOO_ACCESS_TOKEN (snd (yahoo_api_call net endpoint retry use_cache w))
        = YAHOO_ACCESS_TOKEN w
        /\ environ (snd (yahoo_api_call net endpoint retry use_cache w))
           = environ w)
  /\ (retry = false ->
      YAHOO_ACCESS_TOKEN (snd (yahoo_api_call net endpoint retry use_cache w))
      = YAHOO_ACCESS_TOKEN w
      /\ environ (snd (yahoo_api_call net endpoint retry use_cache w))
         = environ w).
Proof.
  destruct (yahoo_api_call_state endpoint retry use_cache w)
    as (Hl & _ & Hcred).
  split; [exact Hl|]. split; [exact Hcred|].
  intros ->.
  destruct (yahoo_api_call_no_retry_state endpoint use_cache w)
    as (Ht & He & _).
  split; assumption.
Qed.

(** A transport failure ([session.get] raises) and a reply with status 200
    whose body is not JSON both reach the caller as the exception raised,
    with retry enabled or not: the gateway does not refresh, does not retry
    and stores nothing. *)
Theorem yahoo_api_call_propagates endpoint retry use_cache (w : World C) :
  cache_miss use_cache endpoint (response_cache w) ->
  (forall e,
      first_reply net use_cache endpoint w = Raise e ->
      yahoo_api_call net endpoint retry use_cache w =
        (Raise e, after_request net use_cache endpoint w))
  /\ (forall r e,
        first_reply net use_cache endpoint w = Ok r ->
        status r = 200 ->
        json r = Raise e ->
        yahoo_api_call net endpoint retry use_cache w =
          (Raise e, after_request net use_cache endpoint w)).
Proof.
  intros Hmiss. split.
  - intros e Hreply. unfold yahoo_api_call.
    rewrite yahoo_api_call_body_miss, Hreply by assumption. reflexivity.
  - intros r e Hreply H200 Hj. unfold yahoo_api_call.
    rewrite yahoo_api_call_body_miss, Hreply by assumption.
    apply handle_response_bad_json; assumption.
Qed.


(** A 401 with retry enabled, when the refresher reports success: the call
    is the call without retry from the state the refresher left.  The
    refresher posted the credentials of the environment after the 401, the
    token endpoint answered 200 with an object, and the [access_token] of
    that object is what the module's access token and the environment
    variable hold in that state, and what the request of the retry
    carries. *)
Theorem yahoo_api_call_retries_with_new_token
    endpoint use_cache (w : World C) r result w2 :
  cache_miss use_cache endpoint (response_cache w) ->
  first_reply net use_cache endpoint w = Ok r ->
  status r = 401 ->
  refresh_yahoo_token net (after_request net use_cache endpoint w)
  = (Ok (PyDict result), w2) ->
  dict_lookup "status" result = Some (PyStr "success") ->
  yahoo_api_call net endpoint true use_cache w =
    yahoo_api_call net endpoint false use_cache w2
  /\ exists id secret rt r2 token_data tok,
       credentials w id secret rt
       /\ http_post net
            (trace (after_request net use_cache endpoint w) ++ [EvRefresh])
            token_url (refresh_form id secret rt) = Ok r2
       /\ status r2 = 200
       /\ json r2 = Ok token_data
       /\ py_get1 token_data "access_token" = Ok (PyStr tok)
       /\ YAHOO_ACCESS_TOKEN w2 = PyStr tok
       /\ environ w2 !! "YAHOO_ACCESS_TOKEN" = Some tok
       /\ (cache_miss use_cache endpoint (response_cache w2) ->
           exists rest,
             trace (snd (yahoo_api_call net endpoint true use_cache w)) =
               trace w2 ++ lookup_events use_cache endpoint
                 ++ [EvAcquire;
                     EvGet (request_url endpoint) (PyStr tok)
                       (first_reply net use_cache endpoint w2)]
                 ++ rest).
Proof.
  intros Hmiss Hreply H401 Hrefresh Hstatus.
  assert (Hcall : yahoo_api_call net endpoint true use_cache w =
                  yahoo_api_call net endpoint false use_cache w2).
  { rewrite yahoo_api_call_unfold.
    rewrite yahoo_api_call_body_miss, Hreply by assumption.
    rewrite handle_response_401, Hrefresh by assumption.
    cbn [py_get1 py_get]. rewrite Hstatus. reflexivity. }
  split; [exact Hcall|].
  destruct (refresh_yahoo_token_success _ _ _ Hrefresh Hstatus)
    as (id & secret & rt & r2 & token_data & tok & Hcred & Hpost & H200
        & Hj & Haccess & Htok & Henv).
  exists id, secret, rt, r2, token_data, tok.
  split; [exact Hcred|]. do 6 (split; [assumption|]).
  intros Hmiss2. rewrite Hcall, <- Htok.
  apply yahoo_api_call_miss_prefix. assumption.
Qed.

(** A payload the gateway stored is served by the next call for the same
    endpoint, given a cache that hands back what was stored last: the call
    returns the payload and logs the lookup alone, so it takes no permit and
    issues no request.  The exception is a JSON [null] payload, decoded as
    [None]: the cache's answer is then taken for a miss, and the next call
    goes upstream again. *)
Theorem yahoo_api_call_serves_stored_payload
    endpoint retry retry' (w : World C) r data :
  cache_returns_stored C ->
  cache_miss true endpoint (response_cache w) ->
  first_reply net true endpoint w = Ok r ->
  status r = 200 ->
  json r = Ok data ->
  let w1 := snd (yahoo_api_call net endpoint retry true w) in
  (data <> PyNone ->
   fst (yahoo_api_call net endpoint retry' true w1) = Ok data
   /\ trace (snd (yahoo_api_call net endpoint retry' true w1)) =
        trace w1 ++ [EvCacheGet endpoint])
  /\ (data = PyNone ->
      exists rest,
        trace (snd (yahoo_api_call net endpoint retry' true w1)) =
          trace w1
          ++ [EvCacheGet endpoint; EvAcquire;
              EvGet (request_url endpoint) (YAHOO_ACCESS_TOKEN w1)
                (first_reply net true endpoint w1)]
          ++ rest).
Proof.
  intros Hlaw Hmiss Hreply H200 Hj. cbv zeta.
  assert (Hw1 : response_cache (snd (yahoo_api_call net endpoint retry true w))
                = cache_set endpoint data
                    (cache_after_lookup true endpoint (response_cache w))).
  { unfold yahoo_api_call.
    rewrite yahoo_api_call_body_miss, Hreply by assumption.
    erewrite handle_response_ok by eassumption. reflexivity. }
  set (w1 := snd (yahoo_api_call net endpoint retry true w)) in *.
  pose proof (Hlaw endpoint data
                (cache_after_lookup true endpoint (response_cache w))) as Hget.
  rewrite <- Hw1 in Hget.
  split.
  - intros Hdata.
    destruct (cache_get endpoint (response_cache w1)) as [v c] eqn:Hc.
    cbn [fst] in Hget. subst v.
    rewrite (yahoo_api_call_hit net endpoint retry' w1 data c) by assumption.
    split; reflexivity.
  - intros ->.
    destruct (yahoo_api_call_miss_prefix net endpoint retry' true w1)
      as (rest & Htr).
    + right. exact Hget.
    + exists rest. rewrite Htr. reflexivity.
Qed.

(** The refresher installs the new token before it computes the expiry.  A
    token reply with status 200 and a string [access_token] whose
    [expires_in] is not a number makes the refresher report an error, yet
    the module's access token and the environment variable already hold the
    new token. *)
Theorem refresh_yahoo_token_error_after_install
    (w : World C) id secret rt r token_data tok expires_in :
  credentials w id secret rt ->
  http_post net (trace w ++ [EvRefresh]) token_url
    (refresh_form id secret rt) = Ok r ->
  status r = 200 ->
  json r = Ok token_data ->
  py_get1 token_data "access_token" = Ok (PyStr tok) ->
  has_nul tok = false ->
  py_get token_data "expires_in" (PyInt 3600) = Ok expires_in ->
  as_num expires_in = None ->
  (exists msg,
      fst (refresh_yahoo_token net w) =
        Ok (PyDict [("status", PyStr "error");
                    ("message", PyStr ("Error refreshing token: " +:+ msg))]))
  /\ YAHOO_ACCESS_TOKEN (snd (refresh_yahoo_token net w)) = PyStr tok
  /\ environ (snd (refresh_yahoo_token net w)) !! "YAHOO_ACCESS_TOKEN"
     = Some tok.
Proof.
  intros (Hid & Hsecret & Hrt & Nid & Nsecret & Nrt)
    Hpost H200 Hj Htok Hnul Hexp Hnum.
  unfold refresh_form in Hpost.
  unfold refresh_yahoo_token, bind, emit, getenv, try_except, session_post,
    setenv, write_token, lift, ret, raise; cbn.
  rewrite Hid, Hsecret, Hrt; cbn.
  apply String.eqb_neq in Nid, Nsecret, Nrt.
  rewrite Nid, Nsecret, Nrt; cbn. rewrite Hpost; cbn.
  rewrite H200; cbn. rewrite Hj; cbn. rewrite Htok; cbn.
  destruct token_data as [| | | | | |d|]; try discriminate Htok.
  cbn in Hexp |- *. injection Hexp as Hexp. rewrite Hexp.
  rewrite Hnul; cbn.
  assert (Hdiv : res_bind (py_truediv expires_in 3600) py_round1
                 = Raise (mkExc TypeError
                            ("unsupported operand type(s) for /: '"
                             +:+ type_name expires_in +:+ "' and 'int'"))).
  { unfold py_truediv. rewrite Hnum. reflexivity. }
  destruct (match dict_lookup "refresh_token" d with
            | Some x => x
            | None => PyStr rt
            end) as [|b|n|f|new_rt|l|d'|o]; cbn;
    try (split; [eexists; reflexivity
                |split; [reflexivity|apply lookup_insert_eq]]).
  destruct (String.eqb new_rt rt); cbn.
  - rewrite Hdiv; cbn.
    split; [eexists; reflexivity|split; [reflexivity|apply lookup_insert_eq]].
  - destruct (has_nul new_rt); cbn.
    + split; [eexists; reflexivity
             |split; [reflexivity|apply lookup_insert_eq]].
    + rewrite Hdiv; cbn.
      split; [eexists; reflexivity|split; [reflexivity|]].
      rewrite lookup_insert_ne by discriminate. apply lookup_insert_eq.
Qed.

(** The refresher reports success only after a token exchange that it can
    name: the three credentials were set, the token endpoint answered 200
    with an object carrying a string [access_token], and that token is now
    the module's access token and the value of the environment variable. *)
Theorem refresh_yahoo_token_success_is_sound (w : World C) result w' :
  refresh_yahoo_token net w = (Ok (PyDict result), w') ->
  dict_lookup "status" result = Some (PyStr "success") ->
  exists id secret rt r token_data tok,
    credentials w id secret rt
    /\ http_post net (trace w ++ [EvRefresh]) token_url
         (refresh_form id secret rt) = Ok r
    /\ status r = 200
    /\ json r = Ok token_data
    /\ py_get1 token_data "access_token" = Ok (PyStr tok)
    /\ YAHOO_ACCESS_TOKEN w' = PyStr tok
    /\ environ w' !! "YAHOO_ACCESS_TOKEN" = Some tok.
Proof. apply refresh_yahoo_token_success. Qed.

(** Without a 200 answer from the token endpoint the refresher changes no
    credential.  When the exchange the refresher would make (the form of the
    credentials of the environment, when all three are set) is not answered
    with status 200, the module's access token and the environment are as
    before, and the result is an error dict.  This covers a missing
    credential, whatever the token endpoint would answer: then there is no
    exchange. *)
Theorem refresh_yahoo_token_failure_keeps_credentials (w : World C) :
  (forall id secret rt r,
      credentials w id secret rt ->
      http_post net (trace w ++ [EvRefresh]) token_url
        (refresh_form id secret rt) = Ok r ->
      status r <> 200) ->
  YAHOO_ACCESS_TOKEN (snd (refresh_yahoo_token net w)) = YAHOO_ACCESS_TOKEN w
  /\ environ (snd (refresh_yahoo_token net w)) = environ w
  /\ exists result,
       fst (refresh_yahoo_token net w) = Ok (PyDict result)
       /\ dict_lookup "status" result = Some (PyStr "error").
Proof.
  intros Hno200.
  unfold refresh_yahoo_token, bind, emit, getenv, try_except, session_post,
    setenv, write_token, lift, ret, raise, error_missing_credentials; cbn.
  destruct (environ w !! "YAHOO_CONSUMER_KEY") as [id|] eqn:Hid;
    destruct (environ w !! "YAHOO_CONSUMER_SECRET") as [secret|] eqn:Hsecret;
    destruct (environ w !! "YAHOO_REFRESH_TOKEN") as [rt|] eqn:Hrt;
    cbn; try (repeat split; eexists; split; reflexivity).
  destruct (String.eqb id "") eqn:Nid; cbn;
    [repeat split; eexists; split; reflexivity|].
  destruct (String.eqb secret "") eqn:Nsecret; cbn;
    [repeat split; eexists; split; reflexivity|].
  destruct (String.eqb rt "") eqn:Nrt; cbn;
    [repeat split; eexists; split; reflexivity|].
  apply String.eqb_neq in Nid, Nsecret, Nrt.
  destruct (http_post net _ _ _) as [r|e] eqn:Hpost; cbn;
    [|repeat split; eexists; split; reflexivity].
  destruct (Z.eqb_spec (status r) 200) as [H200|H200]; cbn.
  - exfalso. apply (Hno200 id secret rt r); [|exact Hpost|exact H200].
    repeat split; assumption.
  - destruct (text r); cbn; repeat split; eexists; split; reflexivity.
Qed.

End GatewayBehaviour.

(** ** The gateway and the refresher on more sample processes *)

(** The upstream cannot be reached: the gateway raises what the request
    raised. *)
Lemma yahoo_api_call_propagates_witness :
  fst (yahoo_api_call
         (constant_network (Raise connection_error) (Ok token_issued))
         standings_endpoint true true sample_world)
  = Raise connection_error.
Proof.
  destruct (yahoo_api_call_propagates
              (constant_network (Raise connection_error) (Ok token_issued))
              standings_endpoint true true sample_world) as [Hraise _].
  - right. reflexivity.
  - rewrite (Hraise connection_error); reflexivity.
Defined.


(** Upstream answers 401 and the token endpoint issues a token: the call is
    the call without retry from the refreshed state, in which the module
    holds the access token of the token reply. *)
Lemma yahoo_api_call_retries_with_new_token_witness :
  yahoo_api_call (constant_network (Ok unauthorized) (Ok token_issued))
    standings_endpoint true true sample_world
  = yahoo_api_call (constant_network (Ok unauthorized) (Ok token_issued))
      standings_endpoint false true
      (snd (refresh_yahoo_token
              (constant_network (Ok unauthorized) (Ok token_issued))
              (after_request
                 (constant_network (Ok unauthorized) (Ok token_issued))
                 true standings_endpoint sample_world)))
  /\ exists token_data,
       json token_issued = Ok token_data
       /\ py_get1 token_data "access_token"
          = Ok (YAHOO_ACCESS_TOKEN
                  (snd (refresh_yahoo_token
                          (constant_network (Ok unauthorized) (Ok token_issued))
                          (after_request
                             (constant_network (Ok unauthorized)
                                (Ok token_issued))
                             true standings_endpoint sample_world)))).
Proof.
  destruct (yahoo_api_call_retries_with_new_token
              (constant_network (Ok unauthorized) (Ok token_issued))
              standings_endpoint true sample_world unauthorized
              [("status", PyStr "success");
               ("message", PyStr "Token refreshed successfully");
               ("expires_in", PyInt 3600);
               ("expires_in_hours", PyFloat 1%float)]
              (snd (refresh_yahoo_token
                      (constant_network (Ok unauthorized) (Ok token_issued))
                      (after_request
                         (constant_network (Ok unauthorized) (Ok token_issued))
                         true standings_endpoint sample_world))))
    as [Hrun (id & secret & rt & r2 & token_data & tok & _ & Hpost & _ & Hj
              & Haccess & Htok & _)].
  - right. reflexivity.
  - reflexivity.
  - reflexivity.
  - vm_compute. reflexivity.
  - reflexivity.
  - split; [exact Hrun|].
    injection Hpost as <-.
    exists token_data. split; [exact Hj|].
    rewrite Htok. exact Haccess.
Defined.

(** The standings payload, once fetched, is served from the cache. *)
Lemma yahoo_api_call_serves_stored_payload_witness :
  fst (yahoo_api_call (constant_network (Ok standings_ok) (Ok token_issued))
         standings_endpoint true true
         (snd (yahoo_api_call
                 (constant_network (Ok standings_ok) (Ok token_issued))
                 standings_endpoint true true sample_world)))
  = Ok standings_payload.
Proof.
  destruct (yahoo_api_call_serves_stored_payload
              (constant_network (Ok standings_ok) (Ok token_issued))
              standings_endpoint true true sample_world standings_ok
              standings_payload) as [Hhit _].
  - intros k v c. cbn. rewrite lookup_insert_eq. reflexivity.
  - right. reflexivity.
  - reflexivity.
  - reflexivity.
  - reflexivity.
  - apply Hhit. discriminate.
Defined.

(** The token endpoint sends the expiry as a string: the refresher reports
    an error, with the new token installed. *)
Lemma refresh_yahoo_token_error_after_install_witness :
  fst (refresh_yahoo_token
         (constant_network (Ok unauthorized) (Ok token_issued_bad_expiry))
         sample_world)
  = Ok (PyDict
          [("status", PyStr "error");
           ("message",
            PyStr ("Error refreshing token: "
                   +:+ "unsupported operand type(s) for /: 'str' and 'int'"))])
  /\ YAHOO_ACCESS_TOKEN
       (snd (refresh_yahoo_token
               (constant_network (Ok unauthorized) (Ok token_issued_bad_expiry))
               sample_world))
     = PyStr "access-1".
Proof.
  destruct (refresh_yahoo_token_error_after_install
              (constant_network (Ok unauthorized) (Ok token_issued_bad_expiry))
              sample_world "consumer-key" "consumer-secret" "refresh-1"
              token_issued_bad_expiry
              (PyDict [("access_token", PyStr "access-1");
                       ("expires_in", PyStr "3600")])
              "access-1" (PyStr "3600"))
    as (_ & Htok & _).
  - repeat split; try reflexivity; discriminate.
  - reflexivity.
  - reflexivity.
  - reflexivity.
  - reflexivity.
  - reflexivity.
  - reflexivity.
  - reflexivity.
  - split; [vm_compute; reflexivity | exact Htok].
Defined.

(** The refresher reports success on the sample process: the token it names
    is installed. *)
Lemma refresh_yahoo_token_success_is_sound_witness :
  exists tok,
    YAHOO_ACCESS_TOKEN
      (snd (refresh_yahoo_token
              (constant_network (Ok unauthorized) (Ok token_issued))
              sample_world)) = PyStr tok
    /\ environ
         (snd (refresh_yahoo_token
                 (constant_network (Ok unauthorized) (Ok token_issued))
                 sample_world)) !! "YAHOO_ACCESS_TOKEN" = Some tok.
Proof.
  destruct (refresh_yahoo_token_success_is_sound
              (constant_network (Ok unauthorized) (Ok token_issued))
              sample_world
              [("status", PyStr "success");
               ("message", PyStr "Token refreshed successfully");
               ("expires_in", PyInt 3600);
               ("expires_in_hours", PyFloat 1%float)]
              (snd (refresh_yahoo_token
                      (constant_network (Ok unauthorized) (Ok token_issued))
                      sample_world)))
    as (id & secret & rt & r & token_data & tok & _ & _ & _ & _ & _
        & Htok & Henv).
  - vm_compute. reflexivity.
  - reflexivity.
  - exists tok. split; assumption.
Defined.

(** The token endpoint answers 500: the credentials stay as they were.  So
    they do when no credential is set, with a token endpoint that would
    issue a token. *)
Lemma refresh_yahoo_token_failure_keeps_credentials_witness :
  (YAHOO_ACCESS_TOKEN
     (snd (refresh_yahoo_token
             (constant_network (Ok unauthorized) (Ok server_error))
             sample_world)) = PyStr "access-0"
   /\ environ
        (snd (refresh_yahoo_token
                (constant_network (Ok unauthorized) (Ok server_error))
                sample_world)) = sample_environ)
  /\ (YAHOO_ACCESS_TOKEN
        (snd (refresh_yahoo_token
                (constant_network (Ok unauthorized) (Ok token_issued))
                no_credentials_world)) = PyStr "access-0"
      /\ environ
           (snd (refresh_yahoo_token
                   (constant_network (Ok unauthorized) (Ok token_issued))
                   no_credentials_world)) = ∅).
Proof.
  split.
  - destruct (refresh_yahoo_token_failure_keeps_credentials
                (constant_network (Ok unauthorized) (Ok server_error))
                sample_world) as (Htok & Henv & _).
    + intros id secret rt r _ Hpost. injection Hpost as <-. cbn. lia.
    + split; assumption.
  - destruct (refresh_yahoo_token_failure_keeps_credentials
                (constant_network (Ok unauthorized) (Ok token_issued))
                no_credentials_world) as (Htok & Henv & _).
    + intros id secret rt r (Hid & _) _. discriminate Hid.
    + split; assumption.
Defined.

(** ** Invariants of the parsing loops *)

Section Invariants.
Context {S : Type}.
Variable P : S -> Prop.

Lemma preserves_ret {A : Type} (a : A) : preserves P (ret a).
Proof. intros s Hs. exact Hs. Qed.

Lemma preserves_lift {A : Type} (r : Res A) : preserves P (lift r).
Proof. intros s Hs. exact Hs. Qed.

Lemma preserves_raise {A : Type} cls msg : preserves P (raise (A := A) cls msg).
Proof. intros s Hs. exact Hs. Qed.

Lemma preserves_bind {A B : Type} (m : ST S A) (k : A -> ST S B) :
  preserves P m -> (forall a, preserves P (k a)) -> preserves P (bind m k).
Proof.
  intros Hm Hk s Hs. unfold bind. specialize (Hm s Hs).
  destruct (m s) as [[a|e] s1]; cbn in *; [apply Hk; assumption | assumption].
Qed.

Lemma preserves_when (c : bool) (body : ST S unit) :
  (c = true -> preserves P body) -> preserves P (when c body).
Proof.
  intros Hbody. destruct c; cbn; [auto | apply preserves_ret].
Qed.

Lemma preserves_and_then (c : bool) (r : Res bool) : preserves P (and_then c r).
Proof. destruct c; intros s Hs; exact Hs. Qed.

Lemma preserves_for_in {A : Type} (xs : list A) (body : A -> ST S unit) :
  (forall x, preserves P (body x)) -> preserves P (for_in xs body).
Proof.
  intros Hbody. induction xs as [|x xs IH]; cbn.
  - apply preserves_ret.
  - apply preserves_bind; auto.
Qed.

Lemma preserves_with_locals {T : Type} (init : T) (block : ST T unit) :
  preserves P (with_locals init block).
Proof.
  intros s Hs. unfold with_locals.
  destruct (block init) as [[u|e] t]; exact Hs.
Qed.

Lemma preserves_try_except {A : Type} (body : ST S A) handler :
  preserves P body -> (forall e, preserves P (handler e)) ->
  preserves P (try_except body handler).
Proof.
  intros Hbody Hhandler s Hs. unfold try_except. specialize (Hbody s Hs).
  destruct (body s) as [[a|e] s1]; cbn in *; [assumption|].
  apply Hhandler. assumption.
Qed.

End Invariants.

Lemma preserves_append {A : Type} (Q : A -> Prop) (x : A) :
  Q x -> preserves (Forall Q) (append x).
Proof.
  intros Hx l Hl. cbn. apply Forall_app. split; [assumption|].
  constructor; [assumption | constructor].
Qed.

Lemma run_locals_keeps {T : Type} (P : T -> Prop) (init : T) block t :
  preserves P block -> P init -> run_locals init block = Ok t -> P t.
Proof.
  intros Hblock Hinit. unfold run_locals. specialize (Hblock init Hinit).
  destruct (block init) as [[u|e] t']; [|discriminate].
  intros [= <-]. exact Hblock.
Qed.

(** ** Sorting *)

Section Sorting.
Context {A : Type}.
Implicit Types (l : list (PyVal * A)) (x : PyVal * A).

Lemma insert_sorted_perm x l l' :
  insert_sorted x l = Ok l' -> Permutation (x :: l) l'.
Proof.
  revert l'. induction l as [|y l IH]; intros l'; cbn.
  - intros [= <-]. reflexivity.
  - unfold res_bind.
    destruct (py_ltb (fst y) (fst x)) as [[|]|]; [| |discriminate].
    + destruct (insert_sorted x l) as [rest|] eqn:Hrest; [|discriminate].
      intros [= <-]. rewrite Permutation_swap.
      constructor. apply IH. reflexivity.
    + intros [= <-]. reflexivity.
Qed.

Lemma sort_keyed_perm l l' : sort_keyed l = Ok l' -> Permutation l l'.
Proof.
  revert l'. induction l as [|x l IH]; intros l'; cbn.
  - intros [= <-]. reflexivity.
  - unfold res_bind.
    destruct (sort_keyed l) as [sorted|]; [|discriminate].
    intros Hins. apply insert_sorted_perm in Hins.
    rewrite <- Hins. constructor. apply IH. reflexivity.
Qed.

Lemma with_keys_keyed (key : A -> Res PyVal) (xs : list A) keyed :
  with_keys key xs = Ok keyed ->
  map snd keyed = xs /\ Forall (fun p => key (snd p) = Ok (fst p)) keyed.
Proof.
  revert keyed. induction xs as [|x xs IH]; intros keyed; cbn.
  - intros [= <-]. split; constructor.
  - unfold res_bind. destruct (key x) as [k|] eqn:Hk; [|discriminate].
    destruct (with_keys key xs) as [rest|]; [|discriminate].
    intros [= <-]. destruct (IH rest eq_refl) as [Hmap Hall].
    split; [cbn; congruence|]. constructor; assumption.
Qed.

(** Sorting rearranges: nothing is lost, added or duplicated. *)
Lemma py_sorted_perm (key : A -> Res PyVal) (xs xs' : list A) :
  py_sorted key xs = Ok xs' -> Permutation xs xs'.
Proof.
  unfold py_sorted, res_bind.
  destruct (with_keys key xs) as [keyed|] eqn:Hkeys; [|discriminate].
  destruct (sort_keyed keyed) as [sorted|] eqn:Hsort; [|discriminate].
  intros [= <-].
  destruct (with_keys_keyed _ _ _ Hkeys) as [<- _].
  apply Permutation_map. apply sort_keyed_perm. assumption.
Qed.

Local Abbreviation int_key := (fun p : PyVal * A => exists n, fst p = PyInt n).
Local Abbreviation key_le :=
  (fun p q : PyVal * A =>
     exists m n, fst p = PyInt m /\ fst q = PyInt n /\ m <= n).

Lemma insert_sorted_ascending x l l' :
  int_key x -> Forall int_key l ->
  StronglySorted key_le l ->
  insert_sorted x l = Ok l' ->
  StronglySorted key_le l'.
Proof.
  intros (kx & Hx). revert l'.
  induction l as [|y l IH]; intros l' Hl Hs; cbn.
  - intros [= <-]. repeat constructor.
  - apply Forall_cons in Hl as [(ky & Hy) Hl].
    apply StronglySorted_inv in Hs as [Hs Hyl].
    rewrite Hx, Hy. cbn. unfold res_bind.
    destruct (Z.ltb_spec ky kx) as [Hlt|Hge].
    + destruct (insert_sorted x l) as [rest|] eqn:Hrest; [|discriminate].
      intros [= <-]. constructor; [apply IH; auto|].
      apply insert_sorted_perm in Hrest. rewrite <- Hrest.
      constructor; [|assumption].
      exists ky, kx. repeat split; [assumption | assumption | lia].
    + intros [= <-]. constructor; [constructor; assumption|].
      constructor.
      * exists kx, ky. repeat split; [assumption | assumption | lia].
      * eapply Forall_impl; [exact Hyl|].
        intros z (m & n & Hm & Hn & Hle). cbn in *.
        exists kx, n. repeat split; [assumption | assumption |].
        rewrite Hy in Hm. injection Hm as <-. lia.
Qed.

Lemma sort_keyed_ascending l l' :
  Forall int_key l -> sort_keyed l = Ok l' -> StronglySorted key_le l'.
Proof.
  revert l'. induction l as [|x l IH]; intros l' Hl; cbn.
  - intros [= <-]. constructor.
  - apply Forall_cons in Hl as [Hx Hl]. unfold res_bind.
    destruct (sort_keyed l) as [sorted|] eqn:Hsorted; [|discriminate].
    intros Hins.
    eapply insert_sorted_ascending; [exact Hx| | |exact Hins].
    + apply sort_keyed_perm in Hsorted. rewrite <- Hsorted. assumption.
    + apply IH; [assumption | reflexivity].
Qed.

(** With integer keys the result is in ascending order of the keys. *)
Lemma py_sorted_ascending (key : A -> Res PyVal) (xs xs' : list A) :
  py_sorted key xs = Ok xs' ->
  Forall (fun a => exists n, key a = Ok (PyInt n)) xs ->
  StronglySorted
    (fun a b => exists m n, key a = Ok (PyInt m) /\ key b = Ok (PyInt n)
                            /\ m <= n) xs'.
Proof.
  unfold py_sorted, res_bind.
  destruct (with_keys key xs) as [keyed|] eqn:Hkeys; [|discriminate].
  destruct (sort_keyed keyed) as [sorted|] eqn:Hsort; [|discriminate].
  intros [= <-] Hint.
  destruct (with_keys_keyed _ _ _ Hkeys) as [Hmap Hkeyed].
  assert (Hintk : Forall int_key keyed).
  { subst xs. rewrite Forall_map in Hint.
    rewrite Forall_forall in Hint, Hkeyed. apply Forall_forall.
    intros p Hp. destruct (Hint p Hp) as (n & Hn).
    exists n. specialize (Hkeyed p Hp). cbn in *. congruence. }
  pose proof (sort_keyed_ascending _ _ Hintk Hsort) as Hsorted.
  assert (Hk : Forall (fun p => key (snd p) = Ok (fst p)) sorted).
  { apply sort_keyed_perm in Hsort. rewrite <- Hsort. assumption. }
  clear - Hsorted Hk.
  induction Hsorted as [|p sorted Hs IH Hp]; cbn; [constructor|].
  apply Forall_cons in Hk as [Hkp Hk].
  constructor; [apply IH; assumption|].
  rewrite Forall_map. rewrite Forall_forall in Hp, Hk. apply Forall_forall.
  intros q Hq. destruct (Hp q Hq) as (m & n & Hm & Hn & Hle).
  exists m, n. cbn. rewrite Hkp, (Hk q Hq), Hm, Hn. auto.
Qed.

End Sorting.

(** ** What the retrieval helpers return *)

Section RetrievalBehaviour.
Context {C : Type} `{!ResponseCache C}.
Variable net : Network.
Variable repr : PyVal -> string.
Variable float_of_str : string -> option float.
Variable int_of_str : string -> Res Z.

Lemma scan_available_player_named players_data key :
  preserves (Forall (has_true_field "name"))
    (scan_available_player players_data key).
Proof.
  unfold scan_available_player.
  apply preserves_bind; [apply preserves_lift|]. intros player_array.
  repeat case_match; try apply preserves_ret.
  apply preserves_bind; [apply preserves_with_locals|]. intros info.
  apply preserves_when. intros Hname. apply preserves_append.
  exists info. auto.
Qed.

Lemma scan_ranked_player_named players_data key :
  preserves (Forall (has_true_field "name"))
    (scan_ranked_player int_of_str players_data key).
Proof.
  unfold scan_ranked_player.
  apply preserves_bind; [apply preserves_lift|]. intros player_array.
  repeat case_match; try apply preserves_ret.
  apply preserves_bind; [apply preserves_lift|]. intros key_number.
  apply preserves_bind; [apply preserves_with_locals|]. intros info.
  apply preserves_when. intros Hname. apply preserves_append.
  exists info. auto.
Qed.

Lemma scan_roster_player_named players key :
  preserves (Forall (has_true_field "name"))
    (scan_roster_player repr players key).
Proof.
  unfold scan_roster_player.
  apply preserves_bind; [apply preserves_lift|]. intros player_array.
  repeat case_match; try apply preserves_ret.
  all: apply preserves_bind;
    [first [apply preserves_with_locals | apply preserves_ret]|].
  all: intros info; apply preserves_when; intros Hname.
  all: apply preserves_append; exists info; auto.
Qed.

Lemma scan_team_info_keyed teams key :
  preserves (Forall (has_true_field "team_key")) (scan_team_info teams key).
Proof.
  unfold scan_team_info.
  apply preserves_bind; [apply preserves_lift|]. intros team_array.
  repeat case_match; try apply preserves_ret.
  apply preserves_bind; [apply preserves_with_locals|]. intros info.
  apply preserves_when. intros Hkey. apply preserves_append.
  exists info. auto.
Qed.

Lemma parse_available_players_named data players :
  parse_available_players data = Ok players ->
  Forall (has_true_field "name") players.
Proof.
  unfold parse_available_players, res_bind. intros Hrun.
  repeat case_match; simplify_eq; try constructor.
  eapply run_locals_keeps; [|constructor|eassumption].
  apply preserves_for_in. intros key. apply scan_available_player_named.
Qed.

Lemma parse_ranked_players_named data players :
  parse_ranked_players int_of_str data = Ok players ->
  Forall (has_true_field "name") players.
Proof.
  unfold parse_ranked_players, res_bind. intros Hrun.
  repeat case_match; simplify_eq; try constructor.
  eapply run_locals_keeps; [|constructor|eassumption].
  apply preserves_for_in. intros key. apply scan_ranked_player_named.
Qed.

Lemma scan_team_item_named item :
  preserves (Forall (has_true_field "name")) (scan_team_item repr item).
Proof.
  unfold scan_team_item.
  apply preserves_bind; [apply preserves_and_then|]. intros has_roster.
  apply preserves_when. intros _.
  apply preserves_bind; [apply preserves_lift|]. intros roster_data.
  apply preserves_bind; [apply preserves_lift|]. intros has_first.
  apply preserves_bind.
  { destruct has_first; [apply preserves_lift | apply preserves_ret]. }
  intros has_players. apply preserves_when. intros _.
  apply preserves_bind; [apply preserves_lift|]. intros first.
  apply preserves_bind; [apply preserves_lift|]. intros players.
  apply preserves_bind; [apply preserves_lift|]. intros keys.
  apply preserves_for_in. intros key. apply scan_roster_player_named.
Qed.

Lemma parse_roster_named data roster :
  parse_roster repr data = Ok roster ->
  Forall (has_true_field "name") roster.
Proof.
  unfold parse_roster, res_bind. intros Hrun.
  repeat case_match; simplify_eq.
  eapply run_locals_keeps; [|constructor|eassumption].
  apply preserves_for_in. intros item. apply scan_team_item_named.
Qed.

Lemma parse_teams_result data teams :
  parse_teams data = Ok teams ->
  Forall (has_true_field "team_key") teams
  /\ (Forall (fun t => exists n,
                 py_get t "draft_position" (PyInt 999) = Ok (PyInt n)) teams ->
      StronglySorted in_draft_order teams).
Proof.
  unfold parse_teams, res_bind. intros Hrun.
  destruct (py_get data "fantasy_content" (PyDict [])) as [fc|]; [|discriminate].
  destruct (py_get fc "league" (PyList [])) as [league|]; [|discriminate].
  destruct (second_element_field league "teams") as [found|]; [|discriminate].
  match type of Hrun with
  | match ?parsed with _ => _ end = _ =>
      destruct parsed as [teams_list|] eqn:Hparsed; [|discriminate]
  end.
  assert (Hkeyed : Forall (has_true_field "team_key") teams_list).
  { destruct found as [ts|]; [|injection Hparsed as <-; constructor].
    destruct (py_iter ts) as [keys|]; [|discriminate].
    eapply run_locals_keeps; [|constructor|eassumption].
    apply preserves_for_in. intros key. apply scan_team_info_keyed. }
  pose proof (py_sorted_perm _ _ _ Hrun) as Hperm.
  split.
  - rewrite <- Hperm. exact Hkeyed.
  - intros Hint. rewrite <- Hperm in Hint.
    exact (py_sorted_ascending _ _ _ Hrun Hint).
Qed.

(** The two player helpers never raise and return a list. *)
Lemma get_waiver_wire_players_result league_key position sort count (w : World C) :
  exists players w',
    get_waiver_wire_players net repr league_key position sort count w
    = (Ok (PyList players), w')
    /\ Forall (has_true_field "name") players.
Proof.
  unfold get_waiver_wire_players.
  match goal with
  | |- exists players w', try_except ?body _ w = _ /\ _ =>
      destruct (try_except_returns (S := World C) (A := PyVal) body
                  (PyList [])
                  (fun v => exists l, v = PyList l
                                      /\ Forall (has_true_field "name") l) w)
        as (v & w' & Hrun & l & -> & Hl)
  end.
  - intros v w' Hrun.
    apply bind_ok_inv in Hrun as (st & w1 & _ & Hrun).
    apply bind_ok_inv in Hrun as (data & w2 & _ & Hrun).
    apply bind_ok_inv in Hrun as (players & w3 & Hparse & Hrun).
    injection Hrun as <- _. injection Hparse as Hparse _.
    exists players. split; [reflexivity|].
    exact (parse_available_players_named _ _ Hparse).
  - exists []. split; [reflexivity | constructor].
  - eauto.
Qed.

Lemma get_draft_rankings_result league_key position count (w : World C) :
  exists players w',
    get_draft_rankings net repr float_of_str int_of_str league_key position count w
    = (Ok (PyList players), w')
    /\ Forall (has_true_field "name") players.
Proof.
  unfold get_draft_rankings.
  match goal with
  | |- exists players w', try_except ?body _ w = _ /\ _ =>
      destruct (try_except_returns (S := World C) (A := PyVal) body
                  (PyList [])
                  (fun v => exists l, v = PyList l
                                      /\ Forall (has_true_field "name") l) w)
        as (v & w' & Hrun & l & -> & Hl)
  end.
  - intros v w' Hrun.
    apply bind_ok_inv in Hrun as (chosen & w1 & _ & Hrun).
    destruct chosen as [key|].
    + apply bind_ok_inv in Hrun as (data & w2 & _ & Hrun).
      apply bind_ok_inv in Hrun as (players & w3 & Hparse & Hrun).
      apply bind_ok_inv in Hrun as (sorted & w4 & Hsort & Hrun).
      injection Hrun as <- _. injection Hparse as Hparse _.
      injection Hsort as Hsort _.
      exists sorted. split; [reflexivity|].
      rewrite <- (py_sorted_perm _ _ _ Hsort).
      exact (parse_ranked_players_named _ _ Hparse).
    + injection Hrun as <- _. exists []. split; [reflexivity | constructor].
  - exists []. split; [reflexivity | constructor].
  - eauto.
Qed.

Lemma get_all_teams_info_result league_key (w : World C) :
  exists teams w',
    get_all_teams_info net league_key w = (Ok (PyList teams), w')
    /\ Forall (has_true_field "team_key") teams
    /\ (Forall (fun t => exists n,
                   py_get t "draft_position" (PyInt 999) = Ok (PyInt n))
          teams ->
        StronglySorted in_draft_order teams).
Proof.
  unfold get_all_teams_info.
  match goal with
  | |- exists teams w', try_except ?body _ w = _ /\ _ =>
      destruct (try_except_returns (S := World C) (A := PyVal) body
                  (PyList [])
                  (fun v =>
                     exists l,
                       v = PyList l
                       /\ Forall (has_true_field "team_key") l
                       /\ (Forall (fun t => exists n,
                                      py_get t "draft_position" (PyInt 999)
                                      = Ok (PyInt n)) l ->
                           StronglySorted in_draft_order l)) w)
        as (v & w' & Hrun & l & -> & Hl)
  end.
  - intros v w' Hrun.
    apply bind_ok_inv in Hrun as (data & w1 & _ & Hrun).
    apply bind_ok_inv in Hrun as (teams & w2 & Hparse & Hrun).
    injection Hrun as <- _. injection Hparse as Hparse _.
    exists teams. split; [reflexivity|].
    exact (parse_teams_result _ _ Hparse).
  - exists []. split; [reflexivity|]. split; constructor.
  - eauto.
Qed.

Lemma get_user_team_info_result league_key (w : World C) :
  exists v w',
    get_user_team_info net league_key w = (Ok v, w')
    /\ (v = PyNone \/ has_true_field "team_key" v).
Proof.
  unfold get_user_team_info.
  apply try_except_returns; [|auto].
  intros v w' Hrun.
  apply bind_ok_inv in Hrun as (data & w1 & _ & Hrun).
  apply bind_ok_inv in Hrun as (user_guid & w2 & _ & Hrun).
  unfold lift in Hrun. injection Hrun as Hparse _.
  exact (find_user_team_result _ _ _ Hparse).
Qed.

(** Every player that [get_waiver_wire_players] or [get_draft_rankings]
    returns is a dict whose [name] counts as true: a player for which the
    payload gives no name, or an empty one, is left out.  Neither function
    raises. *)
Theorem player_lists_hold_named_players
    (league_key position sort count : PyVal) (w : World C) :
  (exists players w',
      get_waiver_wire_players net repr league_key position sort count w
      = (Ok (PyList players), w')
      /\ Forall (has_true_field "name") players)
  /\ (exists players w',
        get_draft_rankings net repr float_of_str int_of_str league_key position count w
        = (Ok (PyList players), w')
        /\ Forall (has_true_field "name") players).
Proof.
  split.
  - apply get_waiver_wire_players_result.
  - apply get_draft_rankings_result.
Qed.

(** [get_all_teams_info] never raises; every team it returns is a dict whose
    [team_key] counts as true. *)
Theorem get_all_teams_info_teams_have_keys (league_key : string) (w : World C) :
  exists teams w',
    get_all_teams_info net league_key w = (Ok (PyList teams), w')
    /\ Forall (has_true_field "team_key") teams.
Proof.
  destruct (get_all_teams_info_result league_key w)
    as (teams & w' & Hrun & Hkeys & _).
  eauto.
Qed.

(** The teams [get_all_teams_info] returns are in draft order, when the
    draft position of each is an integer or absent (absent counting as
    999). *)
Theorem get_all_teams_info_draft_order
    (league_key : string) (w : World C) teams w' :
  get_all_teams_info net league_key w = (Ok (PyList teams), w') ->
  Forall (fun t => exists n,
             py_get t "draft_position" (PyInt 999) = Ok (PyInt n)) teams ->
  StronglySorted in_draft_order teams.
Proof.
  intros Hrun Hint.
  destruct (get_all_teams_info_result league_key w)
    as (teams0 & w0 & Hrun0 & _ & Hsorted).
  rewrite Hrun in Hrun0. injection Hrun0 as <- _.
  exact (Hsorted Hint).
Qed.

(** When the roster payload parses, every entry of the roster that
    [ff_get_roster] returns is a dict whose [name] counts as true; the parse
    runs outside any [try], so an exception it raises is raised by the
    tool. *)
Theorem ff_get_roster_entries_named
    (league_key : string) (w : World C) team_info w1 team_key data w2 :
  get_user_team_info net league_key w = (Ok team_info, w1) ->
  truthy team_info = true ->
  py_item team_info "team_key" = Ok team_key ->
  yahoo_api_call net ("team/" +:+ py_str repr team_key +:+ "/roster")
    true true w1 = (Ok data, w2) ->
  (forall e,
      parse_roster repr data = Raise e ->
      ff_get_roster net repr league_key w = (Raise e, w2))
  /\ (forall roster,
        parse_roster repr data = Ok roster ->
        Forall (has_true_field "name") roster
        /\ exists result,
            ff_get_roster net repr league_key w = (Ok (PyDict result), w2)
            /\ dict_lookup "roster" result = Some (PyList roster)
            /\ dict_lookup "team_key" result = Some team_key).
Proof.
  intros Hteam Htruthy Hkey Hcall.
  assert (Hdict : exists d, team_info = PyDict d).
  { destruct team_info; try discriminate Hkey. eauto. }
  destruct Hdict as (d & ->).
  split.
  - intros e Hparse.
    unfold ff_get_roster, bind, lift. rewrite Hteam, Htruthy, Hkey, Hcall, Hparse.
    reflexivity.
  - intros roster Hparse.
    split; [exact (parse_roster_named _ _ Hparse)|].
    unfold ff_get_roster, bind, lift, ret.
    rewrite Hteam, Htruthy, Hkey, Hcall, Hparse. cbn.
    eexists. split; [reflexivity|]. split; reflexivity.
Qed.

(** [ff_get_players] runs the parse of [get_waiver_wire_players] outside any
    [try]: a parse error is raised by the tool.  When the payload parses,
    the [count] field is the number of players parsed, while the list is cut
    to the [count] argument; every entry has a [name] that counts as
    true. *)
Theorem ff_get_players_result
    (league_key position : string) (count : Z) (w : World C) data w1 :
  yahoo_api_call net
    ("league/" +:+ league_key +:+ "/players;status=A"
     +:+ (if truthy (PyStr position) then ";position=" +:+ position else "")
     +:+ ";sort=OR;count=" +:+ pretty count) true true w = (Ok data, w1) ->
  (forall e,
      parse_available_players data = Raise e ->
      ff_get_players net league_key position count w = (Raise e, w1))
  /\ (forall players,
        parse_available_players data = Ok players ->
        ff_get_players net league_key position count w =
          (Ok (PyDict [("league_key", PyStr league_key);
                       ("position", py_or (PyStr position) (PyStr "all"));
                       ("count", PyInt (Z.of_nat (length players)));
                       ("players", PyList (take_upto count players))]), w1)
        /\ (length (take_upto count players) <= length players)%nat
        /\ (0 <= count ->
            length (take_upto count players)
            = Nat.min (Z.to_nat count) (length players))
        /\ Forall (has_true_field "name") (take_upto count players)).
Proof.
  intros Hcall. split.
  - intros e Hparse. unfold ff_get_players, bind, lift.
    rewrite Hcall, Hparse. reflexivity.
  - intros players Hparse. split; [|split; [|split]].
    + unfold ff_get_players, bind, lift, ret.
      rewrite Hcall, Hparse. reflexivity.
    + unfold take_upto. destruct (0 <=? count); rewrite length_firstn; lia.
    + intros Hcount. unfold take_upto.
      destruct (Z.leb_spec 0 count); [|lia]. apply length_firstn.
    + pose proof (parse_available_players_named _ _ Hparse) as Hnamed.
      unfold take_upto. destruct (0 <=? count); apply Forall_take; assumption.
Qed.

(** [ff_get_draft_rankings] is decided by the list that
    [get_draft_rankings] returns for the same league, position and count,
    a list of players with a name.  For the empty list the tool raises the
    [ToolError] that names the league; for any other it returns that list
    under [rankings], with its length under [total_players] and the position
    it was given.  The tool leaves the state the helper left. *)
Theorem ff_get_draft_rankings_result
    (league_key position : string) (count : Z) (w : World C) :
  exists players w',
    get_draft_rankings net repr float_of_str int_of_str
      (PyStr league_key) (PyStr position) (PyInt count) w
    = (Ok (PyList players), w')
    /\ Forall (has_true_field "name") players
    /\ ff_get_draft_rankings net repr float_of_str int_of_str
         league_key position count w
       = (match players with
          | [] =>
              Raise (mkExc ToolError
                       ("Could not retrieve draft rankings for league "
                        +:+ league_key))
          | _ :: _ =>
              Ok (PyDict [("position", PyStr position);
                          ("total_players",
                           PyInt (Z.of_nat (length players)));
                          ("rankings", PyList players)])
          end, w').
Proof.
  destruct (get_draft_rankings_result (PyStr league_key) (PyStr position)
              (PyInt count) w) as (players & w' & Hrun & Hnamed).
  exists players, w'. split; [exact Hrun|]. split; [exact Hnamed|].
  unfold ff_get_draft_rankings, bind. rewrite Hrun.
  destruct players as [|p players]; reflexivity.
Qed.

(** [ff_get_draft_results] is decided by the list that [get_all_teams_info]
    returns for the same league, a list of teams with a team key.  For the
    empty list the tool raises the [ToolError] that names the league; for
    any other it returns that list under [draft_results], with its length
    under [total_teams] and the league key it was given.  The tool leaves
    the state the helper left. *)
Theorem ff_get_draft_results_result (league_key : string) (w : World C) :
  exists teams w',
    get_all_teams_info net league_key w = (Ok (PyList teams), w')
    /\ Forall (has_true_field "team_key") teams
    /\ ff_get_draft_results net league_key w
       = (match teams with
          | [] =>
              Raise (mkExc ToolError
                       ("Could not retrieve draft results for league "
                        +:+ league_key))
          | _ :: _ =>
              Ok (PyDict [("league_key", PyStr league_key);
                          ("total_teams", PyInt (Z.of_nat (length teams)));
                          ("draft_results", PyList teams)])
          end, w').
Proof.
  destruct (get_all_teams_info_result league_key w)
    as (teams & w' & Hrun & Hkeys & _).
  exists teams, w'. split; [exact Hrun|]. split; [exact Hkeys|].
  unfold ff_get_draft_results, bind. rewrite Hrun.
  destruct teams as [|t teams]; reflexivity.
Qed.

(** Without a league key ([None] or the empty string) [get_draft_rankings]
    ranks the players of the first league of the memo; with an empty memo
    and no league discovered it returns the empty list without a players
    request. *)
Theorem get_draft_rankings_default_league
    (league_key position count : PyVal) (w : World C) :
  truthy league_key = false ->
  (forall first_key league rest,
      LEAGUES_CACHE w = (first_key, league) :: rest ->
      truthy first_key = true ->
      get_draft_rankings net repr float_of_str int_of_str league_key position count w
      = get_draft_rankings net repr float_of_str int_of_str first_key position count w)
  /\ (forall w1,
        discover_leagues net w = (Ok [], w1) ->
        get_draft_rankings net repr float_of_str int_of_str league_key position count w
        = (Ok (PyList []), w1)).
Proof.
  intros Hkey. split.
  - intros first_key league rest Hmemo Hfirst.
    unfold get_draft_rankings, try_except, bind at 1 3.
    rewrite Hkey, Hfirst. cbn [negb].
    unfold discover_leagues, bind at 1 2, read_leagues. rewrite Hmemo.
    reflexivity.
  - intros w1 Hdiscover.
    unfold get_draft_rankings, try_except, bind.
    rewrite Hkey. cbn [negb]. rewrite Hdiscover. reflexivity.
Qed.

(** [get_user_team_key] never raises: it yields [None] when
    [get_user_team_info] finds no team, and otherwise the [team_key] of the
    team, which counts as true. *)
Theorem get_user_team_key_result (league_key : string) (w : World C) :
  exists team_info w',
    get_user_team_info net league_key w = (Ok team_info, w')
    /\ (team_info = PyNone /\
        get_user_team_key net league_key w = (Ok PyNone, w')
        \/ exists d,
            team_info = PyDict d
            /\ truthy (local d "team_key") = true
            /\ get_user_team_key net league_key w
               = (Ok (local d "team_key"), w')).
Proof.
  destruct (get_user_team_info_result league_key w)
    as (v & w' & Hrun & Hv).
  exists v, w'. split; [exact Hrun|].
  unfold get_user_team_key, bind. rewrite Hrun.
  destruct Hv as [-> | (d & -> & Hkey)].
  - left. split; reflexivity.
  - right. exists d. split; [reflexivity|]. split; [exact Hkey|].
    destruct d as [|kv d]; [discriminate Hkey|]. reflexivity.
Qed.

(** [ff_get_matchup] treats week 0 as no week: the request and the result
    are those for [None], for the current week.  When the user has no team
    in the league it raises a [ToolError] without a matchup request. *)
Theorem ff_get_matchup_week (league_key : string) (w : World C) :
  ff_get_matchup net repr league_key (PyInt 0) w
  = ff_get_matchup net repr league_key PyNone w
  /\ (forall week w',
        get_user_team_info net league_key w = (Ok PyNone, w') ->
        ff_get_matchup net repr league_key week w
        = (Raise (mkExc ToolError
                    ("Could not find your team in league " +:+ league_key)),
           w')).
Proof.
  split; [reflexivity|].
  intros week w' Hnone.
  unfold ff_get_matchup, get_user_team_key, bind. rewrite Hnone. reflexivity.
Qed.

(** [ff_get_draft_recommendation], [ff_analyze_draft_state] and
    [ff_get_opponent_roster] never return: the helper each of them calls is
    a name the module never defines, and the [NameError] is wrapped in a
    [ToolError], raised in the state the tool was called in. *)
Theorem delegating_tools_always_raise
    (league_key strategy : string) (n : Z) (week pick : PyVal) (w : World C) :
  ff_get_draft_recommendation league_key strategy n pick w
  = (Raise (mkExc ToolError
              ("Draft recommendation failed: "
               +:+ "name 'get_draft_recommendation_simple' is not defined")),
     w)
  /\ ff_analyze_draft_state league_key strategy w
     = (Raise (mkExc ToolError
                 ("Draft analysis failed: "
                  +:+ "name 'analyze_draft_state_simple' is not defined"
                  +:+ ". Suggestion: Try using ff_get_roster to check "
                  +:+ "current team composition")), w)
  /\ ff_get_opponent_roster league_key week w
     = (Raise (mkExc ToolError
                 ("Failed to get opponent roster: "
                  +:+ "name 'get_opponent_roster_simple' is not defined"
                  +:+ matchup_suggestion)), w).
Proof.
  split; [|split]; reflexivity.
Qed.

(** [ff_get_opponent_roster_comparison] and [ff_get_all_teams] never return
    either.  Without a league key they raise the [ToolError] that asks for
    one; with a league key, the helper they call is a name the module never
    defines, and the [NameError] is wrapped in a [ToolError].  The state is
    the one the tool was called in. *)
Theorem keyed_delegating_tools_always_raise
    (league_key : string) (week : PyVal) (w : World C) :
  (exists msg,
      ff_get_opponent_roster_comparison league_key week w
      = (Raise (mkExc ToolError msg), w))
  /\ (exists msg,
        ff_get_all_teams league_key w = (Raise (mkExc ToolError msg), w))
  /\ (league_key <> "" ->
      ff_get_opponent_roster_comparison league_key week w
      = (Raise (mkExc ToolError
                  ("Failed to get roster comparison: "
                   +:+ "name 'get_opponent_roster_comparison_simple' "
                   +:+ "is not defined" +:+ matchup_suggestion)), w)
      /\ ff_get_all_teams league_key w
         = (Raise (mkExc ToolError
                     ("Failed to get all teams: "
                      +:+ "name 'get_all_teams_with_rosters' is not defined"
                      +:+ ". Suggestion: Check that the league key is "
                      +:+ "valid")), w))
  /\ (ff_get_opponent_roster_comparison "" week w
      = (Raise (mkExc ToolError "League key is required"), w)
      /\ ff_get_all_teams "" w
         = (Raise (mkExc ToolError "League key is required"), w)).
Proof.
  assert (Hkey : league_key <> "" -> truthy (PyStr league_key) = true).
  { intros Hne. cbn. apply String.eqb_neq in Hne. rewrite Hne. reflexivity. }
  split; [|split; [|split]].
  - unfold ff_get_opponent_roster_comparison.
    destruct (truthy (PyStr league_key)); cbn; eexists; reflexivity.
  - unfold ff_get_all_teams.
    destruct (truthy (PyStr league_key)); cbn; eexists; reflexivity.
  - intros Hne.
    unfold ff_get_opponent_roster_comparison, ff_get_all_teams.
    rewrite (Hkey Hne). split; reflexivity.
  - split; reflexivity.
Qed.

End RetrievalBehaviour.

(** ** The league memo *)

(** One step of an invariant proof: the combinators keep what their parts
    keep. *)
Ltac keeps :=
  repeat lazymatch goal with
    | |- preserves _ (ret _) => apply preserves_ret
    | |- preserves _ (lift _) => apply preserves_lift
    | |- preserves _ (raise _ _) => apply preserves_raise
    | |- preserves _ (and_then _ _) => apply preserves_and_then
    | |- preserves _ (with_locals _ _) => apply preserves_with_locals
    | |- preserves _ (for_in _ _) => apply preserves_for_in; intros ?
    | |- preserves _ (when _ _) => apply preserves_when; intros ?
    | |- preserves _ (bind _ _) => apply preserves_bind; [|intros ?]
    | |- preserves _ (if ?c then _ else _) => destruct c
    end.

Section LeagueRecords.
Context {C : Type} `{!ResponseCache C}.
Variable net : Network.
Variable repr : PyVal -> string.

Lemma leagues_insert_records k v leagues :
  league_record v -> league_records leagues ->
  league_records (leagues_insert k v leagues).
Proof.
  intros Hv. unfold league_records.
  induction leagues as [|[k' v'] leagues IH]; cbn; intros Hl.
  - repeat constructor. assumption.
  - apply Forall_cons in Hl as [Hv' Hl].
    destruct (key_eqb k k'); constructor; auto.
Qed.

Lemma add_league_records league_dict :
  preserves league_records (add_league league_dict).
Proof.
  intros leagues Hl.
  unfold add_league, bind, lift, get_state, put_state, leagues_set.
  repeat case_match; simplify_eq; cbn; try assumption.
  all: apply leagues_insert_records; [|assumption].
  all: unfold league_record; eauto 10.
Qed.

Lemma parse_leagues_records data :
  preserves league_records (parse_leagues data).
Proof.
  unfold parse_leagues. keeps.
  unfold scan_user_item. keeps.
  unfold scan_game. keeps.
  unfold scan_league_key. keeps.
  apply add_league_records.
Qed.

Lemma league_records_lookup k leagues league :
  league_records leagues ->
  leagues_lookup k leagues = Some league ->
  league_record league.
Proof.
  unfold league_records.
  induction leagues as [|[k' v'] leagues IH]; cbn; [discriminate|].
  intros Hl. apply Forall_cons in Hl as [Hv' Hl].
  destruct (key_eqb k k'); [intros [= <-]; assumption | auto].
Qed.

Lemma discover_leagues_keeps_records (w : World C) :
  league_records (LEAGUES_CACHE w) ->
  league_records (LEAGUES_CACHE (snd (discover_leagues net w)))
  /\ forall leagues w',
      discover_leagues net w = (Ok leagues, w') -> league_records leagues.
Proof.
  intros Hw.
  destruct (LEAGUES_CACHE w) as [|kv rest] eqn:Hmemo.
  - rewrite discover_leagues_fetch by assumption.
    destruct (yahoo_api_call_state net leagues_endpoint true true w)
      as (Hframe & _).
    destruct (yahoo_api_call net leagues_endpoint true true w)
      as [[data|e] w1]; cbn [snd] in *.
    + assert (Hparsed : league_records
                          (snd (try_except (parse_leagues data)
                                  (fun _ => ret tt) []))).
      { apply preserves_try_except.
        - apply parse_leagues_records.
        - intros e. apply preserves_ret.
        - constructor. }
      split; [exact Hparsed|].
      intros leagues w' [= <- _]. exact Hparsed.
    + split; [|discriminate]. rewrite Hframe, Hmemo. constructor.
  - unfold discover_leagues, bind, read_leagues, ret. rewrite Hmemo. cbn.
    split; [rewrite Hmemo; assumption|].
    intros leagues w' [= <- _]. assumption.
Qed.

Lemma league_summaries leagues :
  league_records leagues ->
  exists summaries,
    comprehension league_summary (map snd leagues) = Ok summaries
    /\ length summaries = length leagues.
Proof.
  unfold league_records.
  induction leagues as [|[k v] leagues IH]; cbn; intros Hl.
  - exists []. split; reflexivity.
  - apply Forall_cons in Hl as [Hv Hl].
    destruct (IH Hl) as (summaries & Hrun & Hlen).
    destruct Hv as (key & id & name & season & num_teams & scoring
                    & current_week & is_finished & Hv).
    cbn in Hv. subst v. cbn. rewrite Hrun. cbn.
    eexists. split; [reflexivity|]. cbn. congruence.
Qed.

(** The league memo holds league records only: whatever the payload,
    [discover_leagues] stores and returns a mapping each of whose values has
    the eight fields [key], [id], [name], [season], [num_teams],
    [scoring_type], [current_week] and [is_finished]. *)
Theorem discover_leagues_stores_league_records (w : World C) :
  league_records (LEAGUES_CACHE w) ->
  league_records (LEAGUES_CACHE (snd (discover_leagues net w)))
  /\ forall leagues w',
      discover_leagues net w = (Ok leagues, w') -> league_records leagues.
Proof. apply discover_leagues_keeps_records. Qed.

(** [ff_get_leagues] adds no failure of its own to those of
    [discover_leagues]: when no league is found it returns a dict with an
    [error] entry instead of raising, and otherwise one summary per league,
    with their number under [total_leagues]; no field of a league record is
    ever missing. *)
Theorem ff_get_leagues_result (w : World C) :
  league_records (LEAGUES_CACHE w) ->
  (forall e w',
      discover_leagues net w = (Raise e, w') ->
      ff_get_leagues net w = (Raise e, w'))
  /\ (forall w',
        discover_leagues net w = (Ok [], w') ->
        ff_get_leagues net w =
          (Ok (PyDict
                 [("error", PyStr "No active NFL leagues found");
                  ("suggestion",
                   PyStr ("Make sure your Yahoo token is valid and you have "
                          +:+ "active leagues"))]), w'))
  /\ (forall leagues w',
        discover_leagues net w = (Ok leagues, w') ->
        leagues <> [] ->
        exists summaries,
          ff_get_leagues net w =
            (Ok (PyDict [("total_leagues", PyInt (Z.of_nat (length leagues)));
                         ("leagues", PyList summaries)]), w')
          /\ length summaries = length leagues).
Proof.
  intros Hw. split; [|split].
  - intros e w' Hrun. unfold ff_get_leagues, bind. rewrite Hrun. reflexivity.
  - intros w' Hrun. unfold ff_get_leagues, bind. rewrite Hrun. reflexivity.
  - intros leagues w' Hrun Hne.
    destruct (discover_leagues_keeps_records w Hw) as [_ Hrecords].
    destruct (league_summaries leagues (Hrecords _ _ Hrun))
      as (summaries & Hsum & Hlen).
    exists summaries. split; [|exact Hlen].
    unfold ff_get_leagues, bind, lift, ret. rewrite Hrun.
    destruct leagues as [|kv leagues]; [contradiction|].
    rewrite Hsum. reflexivity.
Qed.

(** [ff_get_league_info] raises a [ToolError] that lists the known leagues
    when the league is not among those discovered, without asking for the
    team.  For a known league, once the team lookup and the league request
    have returned, it returns a dict: [status] is ["finished"] exactly when
    [is_finished] counts as true, and without a team of the user
    [your_team] names none. *)
Theorem ff_get_league_info_result
    (league_key : string) (w : World C) leagues w1 :
  league_records (LEAGUES_CACHE w) ->
  discover_leagues net w = (Ok leagues, w1) ->
  (leagues_lookup (PyStr league_key) leagues = None ->
   ff_get_league_info net repr league_key w =
     (Raise (mkExc ToolError
               ("League " +:+ league_key +:+ " not found. Available leagues: "
                +:+ repr (PyList (map fst leagues)))), w1))
  /\ (forall league data w3,
        leagues_lookup (PyStr league_key) leagues = Some league ->
        yahoo_api_call net ("league/" +:+ league_key) true true
          (snd (get_user_team_info net league_key w1)) = (Ok data, w3) ->
        exists result is_finished,
          ff_get_league_info net repr league_key w = (Ok (PyDict result), w3)
          /\ py_item league "is_finished" = Ok is_finished
          /\ dict_lookup "status" result
             = Some (PyStr (if truthy is_finished then "finished"
                            else "active"))
          /\ (fst (get_user_team_info net league_key w1) = Ok PyNone ->
              dict_lookup "your_team" result
              = Some (PyDict [("name", PyStr "Not found");
                              ("key", PyNone);
                              ("draft_position", PyNone);
                              ("draft_grade", PyNone)]))).
Proof.
  intros Hw Hdiscover. split.
  - intros Hnone. unfold ff_get_league_info, bind. rewrite Hdiscover, Hnone.
    reflexivity.
  - intros league data w3 Hfound Hcall.
    destruct (discover_leagues_keeps_records w Hw) as [_ Hrecords].
    pose proof (league_records_lookup _ _ _ (Hrecords _ _ Hdiscover) Hfound)
      as (key & id & name & season & num_teams & scoring & current_week
          & is_finished & ->).
    destruct (get_user_team_info_result net league_key w1)
      as (team_info & w2 & Hteam & Hshape).
    rewrite Hteam in Hcall. cbn [snd] in Hcall.
    unfold ff_get_league_info, bind, lift, ret.
    rewrite Hdiscover, Hfound, Hteam, Hcall. cbn.
    destruct Hshape as [-> | (d & -> & Hkey)].
    + eexists. exists is_finished. split; [reflexivity|].
      split; [reflexivity|]. cbn.
      split; [destruct (truthy is_finished); reflexivity | reflexivity].
    + assert (Hd : truthy (PyDict d) = true).
      { destruct d; [discriminate Hkey | reflexivity]. }
      rewrite Hd. cbn.
      eexists. exists is_finished. split; [reflexivity|].
      split; [reflexivity|]. cbn.
      split; [destruct (truthy is_finished); reflexivity | discriminate].
Qed.

End LeagueRecords.

(** ** The retrieval helpers and the tools on more sample processes *)

(** The two teams of the sample league come back in draft order. *)
Lemma get_all_teams_info_draft_order_witness :
  StronglySorted in_draft_order [air_raid_team; gridiron_gang_team].
Proof.
  apply (get_all_teams_info_draft_order
           (constant_network (reply_with teams_payload) (Ok token_issued))
           "461.l.61410" sample_world
           [air_raid_team; gridiron_gang_team]
           (snd (get_all_teams_info
                   (constant_network (reply_with teams_payload)
                      (Ok token_issued))
                   "461.l.61410" sample_world))).
  - vm_compute. reflexivity.
  - repeat constructor; eexists; reflexivity.
Defined.

(** The roster of the user's team: the player without a name is left
    out. *)
Lemma ff_get_roster_entries_named_witness :
  exists result,
    ff_get_roster roster_network sample_repr "461.l.61410" sample_world
    = (Ok (PyDict result),
       snd (ff_get_roster roster_network sample_repr "461.l.61410"
              sample_world))
    /\ dict_lookup "roster" result
       = Some (PyList [PyDict [("name", PyStr "Josh Allen");
                               ("position", PyStr "QB")]]).
Proof.
  destruct (ff_get_roster_entries_named
              roster_network sample_repr "461.l.61410" sample_world
              (PyDict [("team_key", PyStr "461.l.61410.t.1");
                       ("team_name", PyStr "Gridiron Gang");
                       ("draft_grade", PyNone);
                       ("draft_position", PyInt 2)])
              (snd (get_user_team_info roster_network "461.l.61410"
                      sample_world))
              (PyStr "461.l.61410.t.1")
              roster_payload
              (snd (ff_get_roster roster_network sample_repr "461.l.61410"
                      sample_world)))
    as [_ Hroster].
  - vm_compute. reflexivity.
  - reflexivity.
  - reflexivity.
  - vm_compute. reflexivity.
  - destruct (Hroster [PyDict [("name", PyStr "Josh Allen");
                               ("position", PyStr "QB")]])
      as (_ & result & Hrun & Hlist & _).
    + vm_compute. reflexivity.
    + exists result. split; assumption.
Defined.

(** Two players are parsed and one is asked for: [count] is 2 and the list
    holds one player. *)
Lemma ff_get_players_result_witness :
  fst (ff_get_players
         (constant_network (reply_with named_players_payload)
            (Ok token_issued))
         "461.l.61410" "QB" 1 sample_world)
  = Ok (PyDict
          [("league_key", PyStr "461.l.61410");
           ("position", PyStr "QB");
           ("count", PyInt 2);
           ("players",
            PyList [PyDict [("player_key", PyStr "461.p.1");
                            ("name", PyStr "Josh Allen")]])]).
Proof.
  destruct (ff_get_players_result
              (constant_network (reply_with named_players_payload)
                 (Ok token_issued))
              "461.l.61410" "QB" 1 sample_world named_players_payload
              (snd (yahoo_api_call
                      (constant_network (reply_with named_players_payload)
                         (Ok token_issued))
                      "league/461.l.61410/players;status=A;position=QB;sort=OR;count=1"
                      true true sample_world)))
    as [_ Hplayers].
  - vm_compute. reflexivity.
  - destruct (Hplayers
                [PyDict [("player_key", PyStr "461.p.1");
                         ("name", PyStr "Josh Allen")];
                 PyDict [("player_key", PyStr "461.p.2");
                         ("name", PyStr "Lamar Jackson")]])
      as (Hrun & _).
    + vm_compute. reflexivity.
    + rewrite Hrun. reflexivity.
Defined.

(** No league key and no league discovered: the rankings are empty. *)
Lemma get_draft_rankings_default_league_witness :
  fst (get_draft_rankings
         (constant_network (Ok no_leagues_ok) (Ok token_issued))
         sample_repr sample_float_of_str sample_int_of_str PyNone (PyStr "all") (PyInt 50)
         sample_world)
  = Ok (PyList []).
Proof.
  destruct (get_draft_rankings_default_league
              (constant_network (Ok no_leagues_ok) (Ok token_issued))
              sample_repr sample_float_of_str sample_int_of_str PyNone (PyStr "all") (PyInt 50)
              sample_world) as [_ Hnone].
  - reflexivity.
  - rewrite (Hnone (snd (discover_leagues
                           (constant_network (Ok no_leagues_ok)
                              (Ok token_issued)) sample_world))).
    + reflexivity.
    + vm_compute. reflexivity.
Defined.

(** From the empty memo, discovery stores league records. *)
Lemma discover_leagues_stores_league_records_witness :
  league_records
    (LEAGUES_CACHE
       (snd (discover_leagues
               (constant_network (Ok leagues_ok) (Ok token_issued))
               sample_world))).
Proof.
  apply (discover_leagues_stores_league_records
           (constant_network (Ok leagues_ok) (Ok token_issued)) sample_world).
  constructor.
Defined.

(** One league is discovered: one summary is returned. *)
Lemma ff_get_leagues_result_witness :
  exists summaries,
    fst (ff_get_leagues (constant_network (Ok leagues_ok) (Ok token_issued))
           sample_world)
    = Ok (PyDict [("total_leagues", PyInt 1); ("leagues", PyList summaries)])
    /\ length summaries = 1%nat.
Proof.
  destruct (ff_get_leagues_result
              (constant_network (Ok leagues_ok) (Ok token_issued))
              sample_world) as (_ & _ & Hsome).
  - constructor.
  - destruct (Hsome [(PyStr "461.l.61410", one_league_record)]
                (snd (discover_leagues
                        (constant_network (Ok leagues_ok) (Ok token_issued))
                        sample_world)))
      as (summaries & Hrun & Hlen).
    + vm_compute. reflexivity.
    + discriminate.
    + exists summaries. rewrite Hrun. split; [reflexivity | exact Hlen].
Defined.

(** A league that was not discovered: the tool raises and names the known
    leagues. *)
Lemma ff_get_league_info_result_witness :
  fst (ff_get_league_info
         (constant_network (Ok leagues_ok) (Ok token_issued))
         sample_repr "999.l.1" sample_world)
  = Raise (mkExc ToolError
             "League 999.l.1 not found. Available leagues: <object>").
Proof.
  destruct (ff_get_league_info_result
              (constant_network (Ok leagues_ok) (Ok token_issued))
              sample_repr "999.l.1" sample_world
              [(PyStr "461.l.61410", one_league_record)]
              (snd (discover_leagues
                      (constant_network (Ok leagues_ok) (Ok token_issued))
                      sample_world)))
    as [Hunknown _].
  - constructor.
  - vm_compute. reflexivity.
  - rewrite Hunknown; reflexivity.
Defined.
